(** * Kokoro model preparation scripts: a shallow embedding

    Two scripts are embedded here, each in a module of its own, and their
    properties are proved in the modules that follow:

    - [AnalyzeAne]      .mobius/scripts/analyze_ane.py
    - [QuantizeKokoro]  .mobius/scripts/quantize_kokoro.py
    - [PyFacts], [AnalyzeAneFacts], [QuantizeKokoroFacts]

    Python values are modelled as follows.  A [str] is a [string] (the bytes
    of its UTF-8 encoding), an [int] is a [Z], a [float] is an IEEE 754
    binary64 number, a [list] is a [list], a [dict] is an association list
    that keeps insertion order and has at most one entry per key (module
    [Py]).  A call that may raise returns an [outcome]. *)

From Stdlib Require Import String Ascii List ZArith Bool Lia DecimalString.
From Stdlib Require Import SpecFloat Permutation Sorted.
Import ListNotations.
Open Scope string_scope.
Open Scope Z_scope.

(** ** Python values and helpers *)

Module Py.

(** An exception: its class and its message ([str(e)]). *)
Record exn : Type := Exn { exn_class : string; exn_msg : string }.

(** The result of a call: a value, or a raised exception. *)
Inductive outcome (A : Type) : Type :=
| Returned (a : A)
| Raised (e : exn).
Arguments Returned {A} a.
Arguments Raised {A} e.

(** [c.lower()] on one character of an ASCII name. *)
Definition lower_ascii (c : ascii) : ascii :=
  let n := nat_of_ascii c in
  if (Nat.leb 65 n && Nat.leb n 90)%bool then ascii_of_nat (n + 32) else c.

(** [s.lower()].  Operator and layer names are ASCII identifiers; bytes
    outside A..Z are left as they are. *)
Fixpoint lower (s : string) : string :=
  match s with
  | EmptyString => EmptyString
  | String c s' => String (lower_ascii c) (lower s')
  end.

(** [needle in hay] on strings: substring test. *)
Fixpoint contains (needle hay : string) : bool :=
  (String.prefix needle hay
   || match hay with
      | EmptyString => false
      | String _ hay' => contains needle hay'
      end)%bool.

(** [x in s] for a set (or list) of strings. *)
Definition mem (x : string) (s : list string) : bool :=
  existsb (String.eqb x) s.

(** [str(n)] for an int. *)
Definition str_of_int (n : Z) : string :=
  NilZero.string_of_int (Z.to_int n).

(** [max(l)] for a non-empty list of ints (the caller checks emptiness). *)
Definition max_of (l : list Z) : Z :=
  match l with
  | [] => 0
  | x :: l' => fold_left Z.max l' x
  end.

(** *** Dictionaries with string keys *)
Section Dict.
Context {V : Type}.

Definition dict : Type := list (string * V).

(** [d.get(k)] *)
Fixpoint get (k : string) (d : dict) : option V :=
  match d with
  | [] => None
  | (k', v) :: d' => if String.eqb k k' then Some v else get k d'
  end.

(** [d.get(k, dflt)] *)
Definition get_default (k : string) (dflt : V) (d : dict) : V :=
  match get k d with Some v => v | None => dflt end.

(** [d[k] = v]: an existing key keeps its place, a new one goes last. *)
Fixpoint set (k : string) (v : V) (d : dict) : dict :=
  match d with
  | [] => [(k, v)]
  | (k', v') :: d' =>
      if String.eqb k k' then (k, v) :: d' else (k', v') :: set k v d'
  end.

(** [list(d)]: the keys, in insertion order. *)
Definition keys (d : dict) : list string := map fst d.

End Dict.
Arguments dict V : clear implicits.

End Py.

Import Py.

(** ** analyze_ane.py *)

Module AnalyzeAne.

(** *** The loaded model, as the script reads it

    The script reads the object returned by [ct.models.MLModel] and its
    protobuf specification through attribute access only; the records
    below hold exactly the attributes it reads. *)

(** [spec.mlProgram]: functions, their block specializations, the
    operations of each block.  Only [op.type] is read. *)
Record Block : Type := { block_operations : list string }.
Record Function : Type :=
  { function_name : string; block_specializations : list Block }.

(** [spec.neuralNetwork.layers]: [layer.name] and
    [layer.WhichOneof('layer')], which is [None] when no layer kind is
    set. *)
Record Layer : Type :=
  { layer_name : string; layer_which : option string }.

(** [spec]: [WhichOneof('Type')] and the two graph representations. *)
Record Spec : Type :=
  { which_type : option string;
    mlProgram_functions : list Function;
    neuralNetwork_layers : list Layer }.

(** A feature description.  [hasattr(desc, 'type')] and
    [hasattr(desc.type, 'multiArrayType')] are the two options. *)
Record MultiArrayType : Type := { shape : list Z }.
Record FeatureType : Type := { multiArrayType : option MultiArrayType }.
Record FeatureDescription : Type :=
  { feature_name : string; feature_type : option FeatureType }.

Record MLModel : Type :=
  { get_spec : Spec;
    input_description : list FeatureDescription;
    output_description : list FeatureDescription }.

(** *** Static tables *)

Definition ANE_PROBLEMATIC_OPS : list string :=
  [ "custom"; "customLayer";
    "reshape_dynamic"; "slice_dynamic"; "gather_nd";
    "einsum" ].

Definition ANE_OPTIMIZED_OPS : list string :=
  [ "conv"; "conv2d"; "depthwise_conv2d"; "conv_transpose";
    "linear"; "matmul"; "batch_matmul";
    "relu"; "gelu"; "silu"; "sigmoid"; "tanh"; "leaky_relu";
    "add"; "mul"; "sub"; "div"; "real_div";
    "softmax"; "layer_norm"; "batch_norm"; "instance_norm";
    "reshape"; "transpose"; "squeeze"; "expand_dims"; "flatten";
    "concat"; "split"; "slice_by_index"; "gather";
    "reduce_mean"; "reduce_sum"; "reduce_max";
    "embedding"; "pad"; "upsample_nearest_neighbor" ].

Definition max_tensor_size_mb : Z := 256.
Definition max_batch_size : Z := 32.
Definition preferred_channel_alignment : Z := 16.
Definition max_sequence_length : Z := 2048.

(** *** The analysis result record *)

Record Results : Type :=
  { model_path : string;
    format : string;
    ane_compatible : bool;
    warnings : list string;
    blocking_issues : list string;
    operations : dict Z;
    input_shapes : dict (list Z);
    output_shapes : dict (list Z);
    recommendations : list string }.

Definition with_format (f : string) (r : Results) : Results :=
  {| model_path := model_path r; format := f;
     ane_compatible := ane_compatible r; warnings := warnings r;
     blocking_issues := blocking_issues r; operations := operations r;
     input_shapes := input_shapes r; output_shapes := output_shapes r;
     recommendations := recommendations r |}.

Definition with_ane_compatible (b : bool) (r : Results) : Results :=
  {| model_path := model_path r; format := format r;
     ane_compatible := b; warnings := warnings r;
     blocking_issues := blocking_issues r; operations := operations r;
     input_shapes := input_shapes r; output_shapes := output_shapes r;
     recommendations := recommendations r |}.

Definition with_warnings (w : list string) (r : Results) : Results :=
  {| model_path := model_path r; format := format r;
     ane_compatible := ane_compatible r; warnings := w;
     blocking_issues := blocking_issues r; operations := operations r;
     input_shapes := input_shapes r; output_shapes := output_shapes r;
     recommendations := recommendations r |}.

Definition with_blocking_issues (b : list string) (r : Results) : Results :=
  {| model_path := model_path r; format := format r;
     ane_compatible := ane_compatible r; warnings := warnings r;
     blocking_issues := b; operations := operations r;
     input_shapes := input_shapes r; output_shapes := output_shapes r;
     recommendations := recommendations r |}.

Definition with_operations (o : dict Z) (r : Results) : Results :=
  {| model_path := model_path r; format := format r;
     ane_compatible := ane_compatible r; warnings := warnings r;
     blocking_issues := blocking_issues r; operations := o;
     input_shapes := input_shapes r; output_shapes := output_shapes r;
     recommendations := recommendations r |}.

Definition with_input_shapes (s : dict (list Z)) (r : Results) : Results :=
  {| model_path := model_path r; format := format r;
     ane_compatible := ane_compatible r; warnings := warnings r;
     blocking_issues := blocking_issues r; operations := operations r;
     input_shapes := s; output_shapes := output_shapes r;
     recommendations := recommendations r |}.

Definition with_output_shapes (s : dict (list Z)) (r : Results) : Results :=
  {| model_path := model_path r; format := format r;
     ane_compatible := ane_compatible r; warnings := warnings r;
     blocking_issues := blocking_issues r; operations := operations r;
     input_shapes := input_shapes r; output_shapes := s;
     recommendations := recommendations r |}.

Definition with_recommendations (l : list string) (r : Results) : Results :=
  {| model_path := model_path r; format := format r;
     ane_compatible := ane_compatible r; warnings := warnings r;
     blocking_issues := blocking_issues r; operations := operations r;
     input_shapes := input_shapes r; output_shapes := output_shapes r;
     recommendations := l |}.

(** The dictionary literal of lines 71-81. *)
Definition initial_results (path : string) : Results :=
  {| model_path := path; format := "unknown";
     ane_compatible := true; warnings := [];
     blocking_issues := []; operations := [];
     input_shapes := []; output_shapes := [];
     recommendations := [] |}.

(** [results["operations"][k] = results["operations"].get(k, 0) + 1] *)
Definition count_operation (k : string) (r : Results) : Results :=
  with_operations
    (Py.set k (get_default k 0 (operations r) + 1) (operations r)) r.

(** *** analyze_mlprogram_ops (lines 115-139) *)

Definition mlprogram_warning (op_type : string) : string :=
  "Operation '" ++ op_type ++ "' may cause ANE fallback".

Definition mlprogram_blocking_issue (op_type : string) : string :=
  "Custom layer '" ++ op_type ++ "' not supported on ANE".

(** The body of the innermost loop, for one operation. *)
Definition analyze_mlprogram_op (results : Results) (op_type : string)
  : Results :=
  let results := count_operation op_type results in
  let op_lower := lower op_type in
  let results :=
    if mem op_lower ANE_PROBLEMATIC_OPS
    then with_warnings
           (warnings results ++ [mlprogram_warning op_type]) results
    else results in
  if contains "custom" op_lower
  then with_ane_compatible false
         (with_blocking_issues
            (blocking_issues results ++ [mlprogram_blocking_issue op_type])
            results)
  else results.

Definition analyze_mlprogram_ops (spec : Spec) (results : Results)
  : Results :=
  fold_left
    (fun results function =>
       fold_left
         (fun results block =>
            fold_left analyze_mlprogram_op (block_operations block) results)
         (block_specializations function) results)
    (mlProgram_functions spec) results.

(** *** analyze_neural_network_ops (lines 142-161) *)

Definition network_blocking_issue (name : string) : string :=
  "Custom layer '" ++ name ++ "' not supported on ANE".

Definition network_warning (name layer_type : string) : string :=
  "Layer '" ++ name ++ "' (" ++ layer_type ++ ") may cause ANE fallback".

(** The loop body, for one layer.  When [WhichOneof('layer')] is [None],
    line 158 raises [AttributeError] on [layer_type.lower()]; nothing
    catches it, so the dictionary updated on line 148 is never seen and
    the body is modelled as raising at once. *)
Definition analyze_neural_network_layer (results : Results) (layer : Layer)
  : outcome Results :=
  match layer_which layer with
  | None =>
      Raised (Exn "AttributeError"
                  "'NoneType' object has no attribute 'lower'")
  | Some layer_type =>
      let results := count_operation layer_type results in
      let results :=
        if String.eqb layer_type "custom"
        then with_ane_compatible false
               (with_blocking_issues
                  (blocking_issues results
                     ++ [network_blocking_issue (layer_name layer)])
                  results)
        else results in
      let results :=
        if mem (lower layer_type) ANE_PROBLEMATIC_OPS
        then with_warnings
               (warnings results
                  ++ [network_warning (layer_name layer) layer_type])
               results
        else results in
      Returned results
  end.

Fixpoint analyze_neural_network_layers (layers : list Layer)
  (results : Results) : outcome Results :=
  match layers with
  | [] => Returned results
  | layer :: layers' =>
      match analyze_neural_network_layer results layer with
      | Raised e => Raised e
      | Returned results' => analyze_neural_network_layers layers' results'
      end
  end.

Definition analyze_neural_network_ops (spec : Spec) (results : Results)
  : outcome Results :=
  analyze_neural_network_layers (neuralNetwork_layers spec) results.

(** *** generate_recommendations (lines 164-215) *)

Definition REC_BLOCKING : string :=
  "❌ Model contains blocking issues. Custom layers must be replaced "
  ++ "with supported operations or the model must be re-exported.".

Definition REC_FALLBACK : string :=
  "⚠️ Some operations may cause partial ANE fallback. "
  ++ "Profile with Instruments to measure actual ANE utilization.".

Definition REC_FLOAT16 : string :=
  "💡 Consider Float16 precision for compute-heavy operations. "
  ++ "Use `compute_precision=ct.precision.FLOAT16` during conversion.".

Definition REC_ALIGNMENT : string :=
  "💡 Ensure convolution channel dimensions are multiples of 16 "
  ++ "for optimal ANE tile processing.".

Definition REC_SEQUENCE (seq_len : Z) : string :=
  "⚠️ Sequence length " ++ str_of_int seq_len ++ " may exceed ANE limits. "
  ++ "Consider chunking input for very long sequences.".

Definition REC_WELL_OPTIMIZED : string :=
  "✅ Model appears well-optimized for ANE execution.".

Definition append_if (c : bool) (s : string) (l : list string)
  : list string :=
  if c then l ++ [s] else l.

(** The body of the loop over [input_shapes] (lines 201-208). *)
Definition sequence_recommendation (recommendations : list string)
  (item : string * list Z) : list string :=
  let shape := snd item in
  if (negb (Nat.eqb (length shape) 0) && Nat.leb 2 (length shape))%bool
  then
    let seq_len := max_of shape in
    append_if (seq_len >? max_sequence_length) (REC_SEQUENCE seq_len)
      recommendations
  else recommendations.

Definition generate_recommendations (results : Results) : list string :=
  let recommendations := [] in
  let recommendations :=
    append_if (negb (ane_compatible results)) REC_BLOCKING
      recommendations in
  let recommendations :=
    append_if (negb (Nat.eqb (length (warnings results)) 0)) REC_FALLBACK
      recommendations in
  let ops := keys (operations results) in
  let has_compute_ops :=
    existsb
      (fun op => mem (lower op) ["matmul"; "linear"; "conv"; "conv2d"])
      ops in
  let recommendations :=
    append_if has_compute_ops REC_FLOAT16 recommendations in
  let recommendations :=
    append_if (existsb (fun op => contains "conv" (lower op)) ops)
      REC_ALIGNMENT recommendations in
  let recommendations :=
    if existsb
         (fun op =>
            (contains "attention" (lower op)
             || contains "softmax" (lower op))%bool)
         ops
    then fold_left sequence_recommendation (input_shapes results)
           recommendations
    else recommendations in
  match recommendations with
  | [] => [REC_WELL_OPTIMIZED]
  | _ => recommendations
  end.

(** *** analyze_ml_program (lines 64-112)

    [model] is the object loaded on line 68; a failed load raises there,
    before any result exists. *)

(** Lines 95-100 and 102-107: one declared input or output. *)
Definition record_shape (shapes : dict (list Z)) (desc : FeatureDescription)
  : dict (list Z) :=
  let name := feature_name desc in
  match feature_type desc with
  | Some ty =>
      match multiArrayType ty with
      | Some arr => Py.set name (shape arr) shapes
      | None => shapes
      end
  | None => shapes
  end.

(** Line 92: [model_type or "unknown"]. *)
Definition format_or_unknown (model_type : option string) : string :=
  match model_type with
  | Some EmptyString | None => "unknown"
  | Some s => s
  end.

(** [model_type == s], where [model_type] may be [None]. *)
Definition type_is (model_type : option string) (s : string) : bool :=
  match model_type with
  | Some t => String.eqb t s
  | None => false
  end.

(** Lines 84-92. *)
Definition analyze_format (spec : Spec) (results : Results)
  : outcome Results :=
  let model_type := which_type spec in
  if type_is model_type "mlProgram"
  then Returned (analyze_mlprogram_ops spec (with_format "mlprogram" results))
  else if type_is model_type "neuralNetwork"
  then analyze_neural_network_ops spec (with_format "neuralNetwork" results)
  else Returned (with_format (format_or_unknown model_type) results).

Definition analyze_shapes (model : MLModel) (results : Results) : Results :=
  let results :=
    with_input_shapes
      (fold_left record_shape (input_description model)
         (input_shapes results)) results in
  with_output_shapes
    (fold_left record_shape (output_description model)
       (output_shapes results)) results.

Definition analyze_ml_program (path : string) (model : MLModel)
  : outcome Results :=
  let spec := get_spec model in
  let results := initial_results path in
  match analyze_format spec results with
  | Raised e => Raised e
  | Returned results =>
      let results := analyze_shapes model results in
      Returned
        (with_recommendations (generate_recommendations results) results)
  end.

(** *** What each loop does to each field *)

(** The operation types of a program, in the order the three nested loops
    of [analyze_mlprogram_ops] visit them. *)
Definition program_op_types (spec : Spec) : list string :=
  flat_map
    (fun function => flat_map block_operations (block_specializations function))
    (mlProgram_functions spec).

(** The operators the analyzer meets in a model: the operation types of a
    program, the layer kinds of a network, none for any other format. *)
Definition encountered_operators (spec : Spec) : list (option string) :=
  if type_is (which_type spec) "mlProgram"
  then map Some (program_op_types spec)
  else if type_is (which_type spec) "neuralNetwork"
  then map layer_which (neuralNetwork_layers spec)
  else [].

(** The warning and the blocking issue an operation type adds. *)
Definition op_warnings (op_type : string) : list string :=
  if mem (lower op_type) ANE_PROBLEMATIC_OPS
  then [mlprogram_warning op_type] else [].

Definition op_blocking (op_type : string) : list string :=
  if contains "custom" (lower op_type)
  then [mlprogram_blocking_issue op_type] else [].

(** The same for one layer of a network. *)
Definition layer_warnings (layer : Layer) : list string :=
  match layer_which layer with
  | Some layer_type =>
      if mem (lower layer_type) ANE_PROBLEMATIC_OPS
      then [network_warning (layer_name layer) layer_type] else []
  | None => []
  end.

Definition layer_is_custom (layer : Layer) : bool :=
  type_is (layer_which layer) "custom".

Definition layer_blocking (layer : Layer) : list string :=
  if layer_is_custom layer
  then [network_blocking_issue (layer_name layer)] else [].

(** The shape a description declares: present only with both the [type]
    attribute and its [multiArrayType] variant. *)
Definition declared_shape (desc : FeatureDescription) : option (list Z) :=
  match feature_type desc with
  | Some ty =>
      match multiArrayType ty with
      | Some arr => Some (shape arr)
      | None => None
      end
  | None => None
  end.

(** *** The JSON report (main, lines 290-291)

    [json.dumps] and [json.loads] belong to Python.  They are modelled on
    the JSON document rather than on its text: [dumps] maps a value to the
    document the encoder writes, [loads] maps a document to the value the
    decoder builds, an object becoming a [dict] filled member by member. *)

#[local] Set Warnings "-register-all".

(** The Python values that occur in a result record. *)
Inductive value : Type :=
| VNone
| VBool (b : bool)
| VInt (n : Z)
| VStr (s : string)
| VList (items : list value)
| VDict (items : list (string * value)).

Inductive json : Type :=
| JNull
| JBool (b : bool)
| JNumber (n : Z)
| JString (s : string)
| JArray (elements : list json)
| JObject (members : list (string * json)).

Fixpoint dumps (v : value) : json :=
  match v with
  | VNone => JNull
  | VBool b => JBool b
  | VInt n => JNumber n
  | VStr s => JString s
  | VList items => JArray (map dumps items)
  | VDict items => JObject (map (fun kv => (fst kv, dumps (snd kv))) items)
  end.

(** [dict(pairs)]: a repeated key keeps its first place and its last
    value. *)
Definition dict_of_pairs {V : Type} (pairs : list (string * V)) : dict V :=
  fold_left (fun d kv => Py.set (fst kv) (snd kv) d) pairs [].

Fixpoint loads (j : json) : value :=
  match j with
  | JNull => VNone
  | JBool b => VBool b
  | JNumber n => VInt n
  | JString s => VStr s
  | JArray elements => VList (map loads elements)
  | JObject members =>
      VDict (dict_of_pairs (map (fun kv => (fst kv, loads (snd kv))) members))
  end.

Definition strings (l : list string) : value := VList (map VStr l).

Definition shapes_value (d : dict (list Z)) : value :=
  VDict (map (fun kv => (fst kv, VList (map VInt (snd kv)))) d).

(** The dictionary [results], as [json.dumps] receives it. *)
Definition results_value (r : Results) : value :=
  VDict
    [ ("model_path", VStr (model_path r));
      ("format", VStr (format r));
      ("ane_compatible", VBool (ane_compatible r));
      ("warnings", strings (warnings r));
      ("blocking_issues", strings (blocking_issues r));
      ("operations",
        VDict (map (fun kv => (fst kv, VInt (snd kv))) (operations r)));
      ("input_shapes", shapes_value (input_shapes r));
      ("output_shapes", shapes_value (output_shapes r));
      ("recommendations", strings (recommendations r)) ].

(** [json.dumps(results, indent=2)] *)
Definition json_report (r : Results) : json := dumps (results_value r).

(** A value whose dictionaries have no repeated key, as every Python
    dictionary has. *)
Inductive well_formed : value -> Prop :=
| wf_none : well_formed VNone
| wf_bool b : well_formed (VBool b)
| wf_int n : well_formed (VInt n)
| wf_str s : well_formed (VStr s)
| wf_list items : Forall well_formed items -> well_formed (VList items)
| wf_dict items :
    NoDup (keys items) ->
    Forall (fun kv => well_formed (snd kv)) items ->
    well_formed (VDict items).

(** *** print_report (lines 218-268) and main (lines 271-293) *)

Definition newline : string := String (ascii_of_nat 10) EmptyString.

(** [s * n] *)
Fixpoint repeat_string (s : string) (n : nat) : string :=
  match n with
  | O => EmptyString
  | S n' => s ++ repeat_string s n'
  end.

(** [str(shape)] for a list of ints, as an f-string prints it. *)
Definition repr_list (l : list Z) : string :=
  "[" ++ String.concat ", " (map str_of_int l) ++ "]".

(** [sorted(items, key=lambda x: -x[1])]: by decreasing count, items of
    equal count staying in their order. *)
Fixpoint insert_by_count (x : string * Z) (l : list (string * Z))
  : list (string * Z) :=
  match l with
  | [] => [x]
  | y :: l' =>
      if snd y <=? snd x then x :: y :: l' else y :: insert_by_count x l'
  end.

Definition sorted_by_count (items : list (string * Z)) : list (string * Z) :=
  fold_right insert_by_count [] items.

(** Lines 251-257: the mark in front of an operation. *)
Definition operation_status (op : string) : string :=
  let op_lower := lower op in
  if (mem op_lower ANE_OPTIMIZED_OPS
      || existsb (fun opt => contains opt op_lower) ANE_OPTIMIZED_OPS)%bool
  then "✅"
  else if mem op_lower ANE_PROBLEMATIC_OPS then "❌"
  else "⚠️".

Definition operation_line (item : string * Z) : string :=
  "   " ++ operation_status (fst item) ++ " " ++ fst item ++ ": "
  ++ str_of_int (snd item).

Definition shape_line (item : string * list Z) : string :=
  "   • " ++ fst item ++ ": " ++ repr_list (snd item).

(** A titled block that is printed only when its list is not empty. *)
Definition section_lines {A : Type} (title : string) (line : A -> string)
  (items : list A) : list string :=
  match items with
  | [] => []
  | _ => title :: map line items
  end.

(** Lines 248-261: the operation counts. *)
Definition operation_lines (operations : dict Z) : list string :=
  let sorted_ops := sorted_by_count operations in
  map operation_line (firstn 20 sorted_ops)
  ++ (if (20 <? length sorted_ops)%nat
      then ["   ... and "
            ++ str_of_int (Z.of_nat (length sorted_ops) - 20)
            ++ " more operation types"]
      else []).

(** The lines [print_report] prints, one string for each [print]. *)
Definition print_report (results : Results) : list string :=
  [ newline ++ repeat_string "=" 60;
    "ANE COMPATIBILITY REPORT";
    repeat_string "=" 60;
    newline ++ "Model: " ++ model_path results;
    "Format: " ++ format results;
    "ANE Compatible: "
    ++ (if ane_compatible results then "✅ Yes" else "❌ No") ]
  ++ section_lines (newline ++ "📥 INPUT SHAPES:") shape_line
       (input_shapes results)
  ++ section_lines (newline ++ "📤 OUTPUT SHAPES:") shape_line
       (output_shapes results)
  ++ section_lines (newline ++ "🚫 BLOCKING ISSUES:")
       (fun issue => "   • " ++ issue) (blocking_issues results)
  ++ section_lines (newline ++ "⚠️ WARNINGS:")
       (fun warning => "   • " ++ warning) (warnings results)
  ++ [newline ++ "📊 OPERATION COUNTS:"]
  ++ operation_lines (operations results)
  ++ section_lines (newline ++ "💡 RECOMMENDATIONS:")
       (fun rec => "   " ++ rec) (recommendations results)
  ++ [newline ++ repeat_string "=" 60].

(** What [main] writes after the analysis: the JSON document or the lines
    of the report. *)
Inductive output : Type :=
| Json (document : json)
| Report (lines : list string).

Definition main (json_flag : bool) (path : string) (model : MLModel)
  : outcome output :=
  match analyze_ml_program path model with
  | Raised e => Raised e
  | Returned results =>
      Returned (if json_flag then Json (json_report results)
                else Report (print_report results))
  end.

End AnalyzeAne.

(** ** quantize_kokoro.py *)

Module QuantizeKokoro.
Import AnalyzeAne.

(** *** Floating-point numbers

    A Python [float] and a numpy [float64] are IEEE 754 binary64 numbers:
    the specification floats of the standard library at precision 53. *)

Definition float : Type := spec_float.
Definition prec : Z := 53.
Definition emax : Z := 1024.

Definition fadd : float -> float -> float := SFadd prec emax.
Definition fsub : float -> float -> float := SFsub prec emax.
Definition fmul : float -> float -> float := SFmul prec emax.
Definition fdiv : float -> float -> float := SFdiv prec emax.
Definition fabs : float -> float := SFabs.

(** [float(n)] for an int. *)
Definition of_int (n : Z) : float := binary_normalize prec emax n 0 false.

Definition zero : float := S754_zero false.
Definition inf : float := S754_infinity false.

(** [x > y]; false when either is a NaN. *)
Definition gt (x y : float) : bool := SFltb y x.

(** [x / y] on Python floats raises on a zero divisor. *)
Definition truediv (x y : float) : outcome float :=
  match y with
  | S754_zero _ => Raised (Exn "ZeroDivisionError" "float division by zero")
  | _ => Returned (fdiv x y)
  end.

(** *** numpy arrays

    A flattened array is the list of its elements.  Sums are taken from
    left to right; numpy adds pairwise, which changes the rounding of a
    partial sum and nothing else. *)

Definition array : Type := list float.

(** [a - b] for arrays of one length. *)
Definition np_subtract (a b : array) : array :=
  map (fun xy => fsub (fst xy) (snd xy)) (combine a b).

(** [a ** 2] *)
Definition np_square (a : array) : array := map (fun x => fmul x x) a.

(** [np.abs(a)] *)
Definition np_abs (a : array) : array := map fabs a.

Definition np_sum (a : array) : float :=
  match a with
  | [] => zero
  | x :: a' => fold_left fadd a' x
  end.

(** [np.mean(a)]: a NaN for an empty array. *)
Definition np_mean (a : array) : float :=
  fdiv (np_sum a) (of_int (Z.of_nat (length a))).

(** The maximum of two elements; a NaN wins. *)
Definition maximum (x y : float) : float :=
  match x, y with
  | S754_nan, _ => x
  | _, S754_nan => y
  | _, _ => if SFltb x y then y else x
  end.

(** [np.max(a)]: raises on an empty array. *)
Definition np_max (a : array) : outcome float :=
  match a with
  | [] =>
      Raised (Exn "ValueError"
                ("zero-size array to reduction operation maximum "
                 ++ "which has no identity"))
  | x :: a' => Returned (fold_left maximum a' x)
  end.

(** *** Printed lines and library calls *)

(** A piece of an f-string: text, a float printed with a number of
    decimals, or the [repr] of the layer counts. *)
Inductive fragment : Type :=
| Text (s : string)
| Fixed (decimals : nat) (x : float)
| Counts (d : list (option string * Z)).

Inductive Target : Type := iOS15 | iOS16 | iOS17.

(** The synthetic input of [validate_quantized_model] (lines 220-225). *)
Record TestInput : Type :=
  { input_ids : list Z;
    attention_mask : list Z;
    ref_s : array;
    random_phases : array }.

Inductive call : Type :=
| MLModel_ (path : string)
| walk_ (path : string)
| linear_quantize_weights_
| quantize_weights_ (nbits : Z) (quantization_mode : string)
| palettize_weights_
| save_ (path : string)
| convert_ (onnx_path : string) (target : Target)
| randn_
| predict_ (model : MLModel)
| run_ (command : list string).

(** What a run does, in order: the lines it prints and the calls it makes
    into coremltools, numpy, [os] and [subprocess]. *)
Inductive event : Type :=
| Printed (line : list fragment)
| Called (c : call).

(** *** The libraries

    Everything outside the script: the model library, the file system and
    the device compiler.  [World] is the state they act on. *)
Record Library (World : Type) : Type :=
  { (** [ct.models.MLModel(path)] *)
    ct_MLModel : string -> World -> outcome MLModel;
    (** [os.walk(path)]: each directory with its file names *)
    os_walk : string -> World -> list (string * list string);
    os_path_join : string -> string -> string;
    os_path_isfile : string -> World -> bool;
    os_path_getsize : string -> World -> Z;
    os_path_dirname : string -> string;
    (** [ct.optimize.coreml.linear_quantize_weights], with the
        configuration of lines 83-87 *)
    linear_quantize_weights : MLModel -> World -> outcome MLModel;
    (** [quantization_utils.quantize_weights(model, nbits, mode)] *)
    quantize_weights : MLModel -> Z -> string -> World -> outcome MLModel;
    (** [ct.optimize.coreml.palettize_weights], with the configuration of
        lines 137-141 *)
    palettize_weights : MLModel -> World -> outcome MLModel;
    (** [model.save(path)] *)
    model_save : MLModel -> string -> World -> outcome unit * World;
    (** [ct.convert], with the input shapes of lines 188-193 *)
    ct_convert : string -> Target -> World -> outcome MLModel;
    (** [np.random.randn(1, 256).astype(np.float32)] *)
    np_random_randn : World -> array * World;
    (** [model.predict(test_input)]: the outputs by name, flattened *)
    model_predict : MLModel -> TestInput -> World -> outcome (dict array);
    np_log10 : float -> float;
    (** [subprocess.run(command, capture_output=True, text=True)]: the
        return code and the captured standard error *)
    subprocess_run : list string -> World -> outcome (Z * string) * World }.

Arguments ct_MLModel {World}.
Arguments os_walk {World}.
Arguments os_path_join {World}.
Arguments os_path_isfile {World}.
Arguments os_path_getsize {World}.
Arguments os_path_dirname {World}.
Arguments linear_quantize_weights {World}.
Arguments quantize_weights {World}.
Arguments palettize_weights {World}.
Arguments model_save {World}.
Arguments ct_convert {World}.
Arguments np_random_randn {World}.
Arguments model_predict {World}.
Arguments np_log10 {World}.
Arguments subprocess_run {World}.

(** *** Records returned by the script *)

Record Metrics : Type :=
  { original_size_mb : float;
    quantized_size_mb : float;
    reduction_percent : float }.

Record Quality : Type :=
  { snr_db : float; max_error : float; mean_error : float }.

(** The command line, as [argparse] returns it. *)
Record Args : Type :=
  { arg_input : string;
    arg_output : string;
    arg_precision : string;
    arg_from_onnx : bool;
    arg_validate : bool;
    arg_compile : bool;
    arg_target : string }.

(** [s.endswith(suffix)] *)
Definition endswith (s suffix : string) : bool :=
  let n := String.length s in
  let m := String.length suffix in
  (Nat.leb m n && String.eqb (substring (n - m) m s) suffix)%bool.

Definition nl : string := String (ascii_of_nat 10) EmptyString.

(** Line 181-185 and the [get] of line 199. *)
Definition target_map_get (min_target : string) : Target :=
  if String.eqb min_target "ios15" then iOS15
  else if String.eqb min_target "ios16" then iOS16
  else if String.eqb min_target "ios17" then iOS17
  else iOS16.

(** [layer_types[k] = layer_types.get(k, 0) + 1], where [k] may be [None]. *)
Definition key_eqb (a b : option string) : bool :=
  match a, b with
  | Some x, Some y => String.eqb x y
  | None, None => true
  | _, _ => false
  end.

Fixpoint count_layer (k : option string) (d : list (option string * Z))
  : list (option string * Z) :=
  match d with
  | [] => [(k, 0 + 1)]
  | (k', n) :: d' =>
      if key_eqb k k' then (k, n + 1) :: d' else (k', n) :: count_layer k d'
  end.

Section Script.

Context {World : Type}.
Variable lib : Library World.

(** *** Running the script: state, output, exceptions *)

Record Result (A : Type) : Type :=
  { value : outcome A; world : World; trace : list event }.
Arguments value {A}.
Arguments world {A}.
Arguments trace {A}.

Definition M (A : Type) : Type := World -> Result A.

Definition ret {A : Type} (a : A) : M A :=
  fun w => {| value := Returned a; world := w; trace := [] |}.

Definition raise {A : Type} (e : exn) : M A :=
  fun w => {| value := Raised e; world := w; trace := [] |}.

Definition bind {A B : Type} (m : M A) (k : A -> M B) : M B :=
  fun w =>
    match m w with
    | {| value := Raised e; world := w1; trace := t |} =>
        {| value := Raised e; world := w1; trace := t |}
    | {| value := Returned a; world := w1; trace := t |} =>
        match k a w1 with
        | {| value := v; world := w2; trace := t' |} =>
            {| value := v; world := w2; trace := t ++ t' |}
        end
    end.

(** [try: m  except Exception as e: handler e] *)
Definition try_except {A : Type} (m : M A) (handler : exn -> M A) : M A :=
  fun w =>
    match m w with
    | {| value := Returned a; world := w1; trace := t |} =>
        {| value := Returned a; world := w1; trace := t |}
    | {| value := Raised e; world := w1; trace := t |} =>
        match handler e w1 with
        | {| value := v; world := w2; trace := t' |} =>
            {| value := v; world := w2; trace := t ++ t' |}
        end
    end.

Definition print (line : list fragment) : M unit :=
  fun w => {| value := Returned tt; world := w; trace := [Printed line] |}.

(** A call that reads the world. *)
Definition reading {A : Type} (c : call) (f : World -> outcome A) : M A :=
  fun w => {| value := f w; world := w; trace := [Called c] |}.

(** A call that may change the world. *)
Definition acting {A : Type} (c : call) (f : World -> outcome A * World)
  : M A :=
  fun w => {| value := fst (f w); world := snd (f w); trace := [Called c] |}.

Definition lift {A : Type} (o : outcome A) : M A :=
  fun w => {| value := o; world := w; trace := [] |}.

Notation "x <- m ;; k" := (bind m (fun x => k))
  (at level 61, m at next level, right associativity).
Notation "m ;; k" := (bind m (fun _ => k))
  (at level 61, right associativity).

(** *** get_model_size_mb (lines 28-36) *)

Definition total_size (path : string) (w : World) : Z :=
  fold_left
    (fun total dir =>
       fold_left
         (fun total f =>
            let fp := os_path_join lib (fst dir) f in
            if os_path_isfile lib fp w
            then total + os_path_getsize lib fp w
            else total)
         (snd dir) total)
    (os_walk lib path w) 0.

Definition get_model_size_mb (path : string) : M float :=
  reading (walk_ path)
    (fun w => Returned (fdiv (of_int (total_size path w))
                          (of_int (1024 * 1024)))).

(** *** analyze_model (lines 39-62) *)

Definition analyze_model (model_path : string) : M MLModel :=
  print [Text (nl ++ "📊 Analyzing model: "); Text model_path] ;;
  model <- reading (MLModel_ model_path) (ct_MLModel lib model_path) ;;
  let spec := get_spec model in
  layer_types <-
    (if type_is (which_type spec) "neuralNetwork"
     then
       let layer_types :=
         fold_left (fun layer_types layer =>
                      count_layer (layer_which layer) layer_types)
           (neuralNetwork_layers spec) [] in
       print [Text "  Model type: Neural Network"] ;; ret layer_types
     else if type_is (which_type spec) "mlProgram"
     then print [Text "  Model type: ML Program (MIL-based)"] ;; ret []
     else ret []) ;;
  (match layer_types with
   | [] => ret tt
   | _ => print [Text "  Layer breakdown: "; Counts layer_types]
   end) ;;
  size <- get_model_size_mb model_path ;;
  print [Text "  Model size: "; Fixed 2 size; Text " MB"] ;;
  ret model.

(** *** The metrics of a reduction (lines 106-113 and 158-165) *)

Definition size_metrics (original_size quantized_size : float)
  : outcome Metrics :=
  match truediv (fsub original_size quantized_size) original_size with
  | Raised e => Raised e
  | Returned ratio =>
      let reduction := fmul ratio (of_int 100) in
      Returned {| original_size_mb := original_size;
                  quantized_size_mb := quantized_size;
                  reduction_percent := reduction |}
  end.

(** *** quantize_to_float16 (lines 65-120) *)

Definition quantize_to_float16 (input_path output_path : string)
  : M Metrics :=
  print [Text (nl ++ "🔄 Loading model from: "); Text input_path] ;;
  model <- reading (MLModel_ input_path) (ct_MLModel lib input_path) ;;
  original_size <- get_model_size_mb input_path ;;
  print [Text "  Original size: "; Fixed 2 original_size; Text " MB"] ;;
  let spec := get_spec model in
  quantized_model <-
    (if type_is (which_type spec) "mlProgram"
     then
       print [Text (nl ++ "🔧 Quantizing ML Program to Float16...")] ;;
       reading linear_quantize_weights_ (linear_quantize_weights lib model)
     else
       print [Text (nl ++ "🔧 Quantizing Neural Network to Float16...")] ;;
       reading (quantize_weights_ 16 "linear")
         (quantize_weights lib model 16 "linear")) ;;
  print [Text (nl ++ "💾 Saving quantized model to: "); Text output_path] ;;
  acting (save_ output_path) (model_save lib quantized_model output_path) ;;
  quantized_size <- get_model_size_mb output_path ;;
  metrics <- lift (size_metrics original_size quantized_size) ;;
  print [Text (nl ++ "✅ Quantization complete!")] ;;
  print [Text "  Original:  "; Fixed 2 original_size; Text " MB"] ;;
  print [Text "  Quantized: "; Fixed 2 quantized_size; Text " MB"] ;;
  print [Text "  Reduction: "; Fixed 1 (reduction_percent metrics);
         Text "%"] ;;
  ret metrics.

(** *** quantize_to_int8 (lines 123-172) *)

Definition quantize_to_int8 (input_path output_path : string) : M Metrics :=
  print [Text (nl ++ "🔄 Loading model for Int8 quantization: ");
         Text input_path] ;;
  model <- reading (MLModel_ input_path) (ct_MLModel lib input_path) ;;
  original_size <- get_model_size_mb input_path ;;
  let spec := get_spec model in
  quantized_model <-
    (if type_is (which_type spec) "mlProgram"
     then
       print [Text (nl ++ "🔧 Applying Int8 palettization to ML Program...")] ;;
       reading palettize_weights_ (palettize_weights lib model)
     else
       print [Text (nl
                    ++ "🔧 Applying 8-bit quantization to Neural Network...")] ;;
       reading (quantize_weights_ 8 "kmeans")
         (quantize_weights lib model 8 "kmeans")) ;;
  print [Text (nl ++ "💾 Saving Int8 model to: "); Text output_path] ;;
  acting (save_ output_path) (model_save lib quantized_model output_path) ;;
  quantized_size <- get_model_size_mb output_path ;;
  metrics <- lift (size_metrics original_size quantized_size) ;;
  print [Text (nl ++ "✅ Int8 quantization complete!")] ;;
  print [Text "  Original:  "; Fixed 2 original_size; Text " MB"] ;;
  print [Text "  Quantized: "; Fixed 2 quantized_size; Text " MB"] ;;
  print [Text "  Reduction: "; Fixed 1 (reduction_percent metrics);
         Text "%"] ;;
  ret metrics.

(** *** convert_onnx_to_coreml_fp16 (lines 175-207) *)

Definition convert_onnx_to_coreml_fp16 (onnx_path output_path : string)
  (min_target : string) : M MLModel :=
  print [Text (nl ++ "🔄 Converting ONNX to CoreML (Float16): ");
         Text onnx_path] ;;
  let target := target_map_get min_target in
  model <- reading (convert_ onnx_path target)
             (ct_convert lib onnx_path target) ;;
  acting (save_ output_path) (model_save lib model output_path) ;;
  print [Text "✅ Saved to: "; Text output_path] ;;
  ret model.

(** *** validate_quantized_model (lines 210-267) *)

(** Lines 233-263: the comparison of the two "audio" outputs. *)
Definition compare_audio (orig_audio quant_audio : array)
  : M (option Quality) :=
  let min_len := Nat.min (length orig_audio) (length quant_audio) in
  let orig_audio := firstn min_len orig_audio in
  let quant_audio := firstn min_len quant_audio in
  let noise := np_subtract orig_audio quant_audio in
  let signal_power := np_mean (np_square orig_audio) in
  let noise_power := np_mean (np_square noise) in
  let snr_db :=
    if gt noise_power zero
    then fmul (of_int 10) (np_log10 lib (fdiv signal_power noise_power))
    else inf in
  max_error <- lift (np_max (np_abs noise)) ;;
  let mean_error := np_mean (np_abs noise) in
  print [Text "  Signal-to-Noise Ratio: "; Fixed 2 snr_db; Text " dB"] ;;
  print [Text "  Max Absolute Error: "; Fixed 6 max_error] ;;
  print [Text "  Mean Absolute Error: "; Fixed 6 mean_error] ;;
  (if gt snr_db (of_int 40)
   then print [Text "  ✅ Quality: Excellent (degradation likely inaudible)"]
   else if gt snr_db (of_int 30)
   then print [Text "  ⚠️ Quality: Good (minor degradation possible)"]
   else print [Text "  ❌ Quality: Fair (audible degradation likely)"]) ;;
  ret (Some {| snr_db := snr_db; max_error := max_error;
               mean_error := mean_error |}).

(** The line printed by the handler (line 266). *)
Definition validation_failed (e : exn) : list fragment :=
  [Text "  ⚠️ Validation failed: "; Text (exn_msg e)].

(** Lines 228-263: the body of the [try]. *)
Definition predict_and_compare (original quantized : MLModel)
  (test_input : TestInput) : M (option Quality) :=
  orig_output <- reading (predict_ original)
                   (model_predict lib original test_input) ;;
  quant_output <- reading (predict_ quantized)
                    (model_predict lib quantized test_input) ;;
  match get "audio" orig_output, get "audio" quant_output with
  | Some orig_audio, Some quant_audio => compare_audio orig_audio quant_audio
  | _, _ => ret None
  end.

Definition make_test_input (random : array) : TestInput :=
  {| input_ids := repeat 0 124;
     attention_mask := repeat 1 124;
     ref_s := random;
     random_phases := repeat zero 9 |}.

Definition validate_quantized_model (original_path quantized_path : string)
  : M (option Quality) :=
  print [Text (nl ++ "🧪 Validating quantized model...")] ;;
  original <- reading (MLModel_ original_path)
                (ct_MLModel lib original_path) ;;
  quantized <- reading (MLModel_ quantized_path)
                 (ct_MLModel lib quantized_path) ;;
  random <- acting randn_ (fun w => (Returned (fst (np_random_randn lib w)),
                                     snd (np_random_randn lib w))) ;;
  let test_input := make_test_input random in
  try_except
    (predict_and_compare original quantized test_input)
    (fun e => print (validation_failed e) ;; ret None).

(** *** compile_for_device (lines 270-289) *)

Definition compile_for_device (mlpackage_path output_dir : string) : M bool :=
  print [Text (nl ++ "📦 Compiling to .mlmodelc: "); Text mlpackage_path] ;;
  let command :=
    ["xcrun"; "coremlcompiler"; "compile"; mlpackage_path; output_dir] in
  result <- acting (run_ command) (subprocess_run lib command) ;;
  if fst result =? 0
  then print [Text "  ✅ Compiled to: "; Text output_dir] ;; ret true
  else print [Text "  ❌ Compilation failed: "; Text (snd result)] ;;
       ret false.

(** *** main (lines 292-360), after the command line is parsed *)

Definition main (args : Args) : M unit :=
  if arg_from_onnx args
  then
    convert_onnx_to_coreml_fp16 (arg_input args) (arg_output args)
      (arg_target args) ;;
    print [Text (nl ++ "🎉 ONNX conversion complete!")]
  else
    analyze_model (arg_input args) ;;
    metrics <-
      (if String.eqb (arg_precision args) "float16"
       then quantize_to_float16 (arg_input args) (arg_output args)
       else quantize_to_int8 (arg_input args) (arg_output args)) ;;
    (if arg_validate args
     then validate_quantized_model (arg_input args) (arg_output args) ;;
          ret tt
     else ret tt) ;;
    (if (arg_compile args && endswith (arg_output args) ".mlpackage")%bool
     then
       let compiled_dir := os_path_dirname lib (arg_output args) in
       compile_for_device (arg_output args) compiled_dir ;; ret tt
     else ret tt) ;;
    print [Text (nl ++ "🎉 Done!")].

End Script.

Arguments value {World A}.
Arguments world {World A}.
Arguments trace {World A}.

End QuantizeKokoro.

(** ** Facts about dictionaries *)

Module PyFacts.

Section DictFacts.
Context {V : Type}.
Implicit Types (d : dict V) (k : string) (v : V).

Lemma get_set_same k v d : get k (Py.set k v d) = Some v.
Proof.
  induction d as [|[k' v'] d IH]; simpl.
  - now rewrite String.eqb_refl.
  - destruct (String.eqb k k') eqn:E; simpl.
    + now rewrite String.eqb_refl.
    + now rewrite E.
Qed.

Lemma get_set_other k k' v d : k <> k' -> get k (Py.set k' v d) = get k d.
Proof.
  intros Hne. induction d as [|[k0 v0] d IH]; simpl.
  - destruct (String.eqb_spec k k'); [contradiction | reflexivity].
  - destruct (String.eqb_spec k' k0) as [->|Hk]; simpl.
    + destruct (String.eqb_spec k k0); [contradiction | reflexivity].
    + destruct (String.eqb k k0); [reflexivity | exact IH].
Qed.

Lemma in_keys_set k k' v d :
  In k (keys (Py.set k' v d)) <-> k = k' \/ In k (keys d).
Proof.
  unfold keys. induction d as [|[k0 v0] d IH]; simpl.
  - intuition.
  - destruct (String.eqb_spec k' k0) as [->|Hk]; simpl.
    + intuition.
    + rewrite IH. intuition.
Qed.

Lemma NoDup_keys_set k v d : NoDup (keys d) -> NoDup (keys (Py.set k v d)).
Proof.
  unfold keys. induction d as [|[k0 v0] d IH]; simpl; intros Hd.
  - constructor; [intros [] | constructor].
  - inversion Hd as [|? ? Hnot Hd']; subst.
    destruct (String.eqb_spec k k0) as [->|Hk]; simpl.
    + constructor; assumption.
    + constructor; [|apply IH; exact Hd'].
      intros Hin. apply (in_keys_set k0 k v d) in Hin.
      destruct Hin as [->|Hin]; [now apply Hk | now apply Hnot].
Qed.

Lemma get_Some_In k v d : get k d = Some v -> In (k, v) d.
Proof.
  induction d as [|[k0 v0] d IH]; simpl; [discriminate|].
  destruct (String.eqb_spec k k0) as [->|Hk].
  - intros H; injection H as ->. now left.
  - intros H; right; now apply IH.
Qed.

Lemma get_None_keys k d : get k d = None <-> ~ In k (keys d).
Proof.
  unfold keys. induction d as [|[k0 v0] d IH]; simpl.
  - intuition.
  - destruct (String.eqb_spec k k0) as [->|Hk].
    + split; [discriminate | intros H; elim H; now left].
    + rewrite IH. intuition congruence.
Qed.

Lemma In_set_inv k k' v v' d :
  In (k, v) (Py.set k' v' d) -> (k, v) = (k', v') \/ In (k, v) d.
Proof.
  induction d as [|[k0 v0] d IH]; simpl.
  - intuition.
  - destruct (String.eqb k' k0); simpl; intuition.
Qed.

End DictFacts.

End PyFacts.

(** ** Properties of analyze_ane.py *)

Module AnalyzeAneFacts.
Import AnalyzeAne PyFacts.

(** *** Messages name the operator they are about *)

Lemma prefix_append (x b : string) : String.prefix x (x ++ b) = true.
Proof.
  induction x as [|c x IH]; simpl.
  - destruct b; reflexivity.
  - destruct (ascii_dec c c) as [_|n]; [exact IH | now elim n].
Qed.

Lemma append_assoc (a b c : string) : (a ++ b) ++ c = a ++ b ++ c.
Proof.
  induction a as [|ch a IH]; simpl; [reflexivity | now rewrite IH].
Qed.

Lemma contains_here (x b : string) : contains x (x ++ b) = true.
Proof.
  destruct x as [|c x].
  - destruct b; reflexivity.
  - simpl. destruct (ascii_dec c c) as [_|n]; [|now elim n].
    rewrite prefix_append. reflexivity.
Qed.

Lemma contains_append (a x b : string) : contains x (a ++ x ++ b) = true.
Proof.
  induction a as [|c a IH].
  - simpl. apply contains_here.
  - simpl. rewrite IH. apply orb_true_r.
Qed.

Arguments mem : simpl never.
Arguments contains : simpl never.
Arguments lower : simpl never.
Arguments String.append : simpl never.
Arguments Py.set : simpl never.
Arguments get_default : simpl never.


Lemma fold_left_flat_map {A B C : Type} (f : A -> C -> A) (g : B -> list C)
  (l : list B) (a : A) :
  fold_left f (flat_map g l) a
  = fold_left (fun a b => fold_left f (g b) a) l a.
Proof.
  revert a; induction l as [|b l IH]; intros a; simpl.
  - reflexivity.
  - rewrite fold_left_app. apply IH.
Qed.

Lemma analyze_mlprogram_ops_fold (spec : Spec) (results : Results) :
  analyze_mlprogram_ops spec results
  = fold_left analyze_mlprogram_op (program_op_types spec) results.
Proof.
  unfold analyze_mlprogram_ops, program_op_types.
  rewrite fold_left_flat_map.
  revert results.
  induction (mlProgram_functions spec) as [|fn fns IH]; intros results; simpl.
  - reflexivity.
  - rewrite fold_left_flat_map. apply IH.
Qed.

Lemma mlprogram_op_fields (r : Results) (op : string) :
  warnings (analyze_mlprogram_op r op) = (warnings r ++ op_warnings op)%list
  /\ blocking_issues (analyze_mlprogram_op r op)
     = (blocking_issues r ++ op_blocking op)%list
  /\ ane_compatible (analyze_mlprogram_op r op)
     = (ane_compatible r && negb (contains "custom" (lower op)))%bool
  /\ input_shapes (analyze_mlprogram_op r op) = input_shapes r
  /\ output_shapes (analyze_mlprogram_op r op) = output_shapes r
  /\ model_path (analyze_mlprogram_op r op) = model_path r
  /\ format (analyze_mlprogram_op r op) = format r
  /\ recommendations (analyze_mlprogram_op r op) = recommendations r
  /\ operations (analyze_mlprogram_op r op)
     = Py.set op (get_default op 0 (operations r) + 1) (operations r).
Proof.
  unfold analyze_mlprogram_op, op_warnings, op_blocking.
  destruct (mem (lower op) ANE_PROBLEMATIC_OPS);
    destruct (contains "custom" (lower op)); simpl;
    rewrite ?app_nil_r, ?andb_true_r, ?andb_false_r; repeat split.
Qed.

Lemma mlprogram_fold_fields (ops : list string) (r : Results) :
  let r' := fold_left analyze_mlprogram_op ops r in
  warnings r' = (warnings r ++ flat_map op_warnings ops)%list
  /\ blocking_issues r' = (blocking_issues r ++ flat_map op_blocking ops)%list
  /\ ane_compatible r'
     = (ane_compatible r
        && forallb (fun op => negb (contains "custom" (lower op))) ops)%bool
  /\ input_shapes r' = input_shapes r
  /\ output_shapes r' = output_shapes r
  /\ model_path r' = model_path r
  /\ format r' = format r
  /\ recommendations r' = recommendations r.
Proof.
  revert r; induction ops as [|op ops IH]; intros r; simpl.
  - rewrite !app_nil_r, andb_true_r. repeat split.
  - destruct (IH (analyze_mlprogram_op r op))
      as (Hw & Hb & Hc & Hi & Ho & Hp & Hf & Hr).
    destruct (mlprogram_op_fields r op)
      as (Hw1 & Hb1 & Hc1 & Hi1 & Ho1 & Hp1 & Hf1 & Hr1 & _).
    rewrite Hw, Hb, Hc, Hi, Ho, Hp, Hf, Hr.
    rewrite Hw1, Hb1, Hc1, Hi1, Ho1, Hp1, Hf1, Hr1.
    rewrite <- !app_assoc, andb_assoc. repeat split.
Qed.

Lemma network_layer_fields (r r' : Results) (layer : Layer) :
  analyze_neural_network_layer r layer = Returned r' ->
  (exists layer_type, layer_which layer = Some layer_type
     /\ operations r'
        = Py.set layer_type (get_default layer_type 0 (operations r) + 1)
            (operations r))
  /\ warnings r' = (warnings r ++ layer_warnings layer)%list
  /\ blocking_issues r' = (blocking_issues r ++ layer_blocking layer)%list
  /\ ane_compatible r'
     = (ane_compatible r && negb (layer_is_custom layer))%bool
  /\ input_shapes r' = input_shapes r
  /\ output_shapes r' = output_shapes r
  /\ model_path r' = model_path r
  /\ format r' = format r
  /\ recommendations r' = recommendations r.
Proof.
  unfold analyze_neural_network_layer, layer_warnings, layer_blocking,
    layer_is_custom, type_is.
  destruct (layer_which layer) as [layer_type|]; [|discriminate].
  intros H; injection H as <-.
  split; [exists layer_type; split; [reflexivity|] |].
  - destruct (String.eqb layer_type "custom");
      destruct (mem (lower layer_type) ANE_PROBLEMATIC_OPS); reflexivity.
  - destruct (String.eqb layer_type "custom");
      destruct (mem (lower layer_type) ANE_PROBLEMATIC_OPS); simpl;
      rewrite ?app_nil_r, ?andb_true_r, ?andb_false_r; repeat split.
Qed.

Lemma network_layers_fields (layers : list Layer) (r r' : Results) :
  analyze_neural_network_layers layers r = Returned r' ->
  Forall (fun layer => layer_which layer <> None) layers
  /\ warnings r' = (warnings r ++ flat_map layer_warnings layers)%list
  /\ blocking_issues r' = (blocking_issues r ++ flat_map layer_blocking layers)%list
  /\ ane_compatible r'
     = (ane_compatible r
        && forallb (fun layer => negb (layer_is_custom layer)) layers)%bool
  /\ input_shapes r' = input_shapes r
  /\ output_shapes r' = output_shapes r
  /\ model_path r' = model_path r
  /\ format r' = format r
  /\ recommendations r' = recommendations r.
Proof.
  revert r; induction layers as [|layer layers IH]; intros r; simpl.
  - intros H; injection H as <-.
    rewrite !app_nil_r, andb_true_r. repeat split. constructor.
  - destruct (analyze_neural_network_layer r layer) as [r1|e] eqn:E1;
      [|discriminate].
    intros H.
    destruct (IH _ H) as (Hn & Hw & Hb & Hc & Hi & Ho & Hp & Hf & Hr).
    destruct (network_layer_fields _ _ _ E1)
      as ((t & Ht & _) & Hw1 & Hb1 & Hc1 & Hi1 & Ho1 & Hp1 & Hf1 & Hr1).
    rewrite Hw, Hb, Hc, Hi, Ho, Hp, Hf, Hr.
    rewrite Hw1, Hb1, Hc1, Hi1, Ho1, Hp1, Hf1, Hr1.
    rewrite <- !app_assoc, andb_assoc. repeat split.
    constructor; [congruence | exact Hn].
Qed.

(** A network whose layers all have a kind is analysed without error. *)
Lemma network_layers_return (layers : list Layer) (r : Results) :
  Forall (fun layer => layer_which layer <> None) layers ->
  exists r', analyze_neural_network_layers layers r = Returned r'.
Proof.
  intros H; revert r; induction H as [|layer layers Hl _ IH]; intros r; simpl.
  - eexists; reflexivity.
  - unfold analyze_neural_network_layer at 1.
    destruct (layer_which layer) as [t|]; [|congruence]. apply IH.
Qed.

Lemma in_flat_map_if {A : Type} (c : A -> bool) (f : A -> string) (x : A)
  (l : list A) :
  In x l -> c x = true -> In (f x) (flat_map (fun a => if c a then [f a] else []) l).
Proof.
  intros Hin Hc. apply in_flat_map. exists x. split; [exact Hin|].
  rewrite Hc. left; reflexivity.
Qed.

(** *** C1: the classification rule *)

(** A legacy network with one layer whose kind contains "custom" without
    being equal to it. *)
Definition customLayer_network : Spec :=
  {| which_type := Some "neuralNetwork";
     mlProgram_functions := [];
     neuralNetwork_layers :=
       [ {| layer_name := "layer0"; layer_which := Some "customLayer" |} ] |}.

(** C1, as stated, fails on the legacy network path: the layer kind
    "customLayer" contains "custom" once lower-cased, yet the analysis of
    the network adds no blocking issue and leaves the flag true, because
    line 151 compares the kind with "custom" for equality. *)
Lemma customLayer_network_not_blocked :
  contains "custom" (lower "customLayer") = true
  /\ exists results',
       analyze_neural_network_ops customLayer_network
         (initial_results "model.mlmodel") = Returned results'
       /\ blocking_issues results' = []
       /\ ane_compatible results' = true.
Proof.
  split; [reflexivity|]. eexists. split; [reflexivity|]. split; reflexivity.
Qed.

(** C1 (amended).  Program path: for every operation met, a lower-cased
    type in the problematic set appends a warning naming the type, and a
    lower-cased type containing "custom" appends a blocking issue naming
    the type and leaves the flag false.  Network path, when the analysis
    returns: for every layer, a lower-cased kind in the problematic set
    appends a warning naming the layer and its kind, and a kind equal to
    "custom" appends a blocking issue naming the layer and leaves the flag
    false. *)
Theorem classification_rule :
  (forall (spec : Spec) (results : Results) (op_type : string),
      In op_type (program_op_types spec) ->
      let results' := analyze_mlprogram_ops spec results in
      (mem (lower op_type) ANE_PROBLEMATIC_OPS = true ->
       contains op_type (mlprogram_warning op_type) = true
       /\ exists added,
           warnings results' = (warnings results ++ added)%list
           /\ In (mlprogram_warning op_type) added)
      /\ (contains "custom" (lower op_type) = true ->
          contains op_type (mlprogram_blocking_issue op_type) = true
          /\ (exists added,
                 blocking_issues results'
                 = (blocking_issues results ++ added)%list
                 /\ In (mlprogram_blocking_issue op_type) added)
          /\ ane_compatible results' = false))
  /\ (forall (spec : Spec) (results results' : Results) (layer : Layer)
        (layer_type : string),
         analyze_neural_network_ops spec results = Returned results' ->
         In layer (neuralNetwork_layers spec) ->
         layer_which layer = Some layer_type ->
         (mem (lower layer_type) ANE_PROBLEMATIC_OPS = true ->
          contains layer_type (network_warning (layer_name layer) layer_type)
          = true
          /\ exists added,
              warnings results' = (warnings results ++ added)%list
              /\ In (network_warning (layer_name layer) layer_type) added)
         /\ (layer_type = "custom" ->
             contains (layer_name layer)
               (network_blocking_issue (layer_name layer)) = true
             /\ (exists added,
                    blocking_issues results'
                    = (blocking_issues results ++ added)%list
                    /\ In (network_blocking_issue (layer_name layer)) added)
             /\ ane_compatible results' = false)).
Proof.
  split.
  - intros spec results op_type Hin results'; subst results'.
    rewrite analyze_mlprogram_ops_fold.
    destruct (mlprogram_fold_fields (program_op_types spec) results)
      as (Hw & Hb & Hc & _).
    split.
    + intros Hmem. split; [apply contains_append|].
      eexists; split; [exact Hw|].
      apply (in_flat_map_if _ mlprogram_warning); assumption.
    + intros Hcustom. split; [apply contains_append|]. split.
      * eexists; split; [exact Hb|].
        apply (in_flat_map_if _ mlprogram_blocking_issue); assumption.
      * rewrite Hc.
        apply andb_false_intro2, not_true_is_false. intros Hall.
        rewrite forallb_forall in Hall. specialize (Hall _ Hin).
        rewrite Hcustom in Hall. discriminate.
  - intros spec results results' layer layer_type Hrun Hin Hkind.
    destruct (network_layers_fields _ _ _ Hrun) as (_ & Hw & Hb & Hc & _).
    split.
    + intros Hmem. split.
      * replace (network_warning (layer_name layer) layer_type)
          with (("Layer '" ++ layer_name layer ++ "' (")
                ++ layer_type ++ ") may cause ANE fallback")
          by (unfold network_warning; rewrite !append_assoc; reflexivity).
        apply contains_append.
      * eexists; split; [exact Hw|].
        apply in_flat_map. exists layer. split; [exact Hin|].
        unfold layer_warnings. rewrite Hkind, Hmem. left; reflexivity.
    + intros ->. split; [apply contains_append|]. split.
      * eexists; split; [exact Hb|].
        apply in_flat_map. exists layer. split; [exact Hin|].
        unfold layer_blocking, layer_is_custom. rewrite Hkind.
        left; reflexivity.
      * rewrite Hc.
        apply andb_false_intro2, not_true_is_false. intros Hall.
        rewrite forallb_forall in Hall. specialize (Hall _ Hin).
        unfold layer_is_custom in Hall. rewrite Hkind in Hall. discriminate.
Qed.

(** A program and a network for the examples below. *)
Definition sample_program : Spec :=
  {| which_type := Some "mlProgram";
     mlProgram_functions :=
       [ {| function_name := "main";
            block_specializations :=
              [ {| block_operations :=
                     ["conv2d"; "einsum"; "custom_attention"; "relu"] |} ] |} ];
     neuralNetwork_layers := [] |}.

Definition sample_network : Spec :=
  {| which_type := Some "neuralNetwork";
     mlProgram_functions := [];
     neuralNetwork_layers :=
       [ {| layer_name := "dense0"; layer_which := Some "innerProduct" |};
         {| layer_name := "plugin"; layer_which := Some "custom" |} ] |}.

(** The rule at work on [sample_program] and [sample_network]. *)
Lemma classification_rule_witness :
  (exists added,
      warnings (analyze_mlprogram_ops sample_program (initial_results "m"))
      = ([] ++ added)%list
      /\ In (mlprogram_warning "einsum") added)
  /\ ane_compatible
       (analyze_mlprogram_ops sample_program (initial_results "m")) = false
  /\ exists results',
      analyze_neural_network_ops sample_network (initial_results "m")
      = Returned results'
      /\ ane_compatible results' = false
      /\ exists added,
          blocking_issues results' = ([] ++ added)%list
          /\ In (network_blocking_issue "plugin") added.
Proof.
  destruct classification_rule as [Hprogram Hnetwork].
  split; [|split].
  - refine (proj2 (proj1 (Hprogram sample_program (initial_results "m")
                            "einsum" _) _)).
    + simpl; auto.
    + reflexivity.
  - refine (proj2 (proj2 (proj2 (Hprogram sample_program (initial_results "m")
                                   "custom_attention" _) _))).
    + simpl; auto.
    + reflexivity.
  - eexists. split; [reflexivity|].
    refine ((fun H => conj (proj2 (proj2 H)) (proj1 (proj2 H)))
              (proj2 (Hnetwork sample_network (initial_results "m") _
                        {| layer_name := "plugin";
                           layer_which := Some "custom" |}
                        "custom" eq_refl _ eq_refl) eq_refl)).
    simpl; auto.
Defined.

(** *** C2: the compatibility flag *)

(** The flag is false exactly when a blocking issue has been recorded. *)
Definition flag_agrees (r : Results) : Prop :=
  ane_compatible r = false <-> blocking_issues r <> [].

Lemma flag_agrees_initial (path : string) : flag_agrees (initial_results path).
Proof. unfold flag_agrees; simpl. split; [discriminate | congruence]. Qed.

Lemma flag_agrees_mlprogram_op (r : Results) (op : string) :
  flag_agrees r -> flag_agrees (analyze_mlprogram_op r op).
Proof.
  unfold flag_agrees.
  destruct (mlprogram_op_fields r op) as (_ & Hb & Hc & _).
  rewrite Hb, Hc. unfold op_blocking.
  destruct (contains "custom" (lower op)).
  - intros _. rewrite andb_false_r. split; [|reflexivity].
    intros _ H. now apply app_eq_nil in H as [_ H].
  - rewrite andb_true_r, app_nil_r. tauto.
Qed.

Lemma flag_agrees_network_layer (r r' : Results) (layer : Layer) :
  analyze_neural_network_layer r layer = Returned r' ->
  flag_agrees r -> flag_agrees r'.
Proof.
  unfold flag_agrees. intros H.
  destruct (network_layer_fields _ _ _ H) as (_ & _ & Hb & Hc & _).
  rewrite Hb, Hc. unfold layer_blocking.
  destruct (layer_is_custom layer).
  - intros _. rewrite andb_false_r. split; [|reflexivity].
    intros _ H'. now apply app_eq_nil in H' as [_ H'].
  - rewrite andb_true_r, app_nil_r. tauto.
Qed.

Lemma flag_agrees_mlprogram_ops (spec : Spec) (r : Results) :
  flag_agrees r -> flag_agrees (analyze_mlprogram_ops spec r).
Proof.
  rewrite analyze_mlprogram_ops_fold.
  revert r. induction (program_op_types spec) as [|op ops IH]; intros r Hr.
  - exact Hr.
  - simpl. apply IH, flag_agrees_mlprogram_op, Hr.
Qed.

Lemma flag_agrees_network_layers (layers : list Layer) (r r' : Results) :
  analyze_neural_network_layers layers r = Returned r' ->
  flag_agrees r -> flag_agrees r'.
Proof.
  revert r. induction layers as [|layer layers IH]; simpl; intros r H Hr.
  - now injection H as <-.
  - destruct (analyze_neural_network_layer r layer) as [r1|e] eqn:E1;
      [|discriminate].
    apply (IH _ H). exact (flag_agrees_network_layer _ _ _ E1 Hr).
Qed.

Lemma flag_agrees_format (spec : Spec) (r r' : Results) :
  analyze_format spec r = Returned r' -> flag_agrees r -> flag_agrees r'.
Proof.
  unfold analyze_format.
  destruct (type_is (which_type spec) "mlProgram").
  - intros H Hr; injection H as <-.
    now apply flag_agrees_mlprogram_ops.
  - destruct (type_is (which_type spec) "neuralNetwork").
    + intros H Hr. now apply (flag_agrees_network_layers _ _ _ H).
    + intros H Hr; injection H as <-. exact Hr.
Qed.

(** The result of a run is the result of the format analysis, with the
    shapes and the recommendations filled in. *)
Lemma analyze_ml_program_inv (path : string) (model : MLModel) (r : Results) :
  analyze_ml_program path model = Returned r ->
  exists r1,
    analyze_format (get_spec model) (initial_results path) = Returned r1
    /\ r = with_recommendations
             (generate_recommendations (analyze_shapes model r1))
             (analyze_shapes model r1).
Proof.
  unfold analyze_ml_program.
  destruct (analyze_format (get_spec model) (initial_results path)) as [r1|e];
    [|discriminate].
  intros H; injection H as <-. now exists r1.
Qed.

(** C2.  The flag starts true; an operation or a layer never turns a false
    flag back to true; and at the end of a run the flag is false exactly
    when the list of blocking issues is not empty. *)
Theorem compatibility_flag_monotone :
  (forall path : string, ane_compatible (initial_results path) = true)
  /\ (forall (results : Results) (op_type : string),
         ane_compatible results = false ->
         ane_compatible (analyze_mlprogram_op results op_type) = false)
  /\ (forall (results results' : Results) (layer : Layer),
         analyze_neural_network_layer results layer = Returned results' ->
         ane_compatible results = false ->
         ane_compatible results' = false)
  /\ (forall (path : string) (model : MLModel) (results : Results),
         analyze_ml_program path model = Returned results ->
         (ane_compatible results = false <-> blocking_issues results <> [])).
Proof.
  split; [reflexivity|]. split; [|split].
  - intros r op Hr.
    destruct (mlprogram_op_fields r op) as (_ & _ & Hc & _).
    now rewrite Hc, Hr.
  - intros r r' layer H Hr.
    destruct (network_layer_fields _ _ _ H) as (_ & _ & _ & Hc & _).
    now rewrite Hc, Hr.
  - intros path model r H.
    destruct (analyze_ml_program_inv _ _ _ H) as (r1 & Hf & ->).
    exact (flag_agrees_format _ _ _ Hf (flag_agrees_initial path)).
Qed.

(** A model around [sample_program]: two tensor inputs, one input that is
    not a tensor, one tensor output. *)
Definition tensor (name : string) (dims : list Z) : FeatureDescription :=
  {| feature_name := name;
     feature_type := Some {| multiArrayType := Some {| shape := dims |} |} |}.

Definition sample_model : MLModel :=
  {| get_spec := sample_program;
     input_description :=
       [ tensor "input_ids" [1; 124];
         {| feature_name := "speed";
            feature_type := Some {| multiArrayType := None |} |};
         tensor "ref_s" [1; 256] ];
     output_description := [ tensor "audio" [1; 360000] ] |}.

(** The flag of [sample_model] at the end of its run. *)
Lemma compatibility_flag_monotone_witness :
  exists results,
    analyze_ml_program "m" sample_model = Returned results
    /\ (ane_compatible results = false <-> blocking_issues results <> []).
Proof.
  eexists. split; [reflexivity|].
  apply (proj2 (proj2 (proj2 compatibility_flag_monotone)) "m" sample_model).
  reflexivity.
Defined.

(** *** C8: shape extraction *)

Lemma record_shape_declared (shapes : dict (list Z)) (desc : FeatureDescription) :
  record_shape shapes desc
  = match declared_shape desc with
    | Some s => Py.set (feature_name desc) s shapes
    | None => shapes
    end.
Proof.
  unfold record_shape, declared_shape.
  destruct (feature_type desc) as [ty|]; [|reflexivity].
  destruct (multiArrayType ty); reflexivity.
Qed.

(** An entry of the mapping was there before or is a declared shape. *)
Lemma shapes_get_Some (descs : list FeatureDescription) (d0 : dict (list Z))
  (name : string) (s : list Z) :
  get name (fold_left record_shape descs d0) = Some s ->
  get name d0 = Some s
  \/ exists desc, In desc descs /\ feature_name desc = name
                  /\ declared_shape desc = Some s.
Proof.
  revert d0. induction descs as [|desc descs IH]; simpl; intros d0 H.
  - now left.
  - destruct (IH _ H) as [H0|(desc' & Hin & Hn & Hs)].
    + rewrite record_shape_declared in H0.
      destruct (declared_shape desc) as [s'|] eqn:E; [|now left].
      destruct (String.eqb_spec name (feature_name desc)) as [->|Hne].
      * rewrite get_set_same in H0. injection H0 as ->.
        right. exists desc. auto.
      * rewrite get_set_other in H0 by exact Hne. now left.
    + right. exists desc'. auto.
Qed.

(** Descriptions with other names leave an entry alone. *)
Lemma shapes_get_other (descs : list FeatureDescription) (d0 : dict (list Z))
  (name : string) :
  ~ In name (map feature_name descs) ->
  get name (fold_left record_shape descs d0) = get name d0.
Proof.
  revert d0. induction descs as [|desc descs IH]; simpl; intros d0 H.
  - reflexivity.
  - rewrite IH by tauto. rewrite record_shape_declared.
    destruct (declared_shape desc); [|reflexivity].
    apply get_set_other. intros ->. apply H. now left.
Qed.

(** With distinct names, the entry of a description is its declared shape. *)
Lemma shapes_get_declared (descs : list FeatureDescription)
  (d0 : dict (list Z)) (desc : FeatureDescription) :
  NoDup (map feature_name descs) ->
  In desc descs ->
  get (feature_name desc) (fold_left record_shape descs d0)
  = match declared_shape desc with
    | Some s => Some s
    | None => get (feature_name desc) d0
    end.
Proof.
  revert d0. induction descs as [|desc0 descs IH]; simpl; intros d0 Hnd Hin.
  - contradiction.
  - inversion Hnd as [|? ? Hnot Hnd']; subst.
    destruct Hin as [->|Hin].
    + rewrite shapes_get_other by exact Hnot.
      rewrite record_shape_declared.
      destruct (declared_shape desc); [apply get_set_same | reflexivity].
    + rewrite (IH _ Hnd' Hin).
      destruct (declared_shape desc); [reflexivity|].
      rewrite record_shape_declared.
      destruct (declared_shape desc0); [|reflexivity].
      apply get_set_other. intros Heq. apply Hnot. rewrite <- Heq.
      now apply in_map.
Qed.

(** C8.  Once the operators are analysed, the run returns whatever the
    declared inputs and outputs are.  Every entry of the two shape mappings
    is the shape, as the list of integers it is declared with, of a
    description that has the multi-array variant; with distinct names, a
    description has an entry exactly when it has the variant; and the
    warnings, the blocking issues and the flag are those of the operator
    analysis. *)
Theorem shape_extraction (path : string) (model : MLModel) (analysed : Results) :
  analyze_format (get_spec model) (initial_results path) = Returned analysed ->
  exists results,
    analyze_ml_program path model = Returned results
    /\ (forall name s,
           get name (input_shapes results) = Some s ->
           exists desc, In desc (input_description model)
                        /\ feature_name desc = name
                        /\ declared_shape desc = Some s)
    /\ (forall name s,
           get name (output_shapes results) = Some s ->
           exists desc, In desc (output_description model)
                        /\ feature_name desc = name
                        /\ declared_shape desc = Some s)
    /\ (NoDup (map feature_name (input_description model)) ->
        forall desc, In desc (input_description model) ->
          get (feature_name desc) (input_shapes results) = declared_shape desc)
    /\ (NoDup (map feature_name (output_description model)) ->
        forall desc, In desc (output_description model) ->
          get (feature_name desc) (output_shapes results) = declared_shape desc)
    /\ warnings results = warnings analysed
    /\ blocking_issues results = blocking_issues analysed
    /\ ane_compatible results = ane_compatible analysed.
Proof.
  intros Hf.
  assert (Hin : input_shapes analysed = []
                /\ output_shapes analysed = []).
  { revert Hf. unfold analyze_format.
    destruct (type_is (which_type (get_spec model)) "mlProgram").
    - intros H; injection H as <-. rewrite analyze_mlprogram_ops_fold.
      destruct (mlprogram_fold_fields (program_op_types (get_spec model))
                  (with_format "mlprogram" (initial_results path)))
        as (_ & _ & _ & Hi & Ho & _).
      now rewrite Hi, Ho.
    - destruct (type_is (which_type (get_spec model)) "neuralNetwork").
      + intros H.
        destruct (network_layers_fields _ _ _ H)
          as (_ & _ & _ & _ & Hi & Ho & _).
        now rewrite Hi, Ho.
      + intros H; injection H as <-. now split. }
  destruct Hin as [Hi Ho].
  unfold analyze_ml_program. rewrite Hf. eexists. split; [reflexivity|].
  simpl. rewrite Hi, Ho.
  split; [|split; [|split; [|split]]].
  - intros name s H. apply shapes_get_Some in H as [H|H]; [discriminate|exact H].
  - intros name s H. apply shapes_get_Some in H as [H|H]; [discriminate|exact H].
  - intros Hnd desc Hd. rewrite (shapes_get_declared _ _ _ Hnd Hd).
    now destruct (declared_shape desc).
  - intros Hnd desc Hd. rewrite (shapes_get_declared _ _ _ Hnd Hd).
    now destruct (declared_shape desc).
  - repeat split.
Qed.

(** The shapes of [sample_model]: "speed" has no entry. *)
Lemma shape_extraction_witness :
  exists results,
    analyze_ml_program "m" sample_model = Returned results
    /\ input_shapes results = [("input_ids", [1; 124]); ("ref_s", [1; 256])]
    /\ output_shapes results = [("audio", [1; 360000])]
    /\ get "speed" (input_shapes results) = None
    /\ warnings results = ["Operation 'einsum' may cause ANE fallback"].
Proof.
  destruct (shape_extraction "m" sample_model
              (analyze_mlprogram_ops sample_program
                 (with_format "mlprogram" (initial_results "m"))) eq_refl)
    as (results & Hrun & _ & _ & _ & _ & Hw & _).
  exists results. split; [exact Hrun|].
  injection Hrun as <-.
  repeat split.
Defined.

(** *** C3: models made of optimized operators *)

(** A program whose only operation is in the optimized set. *)
Definition conv_only_model : MLModel :=
  {| get_spec :=
       {| which_type := Some "mlProgram";
          mlProgram_functions :=
            [ {| function_name := "main";
                 block_specializations :=
                   [ {| block_operations := ["conv2d"] |} ] |} ];
          neuralNetwork_layers := [] |};
     input_description := [];
     output_description := [] |}.

(** C3, as stated, fails: "conv2d" is in the optimized set, and a model made
    of it alone is advised on Float16 and on channel alignment (lines
    182-197), so the "well-optimized" message is not produced. *)
Lemma conv_only_model_is_advised :
  Forall (fun o => exists t, o = Some t /\ In t ANE_OPTIMIZED_OPS)
    (encountered_operators (get_spec conv_only_model))
  /\ exists results,
      analyze_ml_program "m" conv_only_model = Returned results
      /\ recommendations results = [REC_FLOAT16; REC_ALIGNMENT]
      /\ recommendations results <> [REC_WELL_OPTIMIZED].
Proof.
  split.
  - repeat constructor. exists "conv2d". split; [reflexivity|].
    simpl; auto.
  - eexists. split; [reflexivity|]. split; [reflexivity|]. discriminate.
Qed.

(** Checks over the finite table of optimized operators. *)
Lemma optimized_not_flagged (t : string) :
  In t ANE_OPTIMIZED_OPS ->
  mem (lower t) ANE_PROBLEMATIC_OPS = false
  /\ contains "custom" (lower t) = false
  /\ String.eqb t "custom" = false.
Proof.
  intros Hin.
  assert (H : forallb
                (fun t => negb (mem (lower t) ANE_PROBLEMATIC_OPS)
                          && negb (contains "custom" (lower t))
                          && negb (String.eqb t "custom"))%bool
                ANE_OPTIMIZED_OPS = true) by (vm_compute; reflexivity).
  rewrite forallb_forall in H. specialize (H _ Hin).
  apply andb_prop in H as [H H3]. apply andb_prop in H as [H1 H2].
  rewrite negb_true_iff in H1, H2, H3. auto.
Qed.

Definition advised_operators : list string :=
  ["conv"; "conv2d"; "depthwise_conv2d"; "conv_transpose"; "linear"; "matmul"].

Lemma optimized_not_advised (t : string) :
  In t ANE_OPTIMIZED_OPS ->
  ~ In t advised_operators ->
  mem (lower t) ["matmul"; "linear"; "conv"; "conv2d"] = false
  /\ contains "conv" (lower t) = false.
Proof.
  intros Hin Hnot.
  assert (H : forallb
                (fun t => mem t advised_operators
                          || (negb (mem (lower t)
                                      ["matmul"; "linear"; "conv"; "conv2d"])
                              && negb (contains "conv" (lower t))))%bool
                ANE_OPTIMIZED_OPS = true) by (vm_compute; reflexivity).
  rewrite forallb_forall in H. specialize (H _ Hin).
  apply orb_prop in H as [H|H].
  - elim Hnot. unfold mem in H. apply existsb_exists in H as (x & Hx & Heq).
    apply String.eqb_eq in Heq. now subst.
  - apply andb_prop in H as [H1 H2]. rewrite negb_true_iff in H1, H2. auto.
Qed.

Lemma optimized_attention_is_softmax (t : string) :
  In t ANE_OPTIMIZED_OPS ->
  (contains "attention" (lower t) || contains "softmax" (lower t))%bool = true ->
  t = "softmax".
Proof.
  intros Hin Hc.
  assert (H : forallb
                (fun t => negb (contains "attention" (lower t)
                                || contains "softmax" (lower t))
                          || String.eqb t "softmax")%bool
                ANE_OPTIMIZED_OPS = true) by (vm_compute; reflexivity).
  rewrite forallb_forall in H. specialize (H _ Hin).
  rewrite Hc in H. now apply String.eqb_eq in H.
Qed.

Lemma flat_map_nil {A B : Type} (f : A -> list B) (l : list A) :
  (forall x, In x l -> f x = []) -> flat_map f l = [].
Proof.
  induction l as [|x l IH]; simpl; intros H; [reflexivity|].
  rewrite (H x) by now left. apply IH. intros y Hy. apply H. now right.
Qed.

(** The keys of the operation counts are operators that were met. *)
Lemma mlprogram_fold_keys (ops : list string) (r : Results) (k : string) :
  In k (keys (operations (fold_left analyze_mlprogram_op ops r))) ->
  In k (keys (operations r)) \/ In k ops.
Proof.
  revert r. induction ops as [|op ops IH]; simpl; intros r H; [now left|].
  destruct (IH _ H) as [H1|H1]; [|now right; right].
  destruct (mlprogram_op_fields r op) as (_ & _ & _ & _ & _ & _ & _ & _ & Ho).
  rewrite Ho in H1. apply in_keys_set in H1 as [->|H1]; auto.
Qed.

Lemma network_layers_keys (layers : list Layer) (r r' : Results) (k : string) :
  analyze_neural_network_layers layers r = Returned r' ->
  In k (keys (operations r')) ->
  In k (keys (operations r)) \/ In (Some k) (map layer_which layers).
Proof.
  revert r. induction layers as [|layer layers IH]; simpl; intros r H Hk.
  - injection H as <-. now left.
  - destruct (analyze_neural_network_layer r layer) as [r1|e] eqn:E1;
      [|discriminate].
    destruct (IH _ H Hk) as [H1|H1]; [|now right; right].
    destruct (network_layer_fields _ _ _ E1) as ((t & Ht & Ho) & _).
    rewrite Ho in H1. apply in_keys_set in H1 as [->|H1]; auto.
Qed.

(** Every entry of a shape mapping built from nothing is a declared shape. *)
Lemma shapes_In (descs : list FeatureDescription) (d0 : dict (list Z))
  (name : string) (s : list Z) :
  In (name, s) (fold_left record_shape descs d0) ->
  In (name, s) d0
  \/ exists desc, In desc descs /\ declared_shape desc = Some s.
Proof.
  revert d0. induction descs as [|desc descs IH]; simpl; intros d0 H.
  - now left.
  - destruct (IH _ H) as [H0|(desc' & Hin & Hs)].
    + rewrite record_shape_declared in H0.
      destruct (declared_shape desc) as [s'|] eqn:E; [|now left].
      apply In_set_inv in H0 as [H0|H0]; [|now left].
      injection H0 as _ ->. right. exists desc. auto.
    + right. exists desc'. auto.
Qed.

Lemma sequence_loop_quiet (shapes : dict (list Z)) (recs : list string) :
  (forall name s, In (name, s) shapes ->
     (length s < 2)%nat \/ max_of s <= max_sequence_length) ->
  fold_left sequence_recommendation shapes recs = recs.
Proof.
  revert recs. induction shapes as [|[name s] shapes IH]; simpl; intros recs H.
  - reflexivity.
  - rewrite IH by (intros n' s' Hin; apply (H n' s'); now right).
    unfold sequence_recommendation; simpl snd.
    destruct (H name s (or_introl eq_refl)) as [Hlen|Hmax].
    + destruct s as [|x [|y s]]; simpl in *; try reflexivity; lia.
    + destruct (negb (length s =? 0)%nat && (2 <=? length s)%nat)%bool;
        [|reflexivity].
      unfold append_if.
      destruct (Z.gtb_spec (max_of s) max_sequence_length); [lia|reflexivity].
Qed.

(** The operator analysis of a model made of optimized operators. *)
Lemma analyze_format_optimized (path : string) (spec : Spec) :
  Forall (fun o => exists t, o = Some t /\ In t ANE_OPTIMIZED_OPS)
    (encountered_operators spec) ->
  exists r,
    analyze_format spec (initial_results path) = Returned r
    /\ warnings r = [] /\ blocking_issues r = [] /\ ane_compatible r = true
    /\ input_shapes r = []
    /\ output_shapes r = []
    /\ forall k, In k (keys (operations r)) ->
                 In (Some k) (encountered_operators spec).
Proof.
  unfold encountered_operators, analyze_format.
  destruct (type_is (which_type spec) "mlProgram").
  - intros H. rewrite Forall_forall in H.
    assert (Hopt : forall op, In op (program_op_types spec) ->
                              In op ANE_OPTIMIZED_OPS).
    { intros op Hop. destruct (H (Some op)) as (t & Ht & Hin).
      - now apply in_map.
      - now injection Ht as ->. }
    eexists. split; [reflexivity|].
    rewrite analyze_mlprogram_ops_fold.
    destruct (mlprogram_fold_fields (program_op_types spec)
                (with_format "mlprogram" (initial_results path)))
      as (Hw & Hb & Hc & Hi & Ho & _).
    rewrite Hw, Hb, Hc, Hi, Ho. simpl.
    repeat split.
    + apply flat_map_nil. intros op Hop. unfold op_warnings.
      now destruct (optimized_not_flagged op (Hopt op Hop)) as (-> & _).
    + apply flat_map_nil. intros op Hop. unfold op_blocking.
      now destruct (optimized_not_flagged op (Hopt op Hop)) as (_ & -> & _).
    + apply forallb_forall. intros op Hop.
      now destruct (optimized_not_flagged op (Hopt op Hop)) as (_ & -> & _).
    + intros k Hk. apply mlprogram_fold_keys in Hk as [Hk|Hk]; [elim Hk|].
      now apply in_map.
  - destruct (type_is (which_type spec) "neuralNetwork").
    + intros H. rewrite Forall_forall in H.
      assert (Hopt : forall layer, In layer (neuralNetwork_layers spec) ->
                exists t, layer_which layer = Some t
                          /\ In t ANE_OPTIMIZED_OPS).
      { intros layer Hl. apply H. now apply in_map. }
      destruct (network_layers_return (neuralNetwork_layers spec)
                  (with_format "neuralNetwork" (initial_results path)))
        as [r Hr].
      { apply Forall_forall. intros layer Hl.
        destruct (Hopt layer Hl) as (t & -> & _). discriminate. }
      exists r. split; [exact Hr|].
      destruct (network_layers_fields _ _ _ Hr)
        as (_ & Hw & Hb & Hc & Hi & Ho & _).
      rewrite Hw, Hb, Hc, Hi, Ho. simpl.
      repeat split.
      * apply flat_map_nil. intros layer Hl. unfold layer_warnings.
        destruct (Hopt layer Hl) as (t & -> & Ht).
        now destruct (optimized_not_flagged t Ht) as (-> & _).
      * apply flat_map_nil. intros layer Hl.
        unfold layer_blocking, layer_is_custom, type_is.
        destruct (Hopt layer Hl) as (t & -> & Ht).
        now destruct (optimized_not_flagged t Ht) as (_ & _ & ->).
      * apply forallb_forall. intros layer Hl.
        unfold layer_is_custom, type_is.
        destruct (Hopt layer Hl) as (t & -> & Ht).
        now destruct (optimized_not_flagged t Ht) as (_ & _ & ->).
      * intros k Hk.
        apply (network_layers_keys _ _ _ _ Hr) in Hk as [Hk|Hk];
          [elim Hk | exact Hk].
    + intros _. eexists. split; [reflexivity|]. simpl. repeat split.
      intros k [].
Qed.

(** C3 (amended).  A model whose operators all come from the optimized set
    is analysed without error, with no warning, no blocking issue and the
    flag true.  Its only recommendation is the "well-optimized" message
    when, besides, none of its operators is conv, conv2d, depthwise_conv2d,
    conv_transpose, linear or matmul, and, if softmax is among them, no
    declared input shape of two or more dimensions has a dimension above
    the maximal sequence length. *)
Theorem optimized_only_model (path : string) (model : MLModel) :
  Forall (fun o => exists t, o = Some t /\ In t ANE_OPTIMIZED_OPS)
    (encountered_operators (get_spec model)) ->
  exists results,
    analyze_ml_program path model = Returned results
    /\ warnings results = []
    /\ blocking_issues results = []
    /\ ane_compatible results = true
    /\ ((forall t, In (Some t) (encountered_operators (get_spec model)) ->
                   ~ In t advised_operators) ->
        (In (Some "softmax") (encountered_operators (get_spec model)) ->
         forall desc s,
           In desc (input_description model) ->
           declared_shape desc = Some s ->
           (length s < 2)%nat \/ max_of s <= max_sequence_length) ->
        recommendations results = [REC_WELL_OPTIMIZED]).
Proof.
  intros Hall.
  destruct (analyze_format_optimized path _ Hall)
    as (r & Hf & Hw & Hb & Hc & Hi & Ho & Hk).
  unfold analyze_ml_program. rewrite Hf.
  eexists. split; [reflexivity|]. simpl.
  repeat split; try assumption.
  intros Hadv Hseq.
  unfold generate_recommendations; simpl.
  rewrite Hc, Hw, Hi. simpl.
  rewrite Forall_forall in Hall.
  assert (Hopt : forall k, In k (keys (operations r)) ->
                           In k ANE_OPTIMIZED_OPS /\ ~ In k advised_operators).
  { intros k Hin. specialize (Hk k Hin).
    destruct (Hall _ Hk) as (t & Ht & Hopt). injection Ht as <-.
    split; [exact Hopt | now apply Hadv]. }
  assert (H1 : existsb
                 (fun op => mem (lower op) ["matmul"; "linear"; "conv"; "conv2d"])
                 (keys (operations r)) = false).
  { apply not_true_is_false. intros H.
    apply existsb_exists in H as (k & Hin & Hm).
    destruct (Hopt k Hin) as [Ho1 Ho2].
    destruct (optimized_not_advised k Ho1 Ho2) as [E _]. congruence. }
  assert (H2 : existsb (fun op => contains "conv" (lower op))
                 (keys (operations r)) = false).
  { apply not_true_is_false. intros H.
    apply existsb_exists in H as (k & Hin & Hm).
    destruct (Hopt k Hin) as [Ho1 Ho2].
    destruct (optimized_not_advised k Ho1 Ho2) as [_ E]. congruence. }
  rewrite H1, H2. simpl.
  destruct (existsb
              (fun op => (contains "attention" (lower op)
                          || contains "softmax" (lower op))%bool)
              (keys (operations r))) eqn:H3; [|reflexivity].
  rewrite sequence_loop_quiet; [reflexivity|].
  intros name s Hin.
  apply existsb_exists in H3 as (k & Hkin & Hm).
  destruct (Hopt k Hkin) as [Ho1 _].
  apply (optimized_attention_is_softmax k Ho1) in Hm. subst k.
  apply shapes_In in Hin as [[]|(desc & Hd & Hs)].
  exact (Hseq (Hk _ Hkin) desc s Hd Hs).
Qed.

(** A model of optimized operators that gets the "well-optimized" message:
    softmax with a short input. *)
Definition softmax_model : MLModel :=
  {| get_spec :=
       {| which_type := Some "mlProgram";
          mlProgram_functions :=
            [ {| function_name := "main";
                 block_specializations :=
                   [ {| block_operations := ["relu"; "softmax"; "add"] |} ] |} ];
          neuralNetwork_layers := [] |};
     input_description := [ tensor "x" [1; 128] ];
     output_description := [ tensor "y" [1; 128] ] |}.

Lemma optimized_only_model_witness :
  exists results,
    analyze_ml_program "m" softmax_model = Returned results
    /\ warnings results = []
    /\ blocking_issues results = []
    /\ ane_compatible results = true
    /\ recommendations results = [REC_WELL_OPTIMIZED].
Proof.
  destruct (optimized_only_model "m" softmax_model)
    as (results & Hrun & Hw & Hb & Hc & Hrec).
  - repeat constructor; eexists; (split; [reflexivity | simpl; tauto]).
  - exists results. repeat split; try assumption.
    apply Hrec.
    + intros t Hin. simpl in Hin.
      destruct Hin as [H|[H|[H|[]]]]; injection H as <-;
        simpl; intuition discriminate.
    + intros _ desc s [<-|[]] Hs. injection Hs as <-.
      right. vm_compute. discriminate.
Defined.

(** *** C7: the JSON report read back *)

(** Induction on values, through their lists and dictionaries. *)
Section ValueInduction.
Variable P : value -> Prop.
Hypothesis P_none : P VNone.
Hypothesis P_bool : forall b, P (VBool b).
Hypothesis P_int : forall n, P (VInt n).
Hypothesis P_str : forall s, P (VStr s).
Hypothesis P_list : forall items, Forall P items -> P (VList items).
Hypothesis P_dict :
  forall items, Forall (fun kv => P (snd kv)) items -> P (VDict items).

Fixpoint value_induction (v : value) : P v :=
  match v with
  | VNone => P_none
  | VBool b => P_bool b
  | VInt n => P_int n
  | VStr s => P_str s
  | VList items =>
      P_list items
        ((fix all (l : list value) : Forall P l :=
            match l with
            | [] => Forall_nil P
            | x :: l' => Forall_cons x (value_induction x) (all l')
            end) items)
  | VDict items =>
      P_dict items
        ((fix all (l : list (string * value))
           : Forall (fun kv => P (snd kv)) l :=
            match l with
            | [] => Forall_nil _
            | kv :: l' =>
                Forall_cons kv (value_induction (snd kv)) (all l')
            end) items)
  end.

End ValueInduction.

Lemma set_fresh {V : Type} (k : string) (v : V) (d : dict V) :
  ~ In k (keys d) -> Py.set k v d = (d ++ [(k, v)])%list.
Proof.
  unfold keys. induction d as [|[k0 v0] d IH]; intros Hk.
  - reflexivity.
  - change (Py.set k v ((k0, v0) :: d))
      with (if String.eqb k k0 then (k, v) :: d
            else (k0, v0) :: Py.set k v d).
    destruct (String.eqb_spec k k0) as [->|Hne].
    + elim Hk. now left.
    + rewrite IH; [reflexivity|]. intros Hin. apply Hk. now right.
Qed.

Lemma dict_of_pairs_app {V : Type} (d acc : dict V) :
  NoDup (keys (acc ++ d)%list) ->
  fold_left (fun d kv => Py.set (fst kv) (snd kv) d) d acc
  = (acc ++ d)%list.
Proof.
  revert acc. induction d as [|[k v] d IH]; intros acc Hnd; simpl.
  - now rewrite app_nil_r.
  - assert (Hfresh : ~ In k (keys acc)).
    { unfold keys in *. rewrite map_app in Hnd. simpl in Hnd.
      apply NoDup_remove_2 in Hnd. intros Hin. apply Hnd.
      apply in_or_app. now left. }
    rewrite (set_fresh k v acc Hfresh).
    rewrite IH; rewrite <- app_assoc; [reflexivity | exact Hnd].
Qed.

Lemma dict_of_pairs_NoDup {V : Type} (d : dict V) :
  NoDup (keys d) -> dict_of_pairs d = d.
Proof. intros H. apply (dict_of_pairs_app d []). exact H. Qed.

Lemma map_id_Forall {A : Type} (f : A -> A) (l : list A) :
  Forall (fun x => f x = x) l -> map f l = l.
Proof.
  induction 1 as [|x l Hx _ IH]; simpl; [reflexivity | now rewrite Hx, IH].
Qed.

(** A well-formed value comes back from its document unchanged. *)
Lemma loads_dumps (v : value) : well_formed v -> loads (dumps v) = v.
Proof.
  induction v as [| | | |items IH|items IH] using value_induction;
    intros Hwf; simpl; try reflexivity.
  - inversion Hwf as [| | | |? Hall|]; subst.
    rewrite map_map. f_equal. apply map_id_Forall.
    rewrite Forall_forall in *. intros x Hx. apply IH; auto.
  - inversion Hwf as [| | | | |? Hnd Hall]; subst.
    rewrite map_map. simpl.
    assert (E : map (fun kv : string * value =>
                       (fst kv, loads (dumps (snd kv)))) items = items).
    { apply map_id_Forall. rewrite Forall_forall in *.
      intros [k x] Hx. simpl. f_equal. apply (IH _ Hx), (Hall _ Hx). }
    rewrite E. f_equal. now apply dict_of_pairs_NoDup.
Qed.

(** The dictionaries an analysis builds have no repeated key. *)
Definition distinct_keys (r : Results) : Prop :=
  NoDup (keys (operations r))
  /\ NoDup (keys (input_shapes r))
  /\ NoDup (keys (output_shapes r)).

Lemma keys_map {V W : Type} (f : string * V -> W) (d : dict V) :
  keys (map (fun kv => (fst kv, f kv)) d) = keys d.
Proof. unfold keys. rewrite map_map. reflexivity. Qed.

Lemma shapes_NoDup (descs : list FeatureDescription) (d0 : dict (list Z)) :
  NoDup (keys d0) -> NoDup (keys (fold_left record_shape descs d0)).
Proof.
  revert d0. induction descs as [|desc descs IH]; simpl; intros d0 H.
  - exact H.
  - apply IH. rewrite record_shape_declared.
    destruct (declared_shape desc); [now apply NoDup_keys_set | exact H].
Qed.

Lemma operations_NoDup_mlprogram (ops : list string) (r : Results) :
  NoDup (keys (operations r)) ->
  NoDup (keys (operations (fold_left analyze_mlprogram_op ops r))).
Proof.
  revert r. induction ops as [|op ops IH]; simpl; intros r H.
  - exact H.
  - apply IH.
    destruct (mlprogram_op_fields r op) as (_ & _ & _ & _ & _ & _ & _ & _ & Ho).
    rewrite Ho. now apply NoDup_keys_set.
Qed.

Lemma operations_NoDup_network (layers : list Layer) (r r' : Results) :
  analyze_neural_network_layers layers r = Returned r' ->
  NoDup (keys (operations r)) -> NoDup (keys (operations r')).
Proof.
  revert r. induction layers as [|layer layers IH]; simpl; intros r H Hr.
  - now injection H as <-.
  - destruct (analyze_neural_network_layer r layer) as [r1|e] eqn:E1;
      [|discriminate].
    apply (IH _ H).
    destruct (network_layer_fields _ _ _ E1) as ((t & _ & Ho) & _).
    rewrite Ho. now apply NoDup_keys_set.
Qed.

Lemma analysis_distinct_keys (path : string) (model : MLModel) (r : Results) :
  analyze_ml_program path model = Returned r -> distinct_keys r.
Proof.
  intros H. destruct (analyze_ml_program_inv _ _ _ H) as (r1 & Hf & ->).
  unfold distinct_keys; simpl.
  assert (H1 : NoDup (keys (operations r1))
               /\ input_shapes r1 = [] /\ output_shapes r1 = []).
  { revert Hf. unfold analyze_format.
    destruct (type_is (which_type (get_spec model)) "mlProgram").
    - intros E; injection E as <-. rewrite analyze_mlprogram_ops_fold.
      split; [apply operations_NoDup_mlprogram; constructor|].
      destruct (mlprogram_fold_fields (program_op_types (get_spec model))
                  (with_format "mlprogram" (initial_results path)))
        as (_ & _ & _ & Hi & Ho & _).
      now rewrite Hi, Ho.
    - destruct (type_is (which_type (get_spec model)) "neuralNetwork").
      + intros E. split.
        * apply (operations_NoDup_network _ _ _ E). constructor.
        * destruct (network_layers_fields _ _ _ E)
            as (_ & _ & _ & _ & Hi & Ho & _).
          now rewrite Hi, Ho.
      + intros E; injection E as <-. repeat split. constructor. }
  destruct H1 as (Hops & -> & ->).
  repeat split; [exact Hops | |]; apply shapes_NoDup; constructor.
Qed.

Lemma strings_well_formed (l : list string) : well_formed (strings l).
Proof.
  constructor. apply Forall_forall. intros v Hv.
  apply in_map_iff in Hv as (s & <- & _). constructor.
Qed.

Lemma shapes_well_formed (d : dict (list Z)) :
  NoDup (keys d) -> well_formed (shapes_value d).
Proof.
  intros Hd. constructor.
  - now rewrite (keys_map (fun kv => VList (map VInt (snd kv)))).
  - apply Forall_forall. intros kv Hkv.
    apply in_map_iff in Hkv as (kv0 & <- & _). simpl.
    constructor. apply Forall_forall. intros v Hv.
    apply in_map_iff in Hv as (n & <- & _). constructor.
Qed.

Lemma results_well_formed (r : Results) :
  distinct_keys r -> well_formed (results_value r).
Proof.
  intros (Hops & Hin & Hout). constructor.
  - simpl. repeat constructor; simpl; intuition discriminate.
  - repeat apply Forall_cons; try apply Forall_nil; simpl;
      try solve [constructor];
      try apply strings_well_formed; try (now apply shapes_well_formed).
    constructor.
    + now rewrite (keys_map (fun kv => VInt (snd kv))).
    + apply Forall_forall. intros kv Hkv.
      apply in_map_iff in Hkv as (kv0 & <- & _). constructor.
Qed.

Lemma map_injective {A B : Type} (f : A -> B) (l1 l2 : list A) :
  (forall x y, f x = f y -> x = y) -> map f l1 = map f l2 -> l1 = l2.
Proof.
  intros Hf. revert l2. induction l1 as [|x l1 IH]; intros [|y l2] H;
    try discriminate; [reflexivity|].
  simpl in H. injection H as Hxy Hl. f_equal; auto.
Qed.

Lemma VInt_list_injective (l1 l2 : list Z) :
  map VInt l1 = map VInt l2 -> l1 = l2.
Proof. apply map_injective. now intros x y [=]. Qed.

Lemma VStr_list_injective (l1 l2 : list string) :
  map VStr l1 = map VStr l2 -> l1 = l2.
Proof. apply map_injective. now intros x y [=]. Qed.

(** Two records with the same value agree on every field. *)
Lemma results_value_injective (r1 r2 : Results) :
  results_value r1 = results_value r2 -> r1 = r2.
Proof.
  destruct r1, r2. unfold results_value, strings, shapes_value. simpl.
  intros H. injection H as Hp Hf Hc Hw Hb Ho Hi Hu Hr.
  apply VStr_list_injective in Hw, Hb, Hr.
  apply map_injective in Ho;
    [|intros [k1 n1] [k2 n2] [=]; now subst].
  apply map_injective in Hi;
    [|intros [k1 n1] [k2 n2] [= -> E]; simpl in E;
      apply VInt_list_injective in E; now subst].
  apply map_injective in Hu;
    [|intros [k1 n1] [k2 n2] [= -> E]; simpl in E;
      apply VInt_list_injective in E; now subst].
  now subst.
Qed.

(** C7.  The document written for the result of an analysis is read back
    as the value of that result, and that value is the value of no other
    record: path, format, flag, warnings, blocking issues, operation
    counts, shapes and recommendations all come back equal. *)
Theorem report_round_trip (path : string) (model : MLModel) (results : Results) :
  analyze_ml_program path model = Returned results ->
  loads (json_report results) = results_value results
  /\ forall parsed : Results,
       results_value parsed = loads (json_report results) ->
       parsed = results.
Proof.
  intros H.
  assert (E : loads (json_report results) = results_value results).
  { apply loads_dumps, results_well_formed.
    exact (analysis_distinct_keys _ _ _ H). }
  split; [exact E|].
  intros parsed Hp. apply results_value_injective. now rewrite Hp.
Qed.

(** The report of [sample_model] read back. *)
Lemma report_round_trip_witness :
  exists results,
    analyze_ml_program "m" sample_model = Returned results
    /\ loads (json_report results) = results_value results.
Proof.
  eexists. split; [reflexivity|].
  exact (proj1 (report_round_trip "m" sample_model _ eq_refl)).
Defined.

End AnalyzeAneFacts.

(** ** Properties of quantize_kokoro.py *)

Module QuantizeKokoroFacts.
Import AnalyzeAne QuantizeKokoro PyFacts.

(** *** Floating-point facts *)

(** Neither a NaN nor an infinity. *)
Definition is_finite (x : float) : bool :=
  match x with
  | S754_zero _ | S754_finite _ _ _ => true
  | S754_infinity _ | S754_nan => false
  end.

(** Positive and not zero: a positive finite number or plus infinity. *)
Definition is_positive (x : float) : Prop :=
  match x with
  | S754_finite s _ _ | S754_infinity s => s = false
  | S754_zero _ | S754_nan => False
  end.

Lemma fsub_diag (x : float) : is_finite x = true -> fsub x x = zero.
Proof.
  destruct x as [s|s| |s m e]; try discriminate; intros _.
  - now destruct s.
  - unfold fsub, SFsub. rewrite Z.sub_diag. reflexivity.
Qed.

Lemma shr_1_m (mrs : shr_record) :
  0 <= shr_m mrs -> shr_m (shr_1 mrs) = Z.div2 (shr_m mrs).
Proof.
  destruct mrs as [m r s]; simpl. destruct m as [|p|p]; intros H.
  - reflexivity.
  - now destruct p.
  - lia.
Qed.

Lemma iter_shr_1_m (p : positive) (mrs : shr_record) :
  0 <= shr_m mrs ->
  0 <= shr_m (iter_pos shr_1 p mrs)
  /\ shr_m (iter_pos shr_1 p mrs) = shr_m mrs / 2 ^ Zpos p.
Proof.
  revert mrs. induction p as [p IH|p IH|]; intros mrs Hm; simpl iter_pos.
  - assert (H1 : 0 <= shr_m (shr_1 mrs)).
    { rewrite shr_1_m by exact Hm. rewrite Z.div2_div.
      apply Z.div_pos; lia. }
    destruct (IH _ H1) as [H2 E2]. destruct (IH _ H2) as [H3 E3].
    split; [exact H3|].
    rewrite E3, E2, shr_1_m, Z.div2_div by exact Hm.
    rewrite !Z.div_div by (try apply Z.pow_pos_nonneg; lia).
    f_equal.
    replace (Zpos p~1) with (1 + Zpos p + Zpos p) by lia.
    rewrite !Z.pow_add_r by lia. change (2 ^ 1) with 2. ring.
  - destruct (IH _ Hm) as [H2 E2]. destruct (IH _ H2) as [H3 E3].
    split; [exact H3|].
    rewrite E3, E2.
    rewrite !Z.div_div by (try apply Z.pow_pos_nonneg; lia).
    f_equal.
    replace (Zpos p~0) with (Zpos p + Zpos p) by lia.
    rewrite Z.pow_add_r by lia. ring.
  - rewrite shr_1_m by exact Hm. rewrite Z.div2_div.
    split; [apply Z.div_pos; lia | reflexivity].
Qed.

Lemma digits2_pos_lower (m : positive) :
  2 ^ (Zpos (digits2_pos m) - 1) <= Zpos m.
Proof.
  induction m as [m IH|m IH|]; simpl digits2_pos.
  - rewrite Pos2Z.inj_succ.
    replace (Z.succ (Zpos (digits2_pos m)) - 1)
      with (Z.succ (Zpos (digits2_pos m) - 1)) by lia.
    rewrite Z.pow_succ_r by lia. lia.
  - rewrite Pos2Z.inj_succ.
    replace (Z.succ (Zpos (digits2_pos m)) - 1)
      with (Z.succ (Zpos (digits2_pos m) - 1)) by lia.
    rewrite Z.pow_succ_r by lia. lia.
  - simpl. lia.
Qed.

Lemma shr_record_of_loc_m (m : Z) (l : location) :
  shr_m (shr_record_of_loc m l) = m.
Proof. destruct l as [|[]]; reflexivity. Qed.

(** Shifting a positive mantissa to its canonical exponent leaves it
    positive when the exponent is not below the least one. *)
Lemma shr_fexp_positive (m : positive) (e : Z) (l : location) :
  emin prec emax <= e ->
  0 < shr_m (fst (shr_fexp prec emax (Zpos m) e l))
  /\ e <= snd (shr_fexp prec emax (Zpos m) e l).
Proof.
  intros He. unfold shr_fexp, shr.
  assert (Hn : fexp prec emax (Zdigits2 (Zpos m) + e) - e
               <= Zpos (digits2_pos m) - 1).
  { unfold fexp, emin, prec, emax in *. simpl Zdigits2. lia. }
  destruct (fexp prec emax (Zdigits2 (Zpos m) + e) - e) as [|p|p]; simpl.
  - rewrite shr_record_of_loc_m. lia.
  - destruct (iter_shr_1_m p (shr_record_of_loc (Zpos m) l)) as [_ E].
    { rewrite shr_record_of_loc_m. lia. }
    rewrite E, shr_record_of_loc_m. split; [|lia].
    apply Z.div_str_pos. split; [apply Z.pow_pos_nonneg; lia|].
    apply Z.le_trans with (2 ^ (Zpos (digits2_pos m) - 1)).
    + apply Z.pow_le_mono_r; lia.
    + apply digits2_pos_lower.
  - rewrite shr_record_of_loc_m. lia.
Qed.

Lemma round_nearest_even_positive (m : Z) (l : location) :
  0 < m -> 0 < round_nearest_even m l.
Proof.
  intros Hm. destruct l as [|[]]; simpl; try lia.
  destruct (Z.even m); lia.
Qed.

Lemma binary_round_aux_positive (m : positive) (e : Z) (l : location) :
  emin prec emax <= e ->
  is_positive (binary_round_aux prec emax false (Zpos m) e l).
Proof.
  intros He. unfold binary_round_aux.
  destruct (shr_fexp_positive m e l He) as [H1 H2].
  destruct (shr_fexp prec emax (Zpos m) e l) as [mrs' e']. simpl in H1, H2.
  pose proof (round_nearest_even_positive _ (loc_of_shr_record mrs') H1) as H3.
  destruct (round_nearest_even (shr_m mrs') (loc_of_shr_record mrs'))
    as [|m1|m1]; try lia.
  destruct (shr_fexp_positive m1 e' loc_Exact) as [H4 _]; [lia|].
  destruct (shr_fexp prec emax (Zpos m1) e' loc_Exact) as [mrs'' e''].
  simpl in H4.
  destruct (shr_m mrs'') as [|m2|m2]; try lia.
  destruct (e'' <=? emax - prec); reflexivity.
Qed.

(** [float(n)] is positive for a positive [n]. *)
Lemma of_int_positive (n : Z) : 0 < n -> is_positive (of_int n).
Proof.
  destruct n as [|p|p]; try lia. intros _.
  unfold of_int, binary_normalize, binary_round.
  destruct (shl_align p 0 (fexp prec emax (Zpos (digits2_pos p) + 0)))
    as [mz ez] eqn:E.
  apply binary_round_aux_positive.
  revert E. unfold shl_align.
  destruct (fexp prec emax (Zpos (digits2_pos p) + 0) - 0) as [|d|d] eqn:Ed;
    intros [= <- <-].
  - unfold emin, prec, emax. lia.
  - unfold emin, prec, emax. lia.
  - unfold fexp. lia.
Qed.

Lemma fdiv_zero_positive (y : float) : is_positive y -> fdiv zero y = zero.
Proof.
  destruct y as [s|s| |s m e]; simpl; try contradiction; now intros ->.
Qed.

(** *** Running a script step by step *)

(** One step of a run: unfold the monad, reduce the record projections. *)
Ltac run :=
  cbv beta iota zeta
    delta [bind try_except reading acting print ret lift raise
           get_model_size_mb];
  cbn [value world trace fst snd].

Section Steps.
Context {World : Type}.
Variable lib : Library World.

Lemma value_bind {A B : Type} (m : M A) (k : A -> M B) (w : World) :
  value (bind m k w)
  = match value (m w) with
    | Raised e => Raised e
    | Returned a => value (k a (world (m w)))
    end.
Proof.
  unfold bind. destruct (m w) as [[a|e] w1 t]; cbn [value world];
    [now destruct (k a w1) | reflexivity].
Qed.

Lemma bind_raised {A B : Type} (m : M A) (k : A -> M B) (w : World) (e : exn) :
  value (m w) = Raised e -> value (bind m k w) = Raised e.
Proof. intros H. now rewrite value_bind, H. Qed.

Lemma bind_returned {A B : Type} (m : M A) (k : A -> M B) (w : World) (a : A) :
  value (m w) = Returned a ->
  value (bind m k w) = value (k a (world (m w)))
  /\ world (bind m k w) = world (k a (world (m w)))
  /\ trace (bind m k w) = (trace (m w) ++ trace (k a (world (m w))))%list.
Proof.
  unfold bind. destruct (m w) as [v w1 t]; cbn [value world trace].
  intros ->. now destruct (k a w1).
Qed.

(** The library entry point a precision and a model format select. *)
Definition quantizer (precision : string) (model : MLModel)
  : World -> outcome MLModel :=
  if String.eqb precision "float16"
  then if type_is (which_type (get_spec model)) "mlProgram"
       then linear_quantize_weights lib model
       else quantize_weights lib model 16 "linear"
  else if type_is (which_type (get_spec model)) "mlProgram"
       then palettize_weights lib model
       else quantize_weights lib model 8 "kmeans".

(** The reduction [main] runs for a precision. *)
Definition quantize (precision : string) (input_path output_path : string)
  : M Metrics :=
  if String.eqb precision "float16"
  then quantize_to_float16 lib input_path output_path
  else quantize_to_int8 lib input_path output_path.

(** [analyze_model] returns the loaded model, or raises as the load does,
    and leaves the world as it is. *)
Lemma analyze_model_run (path : string) (w : World) :
  value (analyze_model lib path w) = ct_MLModel lib path w
  /\ world (analyze_model lib path w) = w.
Proof.
  unfold analyze_model. run.
  destruct (ct_MLModel lib path w) as [model|e]; [|now split].
  destruct (type_is (which_type (get_spec model)) "neuralNetwork");
    [|destruct (type_is (which_type (get_spec model)) "mlProgram")];
    run;
    try match goal with
        | |- context [match ?l with [] => _ | _ :: _ => _ end] => destruct l
        end; now split.
Qed.

Lemma quantize_raises_with_quantizer (precision input_path output_path : string)
  (w : World) (model : MLModel) (e : exn) :
  ct_MLModel lib input_path w = Returned model ->
  quantizer precision model w = Raised e ->
  value (quantize precision input_path output_path w) = Raised e.
Proof.
  unfold quantize, quantizer, quantize_to_float16, quantize_to_int8.
  intros Hload.
  destruct (String.eqb precision "float16"); run; rewrite Hload; run;
    destruct (type_is (which_type (get_spec model)) "mlProgram"); run;
    intros ->; reflexivity.
Qed.

Lemma main_quantize_raises (args : Args) (w : World) (model : MLModel)
  (e : exn) :
  arg_from_onnx args = false ->
  ct_MLModel lib (arg_input args) w = Returned model ->
  value (quantize (arg_precision args) (arg_input args) (arg_output args) w)
  = Raised e ->
  value (main lib args w) = Raised e.
Proof.
  intros Honnx Hload Hq. unfold main. rewrite Honnx.
  destruct (analyze_model_run (arg_input args) w) as [Hv Hw].
  rewrite value_bind, Hv, Hload, Hw.
  apply bind_raised. exact Hq.
Qed.

End Steps.


(** *** A stub library

    A file system that holds, for each model path, the model and the size
    of its one file; quantizers that return the model as it is; a save that
    writes a file of a fixed size; predictions given by a table. *)

Record StubWorld : Type :=
  { models : dict MLModel; sizes : dict Z }.

Definition not_found (path : string) : exn :=
  Exn "FileNotFoundError" ("No such file or directory: " ++ path).

Definition stub_load (path : string) (w : StubWorld) : outcome MLModel :=
  match get path (models w) with
  | Some model => Returned model
  | None => Raised (not_found path)
  end.

(** A coarse stand-in for [np.log10]: right on zero, infinity and NaN, the
    logarithm of the leading power of two elsewhere, rounded down. *)
Definition stub_log10 (x : float) : float :=
  match x with
  | S754_nan | S754_infinity true | S754_finite true _ _ => S754_nan
  | S754_infinity false => inf
  | S754_zero _ => S754_infinity true
  | S754_finite false m e =>
      of_int ((Zpos (digits2_pos m) + e - 1) * 30103 / 100000)
  end.

Definition stub (saved_bytes : Z) (predict : MLModel -> outcome (dict array))
  : Library StubWorld :=
  {| ct_MLModel := stub_load;
     os_walk := fun path w =>
       match get path (models w) with
       | Some _ => [(path, ["weight.bin"])]
       | None => []
       end;
     os_path_join := fun dir f => dir ++ "/" ++ f;
     os_path_isfile := fun fp w =>
       match get fp (sizes w) with Some _ => true | None => false end;
     os_path_getsize := fun fp w => get_default fp 0 (sizes w);
     os_path_dirname := fun _ => "build";
     linear_quantize_weights := fun model _ => Returned model;
     quantize_weights := fun model _ _ _ => Returned model;
     palettize_weights := fun model _ => Returned model;
     model_save := fun model path w =>
       (Returned tt,
        {| models := Py.set path model (models w);
           sizes := Py.set (path ++ "/weight.bin") saved_bytes (sizes w) |});
     ct_convert := fun onnx_path _ w => stub_load onnx_path w;
     np_random_randn := fun w => (repeat zero 256, w);
     model_predict := fun model _ _ => predict model;
     np_log10 := stub_log10;
     subprocess_run := fun _ w => (Returned (0, ""), w) |}.

Definition MB : Z := 1024 * 1024.

(** A program-style model and a legacy network, told apart by their
    format. *)
Definition program_model : MLModel :=
  {| get_spec :=
       {| which_type := Some "mlProgram";
          mlProgram_functions := [];
          neuralNetwork_layers := [] |};
     input_description := [];
     output_description := [] |}.

Definition network_model : MLModel :=
  {| get_spec :=
       {| which_type := Some "neuralNetwork";
          mlProgram_functions := [];
          neuralNetwork_layers := [] |};
     input_description := [];
     output_description := [] |}.

(** A world with one model of [megabytes] MB at "kokoro.mlpackage". *)
Definition world_with (model : MLModel) (megabytes : Z) : StubWorld :=
  {| models := [("kokoro.mlpackage", model)];
     sizes := [("kokoro.mlpackage/weight.bin", megabytes * MB)] |}.

(** The same with a reduced copy at "kokoro_fp16.mlpackage". *)
Definition world_with_both (megabytes : Z) : StubWorld :=
  {| models := [("kokoro.mlpackage", program_model);
                ("kokoro_fp16.mlpackage", network_model)];
     sizes := [("kokoro.mlpackage/weight.bin", megabytes * MB);
               ("kokoro_fp16.mlpackage/weight.bin", megabytes * MB / 2)] |}.

Definition no_outputs (_ : MLModel) : outcome (dict array) := Returned [].

Definition predict_fails (_ : MLModel) : outcome (dict array) :=
  Raised (Exn "RuntimeError" "Error in predicting.").

Section Validation.
Context {World : Type}.
Variable lib : Library World.

(** *** C10: no "audio" output *)

(** The header line of [validate_quantized_model] (line 214). *)
Definition validating : event :=
  Printed [Text (nl ++ "🧪 Validating quantized model...")].

(** C10.  When both models load and both predictions return, and "audio"
    is missing from either output mapping, the validation returns [None];
    it prints its header and nothing else, so neither a warning nor a
    quality metric. *)
Theorem missing_audio_output (w : World) (original_path quantized_path : string)
  (original quantized : MLModel) (orig_output quant_output : dict array) :
  ct_MLModel lib original_path w = Returned original ->
  ct_MLModel lib quantized_path w = Returned quantized ->
  model_predict lib original (make_test_input (fst (np_random_randn lib w)))
    (snd (np_random_randn lib w)) = Returned orig_output ->
  model_predict lib quantized (make_test_input (fst (np_random_randn lib w)))
    (snd (np_random_randn lib w)) = Returned quant_output ->
  get "audio" orig_output = None \/ get "audio" quant_output = None ->
  value (validate_quantized_model lib original_path quantized_path w)
  = Returned None
  /\ trace (validate_quantized_model lib original_path quantized_path w)
     = [ validating;
         Called (MLModel_ original_path); Called (MLModel_ quantized_path);
         Called randn_;
         Called (predict_ original); Called (predict_ quantized) ].
Proof.
  intros Ho Hq Hpo Hpq Haudio.
  unfold validate_quantized_model, predict_and_compare.
  run. rewrite Ho. run. rewrite Hq. run. rewrite Hpo. run. rewrite Hpq. run.
  destruct Haudio as [H|H]; rewrite H.
  - now split.
  - destruct (get "audio" orig_output); now split.
Qed.

(** *** C4: which failures are caught *)

(** C4 (amended).  Once both models are loaded, the validation returns:
    an exception raised by a prediction or by the comparison is caught,
    the warning is printed last and the result is [None].  An exception
    raised while the validation loads either model propagates, and so does,
    out of [main], a failed conversion, a failed load of the input and a
    failed quantization. *)
Theorem failures_caught_and_propagated :
  (forall (w : World) (original_path quantized_path : string)
      (original quantized : MLModel),
      ct_MLModel lib original_path w = Returned original ->
      ct_MLModel lib quantized_path w = Returned quantized ->
      (exists result,
          value (validate_quantized_model lib original_path quantized_path w)
          = Returned result)
      /\ (forall e,
             value (predict_and_compare lib original quantized
                      (make_test_input (fst (np_random_randn lib w)))
                      (snd (np_random_randn lib w))) = Raised e ->
             value (validate_quantized_model lib original_path
                      quantized_path w) = Returned None
             /\ exists before,
                 trace (validate_quantized_model lib original_path
                          quantized_path w)
                 = (before ++ [Printed (validation_failed e)])%list)
      /\ (forall e,
             model_predict lib original
               (make_test_input (fst (np_random_randn lib w)))
               (snd (np_random_randn lib w)) = Raised e ->
             value (predict_and_compare lib original quantized
                      (make_test_input (fst (np_random_randn lib w)))
                      (snd (np_random_randn lib w))) = Raised e))
  /\ (forall (w : World) (original_path quantized_path : string) (e : exn),
         ct_MLModel lib original_path w = Raised e ->
         value (validate_quantized_model lib original_path quantized_path w)
         = Raised e)
  /\ (forall (w : World) (original_path quantized_path : string)
         (original : MLModel) (e : exn),
         ct_MLModel lib original_path w = Returned original ->
         ct_MLModel lib quantized_path w = Raised e ->
         value (validate_quantized_model lib original_path quantized_path w)
         = Raised e)
  /\ (forall (args : Args) (w : World) (e : exn),
         arg_from_onnx args = true ->
         ct_convert lib (arg_input args) (target_map_get (arg_target args)) w
         = Raised e ->
         value (main lib args w) = Raised e)
  /\ (forall (args : Args) (w : World) (e : exn),
         arg_from_onnx args = false ->
         ct_MLModel lib (arg_input args) w = Raised e ->
         value (main lib args w) = Raised e)
  /\ (forall (args : Args) (w : World) (model : MLModel) (e : exn),
         arg_from_onnx args = false ->
         ct_MLModel lib (arg_input args) w = Returned model ->
         quantizer lib (arg_precision args) model w = Raised e ->
         value (main lib args w) = Raised e).
Proof.
  split; [|split; [|split; [|split; [|split]]]].
  - intros w op qp original quantized Ho Hq.
    assert (Hbody : forall e,
               model_predict lib original
                 (make_test_input (fst (np_random_randn lib w)))
                 (snd (np_random_randn lib w)) = Raised e ->
               value (predict_and_compare lib original quantized
                        (make_test_input (fst (np_random_randn lib w)))
                        (snd (np_random_randn lib w))) = Raised e).
    { intros e He. unfold predict_and_compare. run. now rewrite He. }
    unfold validate_quantized_model.
    run. rewrite Ho. run. rewrite Hq. run.
    destruct (predict_and_compare lib original quantized
                (make_test_input (fst (np_random_randn lib w)))
                (snd (np_random_randn lib w))) as [[result|e'] w1 t];
      run; (split; [|split]); try exact Hbody.
    + eexists; reflexivity.
    + discriminate.
    + eexists; reflexivity.
    + intros e [= <-]. split; [reflexivity|].
      rewrite app_nil_r, !app_assoc. eexists. reflexivity.
  - intros w op qp e He.
    unfold validate_quantized_model. run. now rewrite He.
  - intros w op qp original e Ho He.
    unfold validate_quantized_model. run. rewrite Ho. run. now rewrite He.
  - intros args w e Honnx He. unfold main. rewrite Honnx.
    apply bind_raised.
    unfold convert_onnx_to_coreml_fp16. run. now rewrite He.
  - intros args w e Honnx He. unfold main. rewrite Honnx.
    apply bind_raised.
    destruct (analyze_model_run lib (arg_input args) w) as [-> _].
    exact He.
  - intros args w model e Honnx Hload Hq.
    apply (main_quantize_raises lib args w model e Honnx Hload).
    now apply (quantize_raises_with_quantizer lib _ _ _ _ model).
Qed.

End Validation.


(** A validation in which "audio" is missing from both outputs. *)
Lemma missing_audio_output_witness :
  value (validate_quantized_model (stub 0 no_outputs) "kokoro.mlpackage"
           "kokoro_fp16.mlpackage" (world_with_both 100))
  = Returned None
  /\ trace (validate_quantized_model (stub 0 no_outputs) "kokoro.mlpackage"
              "kokoro_fp16.mlpackage" (world_with_both 100))
     = [ validating;
         Called (MLModel_ "kokoro.mlpackage");
         Called (MLModel_ "kokoro_fp16.mlpackage");
         Called randn_;
         Called (predict_ program_model); Called (predict_ network_model) ].
Proof.
  apply (missing_audio_output (stub 0 no_outputs) (world_with_both 100)
           "kokoro.mlpackage" "kokoro_fp16.mlpackage"
           program_model network_model [] []);
    try reflexivity.
  now left.
Defined.

(** C4, as stated, fails: the two models are loaded on lines 216-217,
    before the [try]; when the reduced model cannot be loaded the
    validation raises instead of returning [None]. *)
Lemma validation_load_failure_propagates :
  value (validate_quantized_model (stub 0 no_outputs) "kokoro.mlpackage"
           "missing.mlpackage" (world_with program_model 100))
  = Raised (not_found "missing.mlpackage").
Proof. reflexivity. Qed.

Definition onnx_args : Args :=
  {| arg_input := "kokoro.onnx";
     arg_output := "kokoro_fp16.mlpackage";
     arg_precision := "float16";
     arg_from_onnx := true;
     arg_validate := true;
     arg_compile := true;
     arg_target := "ios17" |}.

(** A prediction that fails is caught; a conversion that fails is not. *)
Lemma failures_caught_and_propagated_witness :
  value (validate_quantized_model (stub 0 predict_fails) "kokoro.mlpackage"
           "kokoro_fp16.mlpackage" (world_with_both 100))
  = Returned None
  /\ value (main (stub 0 no_outputs) onnx_args (world_with program_model 100))
     = Raised (not_found "kokoro.onnx").
Proof.
  split.
  - destruct (failures_caught_and_propagated (stub 0 predict_fails))
      as (Hcaught & _).
    destruct (Hcaught (world_with_both 100) "kokoro.mlpackage"
                "kokoro_fp16.mlpackage" program_model network_model
                eq_refl eq_refl) as (_ & Hbody & Hpredict).
    refine (proj1 (Hbody (Exn "RuntimeError" "Error in predicting.") _)).
    apply Hpredict. reflexivity.
  - destruct (failures_caught_and_propagated (stub 0 no_outputs))
      as (_ & _ & _ & Hconvert & _).
    apply Hconvert; reflexivity.
Defined.

(** *** C9: the conversion path *)

Definition with_flags (validate compile : bool) (args : Args) : Args :=
  {| arg_input := arg_input args;
     arg_output := arg_output args;
     arg_precision := arg_precision args;
     arg_from_onnx := arg_from_onnx args;
     arg_validate := validate;
     arg_compile := compile;
     arg_target := arg_target args |}.

(** What a conversion does: it prints, converts and saves. *)
Definition conversion_event (ev : event) : Prop :=
  match ev with
  | Printed _ | Called (convert_ _ _) | Called (save_ _) => True
  | Called _ => False
  end.

(** The last line of the conversion path (line 339). *)
Definition conversion_complete : list fragment :=
  [Text (nl ++ "🎉 ONNX conversion complete!")].

Section Conversion.
Context {World : Type}.
Variable lib : Library World.

(** C9.  With [--from-onnx], [main] is the conversion followed by one
    printed line; [--validate] and [--compile] change nothing; and the
    run measures no size, quantizes nothing, predicts nothing and compiles
    nothing: it only prints, converts and saves. *)
Theorem onnx_conversion_only (args : Args) (w : World) :
  arg_from_onnx args = true ->
  main lib args w
  = bind (convert_onnx_to_coreml_fp16 lib (arg_input args) (arg_output args)
            (arg_target args))
      (fun _ => print conversion_complete) w
  /\ (forall validate compile : bool,
         main lib (with_flags validate compile args) w = main lib args w)
  /\ Forall conversion_event (trace (main lib args w)).
Proof.
  intros Honnx. split; [|split].
  - unfold main. now rewrite Honnx.
  - intros validate compile. unfold main, with_flags.
    cbn [arg_from_onnx arg_input arg_output arg_target]. now rewrite Honnx.
  - unfold main. rewrite Honnx.
    unfold convert_onnx_to_coreml_fp16. run.
    destruct (ct_convert lib (arg_input args)
                (target_map_get (arg_target args)) w) as [model|e];
      run; [|repeat constructor].
    destruct (fst (model_save lib model (arg_output args) w));
      run; repeat constructor.
Qed.

End Conversion.

Definition onnx_world : StubWorld :=
  {| models := [("kokoro.onnx", program_model)]; sizes := [] |}.

(** The whole run of a conversion with both flags set. *)
Lemma onnx_conversion_only_witness :
  main (stub 0 no_outputs) onnx_args onnx_world
  = main (stub 0 no_outputs) (with_flags false false onnx_args) onnx_world
  /\ trace (main (stub 0 no_outputs) onnx_args onnx_world)
     = [ Printed [Text (nl ++ "🔄 Converting ONNX to CoreML (Float16): ");
                  Text "kokoro.onnx"];
         Called (convert_ "kokoro.onnx" iOS17);
         Called (save_ "kokoro_fp16.mlpackage");
         Printed [Text "✅ Saved to: "; Text "kokoro_fp16.mlpackage"];
         Printed conversion_complete ].
Proof.
  destruct (onnx_conversion_only (stub 0 no_outputs) onnx_args onnx_world
              eq_refl) as (_ & Hflags & _).
  split; [symmetry; apply Hflags | reflexivity].
Defined.

(** *** C5: the reduction percentage *)

Lemma size_metrics_inv (original_size quantized_size : float) (m : Metrics) :
  size_metrics original_size quantized_size = Returned m ->
  original_size_mb m = original_size
  /\ quantized_size_mb m = quantized_size
  /\ reduction_percent m
     = fmul (fdiv (fsub original_size quantized_size) original_size)
         (of_int 100).
Proof.
  unfold size_metrics, truediv.
  destruct original_size; intros [= <-]; repeat split.
Qed.

Section Sizes.
Context {World : Type}.
Variable lib : Library World.

(** The size [get_model_size_mb] returns for a path in a world. *)
Definition size_mb (path : string) (w : World) : float :=
  fdiv (of_int (total_size lib path w)) (of_int (1024 * 1024)).

Lemma quantize_to_float16_inv (input_path output_path : string) (w : World)
  (m : Metrics) :
  value (quantize_to_float16 lib input_path output_path w) = Returned m ->
  exists w',
    size_metrics (size_mb input_path w) (size_mb output_path w') = Returned m.
Proof.
  unfold quantize_to_float16. run.
  destruct (ct_MLModel lib input_path w) as [model|e]; [|discriminate].
  destruct (type_is (which_type (get_spec model)) "mlProgram"); run;
    match goal with
    | |- context [match ?q with Returned _ => _ | Raised _ => _ end] =>
        destruct q as [quantized|e]; [|discriminate]
    end;
    run;
    destruct (fst (model_save lib quantized output_path w)); try discriminate;
    run;
    fold (size_mb input_path w);
    fold (size_mb output_path
            (snd (model_save lib quantized output_path w)));
    destruct (size_metrics (size_mb input_path w)
                (size_mb output_path
                   (snd (model_save lib quantized output_path w))))
      as [m'|e] eqn:E; try discriminate;
    run; intros [= <-]; eexists; exact E.
Qed.

Lemma quantize_to_int8_inv (input_path output_path : string) (w : World)
  (m : Metrics) :
  value (quantize_to_int8 lib input_path output_path w) = Returned m ->
  exists w',
    size_metrics (size_mb input_path w) (size_mb output_path w') = Returned m.
Proof.
  unfold quantize_to_int8. run.
  destruct (ct_MLModel lib input_path w) as [model|e]; [|discriminate].
  destruct (type_is (which_type (get_spec model)) "mlProgram"); run;
    match goal with
    | |- context [match ?q with Returned _ => _ | Raised _ => _ end] =>
        destruct q as [quantized|e]; [|discriminate]
    end;
    run;
    destruct (fst (model_save lib quantized output_path w)); try discriminate;
    run;
    fold (size_mb input_path w);
    fold (size_mb output_path
            (snd (model_save lib quantized output_path w)));
    destruct (size_metrics (size_mb input_path w)
                (size_mb output_path
                   (snd (model_save lib quantized output_path w))))
      as [m'|e] eqn:E; try discriminate;
    run; intros [= <-]; eexists; exact E.
Qed.

(** C5.  The metrics record of a reduction, to either precision, holds the
    size of the input before the run, the size of the output after the
    save, and [((original - quantized) / original) * 100] computed on
    them in double precision.  For 100.0 MB reduced to 52.0 MB the
    reduction is 48.0, and for 200.0 MB reduced to 100.0 MB it is 50.0,
    both exactly. *)
Theorem reduction_percent_formula :
  (forall (input_path output_path : string) (w : World) (metrics : Metrics),
      value (quantize_to_float16 lib input_path output_path w)
      = Returned metrics
      \/ value (quantize_to_int8 lib input_path output_path w)
         = Returned metrics ->
      reduction_percent metrics
      = fmul (fdiv (fsub (original_size_mb metrics)
                      (quantized_size_mb metrics))
                (original_size_mb metrics))
          (of_int 100)
      /\ original_size_mb metrics = size_mb input_path w
      /\ exists w', quantized_size_mb metrics = size_mb output_path w')
  /\ size_metrics (of_int 100) (of_int 52)
     = Returned {| original_size_mb := of_int 100;
                   quantized_size_mb := of_int 52;
                   reduction_percent := of_int 48 |}
  /\ size_metrics (of_int 200) (of_int 100)
     = Returned {| original_size_mb := of_int 200;
                   quantized_size_mb := of_int 100;
                   reduction_percent := of_int 50 |}.
Proof.
  split; [|split; vm_compute; reflexivity].
  intros input_path output_path w metrics H.
  assert (exists w', size_metrics (size_mb input_path w)
                       (size_mb output_path w') = Returned metrics)
    as [w' Hm].
  { destruct H as [H|H];
      [now apply quantize_to_float16_inv | now apply quantize_to_int8_inv]. }
  destruct (size_metrics_inv _ _ _ Hm) as (Ho & Hq & Hr).
  rewrite Ho, Hq, Hr. repeat split. now exists w'.
Qed.

End Sizes.

(** A model of 100 MB reduced to 52 MB. *)
Lemma reduction_percent_formula_witness :
  exists metrics,
    value (quantize_to_float16 (stub (52 * MB) no_outputs) "kokoro.mlpackage"
             "kokoro_fp16.mlpackage" (world_with program_model 100))
    = Returned metrics
    /\ reduction_percent metrics
       = fmul (fdiv (fsub (original_size_mb metrics)
                       (quantized_size_mb metrics))
                 (original_size_mb metrics))
           (of_int 100)
    /\ original_size_mb metrics = of_int 100
    /\ quantized_size_mb metrics = of_int 52
    /\ reduction_percent metrics = of_int 48.
Proof.
  exists {| original_size_mb := of_int 100;
            quantized_size_mb := of_int 52;
            reduction_percent := of_int 48 |}.
  assert (Hrun :
            value (quantize_to_float16 (stub (52 * MB) no_outputs)
                     "kokoro.mlpackage" "kokoro_fp16.mlpackage"
                     (world_with program_model 100))
            = Returned {| original_size_mb := of_int 100;
                          quantized_size_mb := of_int 52;
                          reduction_percent := of_int 48 |})
    by (vm_compute; reflexivity).
  split; [exact Hrun|]. split.
  - exact (proj1 (proj1 (reduction_percent_formula
                           (stub (52 * MB) no_outputs))
                    _ _ _ _ (or_introl Hrun))).
  - repeat split.
Defined.

(** *** C6: the comparison of the two "audio" arrays *)

(** The two arrays cut to the shorter length, their difference, and the
    two powers of lines 241-242. *)
Definition truncated (a b : array) : array :=
  firstn (Nat.min (length a) (length b)) a.

Definition noise_of (orig_audio quant_audio : array) : array :=
  np_subtract (truncated orig_audio quant_audio)
    (truncated quant_audio orig_audio).

Definition signal_power_of (orig_audio quant_audio : array) : float :=
  np_mean (np_square (truncated orig_audio quant_audio)).

Definition noise_power_of (orig_audio quant_audio : array) : float :=
  np_mean (np_square (noise_of orig_audio quant_audio)).

Lemma truncated_same (a : array) : truncated a a = a.
Proof. unfold truncated. rewrite Nat.min_id. apply firstn_all. Qed.

Lemma np_subtract_diag (a : array) :
  Forall (fun x => is_finite x = true) a ->
  np_subtract a a = repeat zero (length a).
Proof.
  unfold np_subtract.
  induction 1 as [|x a Hx _ IH]; simpl; [reflexivity|].
  now rewrite IH, (fsub_diag x Hx).
Qed.

Lemma np_square_zeros (n : nat) : np_square (repeat zero n) = repeat zero n.
Proof. unfold np_square. now rewrite map_repeat. Qed.

Lemma np_abs_zeros (n : nat) : np_abs (repeat zero n) = repeat zero n.
Proof. unfold np_abs. now rewrite map_repeat. Qed.

Lemma fold_fadd_zeros (n : nat) : fold_left fadd (repeat zero n) zero = zero.
Proof. induction n as [|n IH]; simpl; [reflexivity | exact IH]. Qed.

Lemma fold_maximum_zeros (n : nat) :
  fold_left maximum (repeat zero n) zero = zero.
Proof. induction n as [|n IH]; simpl; [reflexivity | exact IH]. Qed.

Lemma np_mean_zeros (n : nat) : np_mean (repeat zero (S n)) = zero.
Proof.
  unfold np_mean. rewrite repeat_length. simpl np_sum.
  rewrite fold_fadd_zeros.
  apply fdiv_zero_positive, of_int_positive. lia.
Qed.

Lemma np_max_zeros (n : nat) : np_max (repeat zero (S n)) = Returned zero.
Proof. simpl. now rewrite fold_maximum_zeros. Qed.

(** A positive mean is the mean of an array that is not empty. *)
Lemma positive_mean_nonempty (a : array) :
  gt (np_mean a) zero = true -> a <> [].
Proof. intros H ->. discriminate H. Qed.

Section Comparison.
Context {World : Type}.
Variable lib : Library World.

(** The formula of line 245. *)
Definition snr_formula (signal_power noise_power : float) : float :=
  fmul (of_int 10) (np_log10 lib (fdiv signal_power noise_power)).

(** The comparison returns the three metrics whenever the maximum
    exists. *)
Lemma compare_audio_value (orig_audio quant_audio : array) (w : World)
  (m : float) :
  np_max (np_abs (noise_of orig_audio quant_audio)) = Returned m ->
  value (compare_audio lib orig_audio quant_audio w)
  = Returned
      (Some {| snr_db :=
                 if gt (noise_power_of orig_audio quant_audio) zero
                 then snr_formula (signal_power_of orig_audio quant_audio)
                        (noise_power_of orig_audio quant_audio)
                 else inf;
               max_error := m;
               mean_error := np_mean (np_abs (noise_of orig_audio quant_audio))
            |}).
Proof.
  intros Hmax. unfold compare_audio.
  fold (truncated orig_audio quant_audio).
  rewrite (Nat.min_comm (length orig_audio) (length quant_audio)).
  fold (truncated quant_audio orig_audio).
  fold (noise_of orig_audio quant_audio).
  fold (signal_power_of orig_audio quant_audio).
  fold (noise_power_of orig_audio quant_audio).
  run. rewrite Hmax. run.
  fold (snr_formula (signal_power_of orig_audio quant_audio)
          (noise_power_of orig_audio quant_audio)).
  destruct (gt (if gt (noise_power_of orig_audio quant_audio) zero
                then snr_formula (signal_power_of orig_audio quant_audio)
                       (noise_power_of orig_audio quant_audio)
                else inf) (of_int 40)); run; [reflexivity|].
  destruct (gt (if gt (noise_power_of orig_audio quant_audio) zero
                then snr_formula (signal_power_of orig_audio quant_audio)
                       (noise_power_of orig_audio quant_audio)
                else inf) (of_int 30)); run; reflexivity.
Qed.

(** C6 (amended).  For identical arrays that are not empty and hold
    neither a NaN nor an infinity, the comparison reports an infinite SNR
    and maximal and mean absolute errors of exactly 0.  Whenever the mean
    of the squared difference of the truncated arrays is greater than 0,
    it reports the SNR [10 * log10(mean(signal^2) / mean(noise^2))]
    computed on the truncated arrays. *)
Theorem snr_report (orig_audio quant_audio : array) (w : World) :
  (orig_audio = quant_audio ->
   orig_audio <> [] ->
   Forall (fun x => is_finite x = true) orig_audio ->
   value (compare_audio lib orig_audio quant_audio w)
   = Returned (Some {| snr_db := inf; max_error := zero;
                       mean_error := zero |}))
  /\ (gt (noise_power_of orig_audio quant_audio) zero = true ->
      exists quality,
        value (compare_audio lib orig_audio quant_audio w)
        = Returned (Some quality)
        /\ snr_db quality
           = snr_formula (signal_power_of orig_audio quant_audio)
               (noise_power_of orig_audio quant_audio)).
Proof.
  split.
  - intros <- Hne Hfin.
    assert (Hnoise : noise_of orig_audio orig_audio
                     = repeat zero (length orig_audio)).
    { unfold noise_of. rewrite truncated_same.
      now apply np_subtract_diag. }
    destruct orig_audio as [|x a]; [contradiction|].
    change (length (x :: a)) with (S (length a)) in Hnoise.
    rewrite (compare_audio_value _ _ _ zero).
    + unfold noise_power_of. rewrite Hnoise.
      rewrite np_square_zeros, np_abs_zeros, !np_mean_zeros. reflexivity.
    + rewrite Hnoise, np_abs_zeros. apply np_max_zeros.
  - intros Hpos.
    assert (Hne : np_abs (noise_of orig_audio quant_audio) <> []).
    { apply positive_mean_nonempty in Hpos.
      unfold np_abs, np_square in *.
      destruct (noise_of orig_audio quant_audio); [contradiction|discriminate]. }
    destruct (np_abs (noise_of orig_audio quant_audio)) as [|y l] eqn:E;
      [contradiction|].
    eexists. split.
    + apply compare_audio_value. rewrite E. reflexivity.
    + simpl. now rewrite Hpos.
Qed.

End Comparison.

(** Predictions with an "audio" output: [a] for a program-style model,
    [b] for any other. *)
Definition audio_outputs (a b : array) (model : MLModel)
  : outcome (dict array) :=
  Returned
    [("audio",
       if type_is (which_type (get_spec model)) "mlProgram" then a else b)].

(** 2^-600: its square is below the least positive double. *)
Definition tiny : float := S754_finite false 4503599627370496 (-652).

(** C6, as stated, fails twice.  Two identical empty arrays have no
    maximum: [np.max] raises on line 249, the handler catches it, and the
    validation returns [None] without reporting an SNR.  And for the
    arrays [[tiny]] and [[0.0]] the difference [[tiny]] is not zero, but
    its square and the square of the signal are 0.0: the SNR reported is
    the infinite sentinel, where the formula gives a NaN. *)
Lemma empty_or_vanishing_noise :
  value (validate_quantized_model (stub 0 (audio_outputs [] []))
           "kokoro.mlpackage" "kokoro_fp16.mlpackage" (world_with_both 100))
  = Returned None
  /\ noise_of [tiny] [zero] = [tiny]
  /\ exists quality,
      value (compare_audio (stub 0 no_outputs) [tiny] [zero]
               (world_with_both 100))
      = Returned (Some quality)
      /\ snr_db quality = inf
      /\ snr_formula (stub 0 no_outputs) (signal_power_of [tiny] [zero])
           (noise_power_of [tiny] [zero]) = S754_nan.
Proof.
  split; [vm_compute; reflexivity|].
  split; [vm_compute; reflexivity|].
  eexists. split; [vm_compute; reflexivity|].
  split; vm_compute; reflexivity.
Qed.

(** Two identical arrays, and two arrays that differ by one. *)
Lemma snr_report_witness :
  value (compare_audio (stub 0 no_outputs) [of_int 1; of_int 2]
           [of_int 1; of_int 2] (world_with_both 100))
  = Returned (Some {| snr_db := inf; max_error := zero;
                      mean_error := zero |})
  /\ exists quality,
      value (compare_audio (stub 0 no_outputs) [of_int 2] [of_int 1]
               (world_with_both 100))
      = Returned (Some quality)
      /\ snr_db quality
         = snr_formula (stub 0 no_outputs)
             (signal_power_of [of_int 2] [of_int 1])
             (noise_power_of [of_int 2] [of_int 1]).
Proof.
  split.
  - apply (proj1 (snr_report (stub 0 no_outputs) [of_int 1; of_int 2]
                    [of_int 1; of_int 2] (world_with_both 100))).
    + reflexivity.
    + discriminate.
    + repeat constructor.
  - apply (proj2 (snr_report (stub 0 no_outputs) [of_int 2] [of_int 1]
                    (world_with_both 100))).
    vm_compute. reflexivity.
Defined.

End QuantizeKokoroFacts.

(** ** More properties of analyze_ane.py *)

Module AnalyzeAneMore.
Import AnalyzeAne PyFacts AnalyzeAneFacts.

(** *** Operation counts *)

(** How often an operator was met. *)
Definition occurrences (k : string) (ops : list (option string)) : nat :=
  length (filter (fun o => type_is o k) ops).

(** The counting of lines 125 and 148, on the dictionary alone. *)
Definition count_into (d : dict Z) (ks : list string) : dict Z :=
  fold_left (fun d k => Py.set k (get_default k 0 d + 1) d) ks d.

Lemma get_default_set (k k' : string) (v : Z) (d : dict Z) :
  get_default k 0 (Py.set k' v d)
  = if String.eqb k k' then v else get_default k 0 d.
Proof.
  unfold get_default. destruct (String.eqb_spec k k') as [->|Hne].
  - now rewrite get_set_same.
  - now rewrite get_set_other.
Qed.

Lemma get_count_into (ks : list string) (d : dict Z) (k : string) :
  get k (count_into d ks)
  = match length (filter (String.eqb k) ks) with
    | O => get k d
    | S n => Some (get_default k 0 d + Z.of_nat (S n))
    end.
Proof.
  unfold count_into. revert d.
  induction ks as [|k0 ks IH]; intros d; [reflexivity|].
  cbn [fold_left filter]. rewrite IH.
  destruct (String.eqb_spec k k0) as [<-|Hne].
  - cbn [length]. rewrite get_set_same, get_default_set, String.eqb_refl.
    destruct (length (filter (String.eqb k) ks)); f_equal; lia.
  - rewrite get_set_other by exact Hne.
    rewrite get_default_set.
    destruct (String.eqb_spec k k0); [contradiction | reflexivity].
Qed.

Lemma operations_mlprogram_fold (ops : list string) (r : Results) :
  operations (fold_left analyze_mlprogram_op ops r)
  = count_into (operations r) ops.
Proof.
  revert r. induction ops as [|op ops IH]; intros r; [reflexivity|].
  cbn [fold_left]. rewrite IH.
  destruct (mlprogram_op_fields r op) as (_ & _ & _ & _ & _ & _ & _ & _ & Ho).
  now rewrite Ho.
Qed.

Lemma operations_network_layers (layers : list Layer) (r r' : Results) :
  analyze_neural_network_layers layers r = Returned r' ->
  exists kinds,
    map layer_which layers = map Some kinds
    /\ operations r' = count_into (operations r) kinds.
Proof.
  revert r. induction layers as [|layer layers IH]; intros r H.
  - injection H as <-. now exists [].
  - cbn [analyze_neural_network_layers] in H.
    destruct (analyze_neural_network_layer r layer) as [r1|e] eqn:E1;
      [|discriminate].
    destruct (IH _ H) as (kinds & Hk & Ho).
    destruct (network_layer_fields _ _ _ E1) as ((t & Ht & Ho1) & _).
    exists (t :: kinds). cbn [map]. rewrite Ht, Hk. split; [reflexivity|].
    rewrite Ho, Ho1. reflexivity.
Qed.

Lemma filter_map_Some (k : string) (kinds : list string) :
  length (filter (fun o => type_is o k) (map Some kinds))
  = length (filter (String.eqb k) kinds).
Proof.
  induction kinds as [|t kinds IH]; [reflexivity|].
  cbn [map filter type_is]. rewrite (String.eqb_sym t k).
  destruct (String.eqb k t); cbn [length]; now rewrite IH.
Qed.

(** X1.  At the end of an analysis the count recorded for an operator is
    the number of times the analyzer met it, and an operator that was
    never met has no entry. *)
Theorem operation_counts (path : string) (model : MLModel) (results : Results)
  (k : string) :
  analyze_ml_program path model = Returned results ->
  get k (operations results)
  = match occurrences k (encountered_operators (get_spec model)) with
    | O => None
    | S n => Some (Z.of_nat (S n))
    end.
Proof.
  intros H. destruct (analyze_ml_program_inv _ _ _ H) as (r1 & Hf & ->).
  cbn [operations with_recommendations analyze_shapes with_output_shapes
       with_input_shapes].
  revert Hf. unfold analyze_format, encountered_operators, occurrences.
  destruct (type_is (which_type (get_spec model)) "mlProgram").
  - intros [= <-]. rewrite analyze_mlprogram_ops_fold.
    rewrite operations_mlprogram_fold, get_count_into, filter_map_Some.
    reflexivity.
  - destruct (type_is (which_type (get_spec model)) "neuralNetwork").
    + intros E. destruct (operations_network_layers _ _ _ E) as (kinds & -> & ->).
      rewrite get_count_into, filter_map_Some. reflexivity.
    + intros [= <-]. reflexivity.
Qed.

(** The counts of [sample_model]. *)
Lemma operation_counts_witness :
  exists results,
    analyze_ml_program "m" sample_model = Returned results
    /\ get "einsum" (operations results) = Some 1
    /\ get "gelu" (operations results) = None.
Proof.
  eexists. split; [reflexivity|]. split.
  - exact (operation_counts "m" sample_model _ "einsum" eq_refl).
  - exact (operation_counts "m" sample_model _ "gelu" eq_refl).
Defined.

(** *** The messages of a run, in order *)

Lemma flat_map_if_filter {A B : Type} (c : A -> bool) (f : A -> B)
  (l : list A) :
  flat_map (fun a => if c a then [f a] else []) l = map f (filter c l).
Proof.
  induction l as [|a l IH]; [reflexivity|].
  cbn [flat_map filter]. rewrite IH. now destruct (c a).
Qed.

(** X2.  A program-style model is always analysed to the end.  Its
    warnings are the messages of the operations whose lower-cased type is
    in the problematic set, in the order they are met and once for each
    occurrence; its blocking issues are those of the operations whose
    lower-cased type contains "custom", in the same way. *)
Theorem program_messages (path : string) (model : MLModel) :
  type_is (which_type (get_spec model)) "mlProgram" = true ->
  exists results,
    analyze_ml_program path model = Returned results
    /\ format results = "mlprogram"
    /\ warnings results
       = map mlprogram_warning
           (filter (fun op => mem (lower op) ANE_PROBLEMATIC_OPS)
              (program_op_types (get_spec model)))
    /\ blocking_issues results
       = map mlprogram_blocking_issue
           (filter (fun op => contains "custom" (lower op))
              (program_op_types (get_spec model))).
Proof.
  intros Hty. unfold analyze_ml_program, analyze_format. rewrite Hty.
  eexists. split; [reflexivity|].
  cbn [format warnings blocking_issues with_recommendations analyze_shapes
       with_output_shapes with_input_shapes].
  rewrite analyze_mlprogram_ops_fold.
  destruct (mlprogram_fold_fields (program_op_types (get_spec model))
              (with_format "mlprogram" (initial_results path)))
    as (Hw & Hb & _ & _ & _ & _ & Hf & _).
  rewrite Hw, Hb, Hf. split; [reflexivity|].
  split; apply flat_map_if_filter.
Qed.

(** The messages of [sample_model]. *)
Lemma program_messages_witness :
  exists results,
    analyze_ml_program "m" sample_model = Returned results
    /\ warnings results = ["Operation 'einsum' may cause ANE fallback"]
    /\ blocking_issues results
       = ["Custom layer 'custom_attention' not supported on ANE"].
Proof.
  destruct (program_messages "m" sample_model eq_refl)
    as (results & Hrun & _ & Hw & Hb).
  exists results. split; [exact Hrun|].
  split; [exact Hw | exact Hb].
Defined.

(** *** The legacy network path: when it returns and when it raises *)

Lemma network_layers_raise (layers : list Layer) (r : Results) :
  Exists (fun layer => layer_which layer = None) layers ->
  analyze_neural_network_layers layers r
  = Raised (Exn "AttributeError"
              "'NoneType' object has no attribute 'lower'").
Proof.
  intros H. revert r. induction H as [layer layers Hnone|layer layers _ IH];
    intros r; cbn [analyze_neural_network_layers].
  - unfold analyze_neural_network_layer. now rewrite Hnone.
  - destruct (analyze_neural_network_layer r layer) as [r1|e] eqn:E.
    + apply IH.
    + revert E. unfold analyze_neural_network_layer.
      destruct (layer_which layer); [discriminate | now intros [= <-]].
Qed.

Lemma type_is_network_not_program (model_type : option string) :
  type_is model_type "neuralNetwork" = true ->
  type_is model_type "mlProgram" = false.
Proof.
  destruct model_type as [t|]; [|discriminate]. cbn [type_is].
  intros H. apply String.eqb_eq in H. now subst.
Qed.

(** X3.  A legacy network is analysed to the end exactly when every layer
    has a layer kind; the warnings and blocking issues are then those of
    its layers, in order.  When some layer has none, the analysis raises
    [AttributeError] and no result is produced. *)
Theorem network_outcome (path : string) (model : MLModel) :
  type_is (which_type (get_spec model)) "neuralNetwork" = true ->
  (Forall (fun layer => layer_which layer <> None)
     (neuralNetwork_layers (get_spec model)) ->
   exists results,
     analyze_ml_program path model = Returned results
     /\ format results = "neuralNetwork"
     /\ warnings results
        = flat_map layer_warnings (neuralNetwork_layers (get_spec model))
     /\ blocking_issues results
        = map (fun layer => network_blocking_issue (layer_name layer))
            (filter layer_is_custom (neuralNetwork_layers (get_spec model))))
  /\ (Exists (fun layer => layer_which layer = None)
        (neuralNetwork_layers (get_spec model)) ->
      analyze_ml_program path model
      = Raised (Exn "AttributeError"
                  "'NoneType' object has no attribute 'lower'")).
Proof.
  intros Hty. pose proof (type_is_network_not_program _ Hty) as Hnp.
  unfold analyze_ml_program, analyze_format, analyze_neural_network_ops.
  rewrite Hty, Hnp. split.
  - intros Hall.
    destruct (network_layers_return _
                (with_format "neuralNetwork" (initial_results path)) Hall)
      as [r Hr].
    rewrite Hr. eexists. split; [reflexivity|].
    cbn [format warnings blocking_issues with_recommendations analyze_shapes
         with_output_shapes with_input_shapes].
    destruct (network_layers_fields _ _ _ Hr)
      as (_ & Hw & Hb & _ & _ & _ & _ & Hf & _).
    rewrite Hw, Hb, Hf. split; [reflexivity|]. split; [reflexivity|].
    apply (flat_map_if_filter layer_is_custom
             (fun layer => network_blocking_issue (layer_name layer))).
  - intros Hex. now rewrite network_layers_raise.
Qed.

(** A network with a layer of no kind after a custom layer. *)
Definition broken_network : MLModel :=
  {| get_spec :=
       {| which_type := Some "neuralNetwork";
          mlProgram_functions := [];
          neuralNetwork_layers :=
            [ {| layer_name := "plugin"; layer_which := Some "custom" |};
              {| layer_name := "empty"; layer_which := None |} ] |};
     input_description := [];
     output_description := [] |}.

Definition whole_network : MLModel :=
  {| get_spec := sample_network;
     input_description := [];
     output_description := [] |}.

Lemma network_outcome_witness :
  (exists results,
      analyze_ml_program "m" whole_network = Returned results
      /\ blocking_issues results
         = ["Custom layer 'plugin' not supported on ANE"])
  /\ analyze_ml_program "m" broken_network
     = Raised (Exn "AttributeError"
                 "'NoneType' object has no attribute 'lower'").
Proof.
  split.
  - destruct (proj1 (network_outcome "m" whole_network eq_refl))
      as (results & Hrun & _ & _ & Hb).
    + repeat constructor; discriminate.
    + exists results. split; [exact Hrun | exact Hb].
  - apply (proj2 (network_outcome "m" broken_network eq_refl)).
    apply Exists_cons_tl, Exists_cons_hd. reflexivity.
Defined.

(** *** Lower-casing and the problematic set *)

Lemma lower_ascii_idempotent (c : ascii) :
  lower_ascii (lower_ascii c) = lower_ascii c.
Proof. destruct c as [[] [] [] [] [] [] [] []]; reflexivity. Qed.

Lemma lower_idempotent (s : string) : lower (lower s) = lower s.
Proof.
  induction s as [|c s IH]; [reflexivity|].
  change (String (lower_ascii (lower_ascii c)) (lower (lower s))
          = String (lower_ascii c) (lower s)).
  now rewrite lower_ascii_idempotent, IH.
Qed.

Lemma customLayer_entry_is_dead_aux (op : string) :
  lower op <> "customLayer"
  /\ mem (lower op) ANE_PROBLEMATIC_OPS
     = mem (lower op)
         ["custom"; "reshape_dynamic"; "slice_dynamic"; "gather_nd"; "einsum"].
Proof.
  assert (Hne : lower op <> "customLayer").
  { intros H. pose proof (lower_idempotent op) as Hi.
    rewrite H in Hi. discriminate Hi. }
  split; [exact Hne|].
  unfold mem, ANE_PROBLEMATIC_OPS. cbn [existsb].
  destruct (String.eqb_spec (lower op) "customLayer"); [contradiction|].
  reflexivity.
Qed.

(** X4.  The entry "customLayer" of the problematic set is never matched:
    names are lower-cased before the look-up and the entry has a capital
    letter, so in both paths membership in the set is membership among the
    five other entries. *)
Theorem customLayer_entry_is_dead (op : string) :
  lower op <> "customLayer"
  /\ mem (lower op) ANE_PROBLEMATIC_OPS
     = mem (lower op)
         ["custom"; "reshape_dynamic"; "slice_dynamic"; "gather_nd"; "einsum"].
Proof. apply customLayer_entry_is_dead_aux. Qed.

(** *** The shape of the recommendations *)

(** The messages of the loop of lines 201-208. *)
Definition sequence_messages (shapes : dict (list Z)) : list string :=
  flat_map
    (fun item =>
       if (Nat.leb 2 (length (snd item))
           && (max_of (snd item) >? max_sequence_length))%bool
       then [REC_SEQUENCE (max_of (snd item))] else [])
    shapes.

(** The advice of lines 168-208, before the fallback of line 210. *)
Definition advice (r : Results) : list string :=
  let ops := keys (operations r) in
  (if ane_compatible r then [] else [REC_BLOCKING])
  ++ (match warnings r with [] => [] | _ => [REC_FALLBACK] end)
  ++ (if existsb
           (fun op => mem (lower op) ["matmul"; "linear"; "conv"; "conv2d"])
           ops
      then [REC_FLOAT16] else [])
  ++ (if existsb (fun op => contains "conv" (lower op)) ops
      then [REC_ALIGNMENT] else [])
  ++ (if existsb
           (fun op => (contains "attention" (lower op)
                       || contains "softmax" (lower op))%bool) ops
      then sequence_messages (input_shapes r) else []).

Lemma sequence_loop (shapes : dict (list Z)) (recs : list string) :
  fold_left sequence_recommendation shapes recs
  = (recs ++ sequence_messages shapes)%list.
Proof.
  unfold sequence_messages.
  revert recs. induction shapes as [|[name s] shapes IH]; intros recs.
  - cbn [fold_left flat_map]. now rewrite app_nil_r.
  - cbn [fold_left flat_map]. rewrite IH.
    unfold sequence_recommendation, append_if. cbn [snd].
    destruct s as [|x [|y s]]; cbn [length Nat.eqb Nat.leb negb andb];
      try reflexivity.
    destruct (max_of (x :: y :: s) >? max_sequence_length);
      [now rewrite <- app_assoc | reflexivity].
Qed.

Lemma generate_recommendations_advice (r : Results) :
  generate_recommendations r
  = match advice r with
    | [] => [REC_WELL_OPTIMIZED]
    | _ => advice r
    end.
Proof.
  unfold generate_recommendations, advice, append_if.
  destruct (ane_compatible r); destruct (warnings r) as [|w ws];
    cbn [negb length Nat.eqb app];
    destruct (existsb
                (fun op => mem (lower op)
                             ["matmul"; "linear"; "conv"; "conv2d"])
                (keys (operations r)));
    destruct (existsb (fun op => contains "conv" (lower op))
                (keys (operations r)));
    destruct (existsb
                (fun op => (contains "attention" (lower op)
                            || contains "softmax" (lower op))%bool)
                (keys (operations r)));
    cbn [app]; rewrite ?sequence_loop; cbn [app]; reflexivity.
Qed.

(** Two strings that differ at position [i] are different. *)
Ltac differ_at i :=
  let H := fresh in
  intro H; apply (f_equal (String.get i)) in H; vm_compute in H;
  discriminate H.

Lemma sequence_is_not_blocking n : REC_SEQUENCE n <> REC_BLOCKING.
Proof. differ_at 1%nat. Qed.
Lemma sequence_is_not_fallback n : REC_SEQUENCE n <> REC_FALLBACK.
Proof. differ_at 8%nat. Qed.
Lemma sequence_is_not_well_optimized n : REC_SEQUENCE n <> REC_WELL_OPTIMIZED.
Proof. differ_at 1%nat. Qed.

(** Where each piece of advice comes from. *)
Lemma In_advice (r : Results) (x : string) :
  In x (advice r) ->
  (x = REC_BLOCKING /\ ane_compatible r = false)
  \/ (x = REC_FALLBACK /\ warnings r <> [])
  \/ x = REC_FLOAT16
  \/ x = REC_ALIGNMENT
  \/ exists n, x = REC_SEQUENCE n.
Proof.
  unfold advice. rewrite !in_app_iff.
  intros [H|[H|[H|[H|H]]]].
  - destruct (ane_compatible r); [contradiction|].
    destruct H as [<-|[]]. now left.
  - destruct (warnings r); [contradiction|].
    destruct H as [<-|[]]. right; left. split; [reflexivity|discriminate].
  - destruct (existsb _ _); [|contradiction].
    destruct H as [<-|[]]. now right; right; left.
  - destruct (existsb _ _); [|contradiction].
    destruct H as [<-|[]]. now right; right; right; left.
  - destruct (existsb _ _); [|contradiction].
    unfold sequence_messages in H. apply in_flat_map in H as (item & _ & H).
    destruct (_ && _)%bool; [|contradiction].
    destruct H as [<-|[]]. right; right; right; right. now eexists.
Qed.

(** X5.  The recommendations are never empty.  The "well-optimized"
    message is never mixed with advice: when it is listed it is the only
    entry.  The blocking message comes first exactly when the flag is
    false, and the fallback message is listed exactly when there are
    warnings. *)
Theorem recommendations_shape (r : Results) :
  generate_recommendations r <> []
  /\ (In REC_WELL_OPTIMIZED (generate_recommendations r) ->
      generate_recommendations r = [REC_WELL_OPTIMIZED])
  /\ (ane_compatible r = false
      <-> hd_error (generate_recommendations r) = Some REC_BLOCKING)
  /\ (warnings r <> [] <-> In REC_FALLBACK (generate_recommendations r)).
Proof.
  rewrite generate_recommendations_advice.
  assert (Hin : forall x, In x (advice r) ->
                  x <> REC_WELL_OPTIMIZED
                  /\ (x = REC_BLOCKING -> ane_compatible r = false)
                  /\ (x = REC_FALLBACK -> warnings r <> [])).
  { intros x Hx.
    destruct (In_advice r x Hx) as [[-> Hc]|[[-> Hw]|[->|[->|[n ->]]]]].
    - split; [discriminate|]. split; [auto | discriminate].
    - split; [discriminate|]. split; [discriminate | auto].
    - split; [discriminate|]. split; discriminate.
    - split; [discriminate|]. split; discriminate.
    - split; [apply sequence_is_not_well_optimized|].
      split; intros H; [now apply sequence_is_not_blocking in H
                       | now apply sequence_is_not_fallback in H]. }
  split; [|split; [|split]].
  - destruct (advice r); discriminate.
  - destruct (advice r) as [|x l] eqn:E; [reflexivity|].
    intros Hok. now destruct (proj1 (Hin _ Hok)).
  - split.
    + intros Hc. unfold advice. rewrite Hc. reflexivity.
    + destruct (advice r) as [|x l] eqn:E; [discriminate|].
      intros [= ->]. apply (Hin REC_BLOCKING); [now left | reflexivity].
  - split.
    + intros Hw. assert (In REC_FALLBACK (advice r)) as Hf.
      { unfold advice. rewrite !in_app_iff. right; left.
        destruct (warnings r); [contradiction | now left]. }
      destruct (advice r); [contradiction | exact Hf].
    + destruct (advice r) as [|x l] eqn:E.
      * intros [H|[]]. discriminate H.
      * intros Hf. now apply (Hin REC_FALLBACK Hf).
Qed.

(** *** An unrecognized format *)

(** X6.  A model that is neither a program nor a legacy network is
    analysed without any operator being looked at: no operation is
    counted, there is no warning and no blocking issue, the flag is true
    and the only recommendation is the "well-optimized" message. *)
Theorem unrecognized_format (path : string) (model : MLModel) :
  type_is (which_type (get_spec model)) "mlProgram" = false ->
  type_is (which_type (get_spec model)) "neuralNetwork" = false ->
  exists results,
    analyze_ml_program path model = Returned results
    /\ format results = format_or_unknown (which_type (get_spec model))
    /\ operations results = []
    /\ warnings results = []
    /\ blocking_issues results = []
    /\ ane_compatible results = true
    /\ recommendations results = [REC_WELL_OPTIMIZED].
Proof.
  intros Hp Hn. unfold analyze_ml_program, analyze_format.
  rewrite Hp, Hn. eexists. split; [reflexivity|]. repeat split.
Qed.

(** A model of some other kind, with a long input. *)
Definition pipeline_model : MLModel :=
  {| get_spec :=
       {| which_type := Some "pipeline";
          mlProgram_functions :=
            [ {| function_name := "main";
                 block_specializations :=
                   [ {| block_operations := ["custom"; "softmax"] |} ] |} ];
          neuralNetwork_layers := [] |};
     input_description := [ tensor "x" [1; 4096] ];
     output_description := [] |}.

Lemma unrecognized_format_witness :
  exists results,
    analyze_ml_program "m" pipeline_model = Returned results
    /\ format results = "pipeline"
    /\ ane_compatible results = true
    /\ recommendations results = [REC_WELL_OPTIMIZED].
Proof.
  destruct (unrecognized_format "m" pipeline_model eq_refl eq_refl)
    as (results & Hrun & Hf & _ & _ & _ & Hc & Hrec).
  exists results. repeat split; assumption.
Defined.

(** *** The report *)

(** X7.  In the report an operation is marked "❌" exactly when its
    lower-cased type is custom, slice_dynamic or einsum.  The other
    problematic types, reshape_dynamic and gather_nd, contain the name of
    an optimized operation and are marked "✅" by the substring test of
    line 252. *)
Theorem status_problematic (op : string) :
  operation_status op = "❌"
  <-> In (lower op) ["custom"; "slice_dynamic"; "einsum"].
Proof.
  unfold operation_status.
  destruct (customLayer_entry_is_dead_aux op) as [Hne Hmem].
  rewrite Hmem.
  destruct (mem (lower op) ANE_OPTIMIZED_OPS
            || existsb (fun opt => contains opt (lower op)) ANE_OPTIMIZED_OPS)%bool
    eqn:E1.
  - split; [discriminate|].
    intros [H|[H|[H|[]]]]; rewrite <- H in E1; vm_compute in E1;
      discriminate E1.
  - destruct (mem (lower op)
                ["custom"; "reshape_dynamic"; "slice_dynamic"; "gather_nd";
                 "einsum"]) eqn:E2.
    + split; [intros _|reflexivity].
      unfold mem in E2. apply existsb_exists in E2 as (x & Hx & Heq).
      apply String.eqb_eq in Heq. rewrite Heq in *.
      destruct Hx as [<-|[<-|[<-|[<-|[<-|[]]]]]];
        try (vm_compute in E1; discriminate E1); cbn [In]; auto.
    + split; [discriminate|].
      intros [H|[H|[H|[]]]]; rewrite <- H in E2; vm_compute in E2;
        discriminate E2.
Qed.

Lemma insert_by_count_Permutation (x : string * Z) (l : list (string * Z)) :
  Permutation (insert_by_count x l) (x :: l).
Proof.
  induction l as [|y l IH]; cbn [insert_by_count]; [reflexivity|].
  destruct (snd y <=? snd x); [reflexivity|].
  rewrite IH. apply perm_swap.
Qed.

Lemma sorted_by_count_Permutation (items : list (string * Z)) :
  Permutation (sorted_by_count items) items.
Proof.
  unfold sorted_by_count.
  induction items as [|x items IH]; cbn [fold_right]; [reflexivity|].
  rewrite insert_by_count_Permutation. now constructor.
Qed.

(** Counts do not increase along the list. *)
Definition by_decreasing_count (a b : string * Z) : Prop := snd b <= snd a.

Lemma insert_by_count_Sorted (x : string * Z) (l : list (string * Z)) :
  Sorted by_decreasing_count l ->
  Sorted by_decreasing_count (insert_by_count x l).
Proof.
  induction 1 as [|y l Hl IH Hy]; cbn [insert_by_count].
  - repeat constructor.
  - destruct (Z.leb_spec (snd y) (snd x)) as [Hle|Hlt].
    + constructor; [now constructor|]. constructor. exact Hle.
    + constructor; [exact IH|].
      destruct l as [|z l]; cbn [insert_by_count].
      * constructor. unfold by_decreasing_count. lia.
      * destruct (snd z <=? snd x).
        -- constructor. unfold by_decreasing_count. lia.
        -- constructor. now inversion Hy.
Qed.

Lemma sorted_by_count_Sorted (items : list (string * Z)) :
  Sorted by_decreasing_count (sorted_by_count items).
Proof.
  unfold sorted_by_count.
  induction items as [|x items IH]; cbn [fold_right]; [constructor|].
  now apply insert_by_count_Sorted.
Qed.

(** Items of one count keep their order. *)
Lemma insert_by_count_stable (c : Z) (x : string * Z)
  (l : list (string * Z)) :
  filter (fun item => snd item =? c) (insert_by_count x l)
  = filter (fun item => snd item =? c) (x :: l).
Proof.
  induction l as [|y l IH]; cbn [insert_by_count]; [reflexivity|].
  destruct (Z.leb_spec (snd y) (snd x)) as [Hle|Hlt]; [reflexivity|].
  cbn [filter] in *. rewrite IH.
  destruct (Z.eqb_spec (snd x) c), (Z.eqb_spec (snd y) c);
    try reflexivity; lia.
Qed.

Lemma sorted_by_count_stable (c : Z) (items : list (string * Z)) :
  filter (fun item => snd item =? c) (sorted_by_count items)
  = filter (fun item => snd item =? c) items.
Proof.
  unfold sorted_by_count.
  induction items as [|x items IH]; cbn [fold_right]; [reflexivity|].
  rewrite insert_by_count_stable. cbn [filter]. now rewrite IH.
Qed.

(** X8.  The operation counts of the report list the operations by
    decreasing count, operations of equal count in the order they were
    first met; at most 20 are listed, and one more line tells how many are
    left out exactly when there are more than 20. *)
Theorem operation_lines_order (operations : dict Z) :
  Permutation (sorted_by_count operations) operations
  /\ Sorted by_decreasing_count (sorted_by_count operations)
  /\ (forall c,
         filter (fun item => snd item =? c) (sorted_by_count operations)
         = filter (fun item => snd item =? c) operations)
  /\ operation_lines operations
     = (map operation_line (firstn 20 (sorted_by_count operations))
        ++ (if (20 <? length operations)%nat
            then [("   ... and "
                   ++ str_of_int (Z.of_nat (length operations) - 20)
                   ++ " more operation types")%string]
            else []))%list
  /\ length (operation_lines operations)
     = (if (20 <? length operations)%nat then 21%nat
        else length operations).
Proof.
  pose proof (sorted_by_count_Permutation operations) as Hperm.
  pose proof (Permutation_length Hperm) as Hlen.
  split; [exact Hperm|].
  split; [apply sorted_by_count_Sorted|].
  split; [intros c; apply sorted_by_count_stable|].
  assert (E : operation_lines operations
              = (map operation_line (firstn 20 (sorted_by_count operations))
                 ++ (if (20 <? length operations)%nat
                     then [("   ... and "
                            ++ str_of_int (Z.of_nat (length operations) - 20)
                            ++ " more operation types")%string]
                     else []))%list).
  { unfold operation_lines. now rewrite Hlen. }
  split; [exact E|].
  rewrite E, length_app, length_map, length_firstn, Hlen.
  destruct (Nat.ltb_spec 20 (length operations)); cbn [length]; lia.
Qed.

End AnalyzeAneMore.

(** ** More properties of quantize_kokoro.py *)

Module QuantizeKokoroMore.
Import AnalyzeAne QuantizeKokoro PyFacts QuantizeKokoroFacts.

(** *** Suffixes *)

#[local] Arguments String.append !s1 s2.

Lemma substring_all (s : string) : substring 0 (String.length s) s = s.
Proof. induction s as [|c s IH]; cbn; [reflexivity | now rewrite IH]. Qed.

Lemma substring_append (p s : string) :
  substring (String.length p) (String.length s) (p ++ s) = s.
Proof.
  induction p as [|c p IH]; cbn; [apply substring_all | exact IH].
Qed.

Lemma length_append (p s : string) :
  String.length (p ++ s) = (String.length p + String.length s)%nat.
Proof. induction p as [|c p IH]; cbn; [reflexivity | now rewrite IH]. Qed.

Lemma substring_split (s : string) (k : nat) :
  (k <= String.length s)%nat ->
  s = substring 0 k s ++ substring k (String.length s - k) s.
Proof.
  revert k. induction s as [|c s IH]; intros [|k] Hk; cbn in *;
    try reflexivity; try lia.
  - now rewrite substring_all.
  - f_equal. apply IH. lia.
Qed.

(** [endswith] holds exactly of the strings that are some prefix
    followed by the suffix. *)
Theorem endswith_spec (s suffix : string) :
  endswith s suffix = true <-> exists prefix, s = prefix ++ suffix.
Proof.
  unfold endswith. split.
  - intros H. apply andb_prop in H as [Hle Heq].
    apply Nat.leb_le in Hle. apply String.eqb_eq in Heq.
    exists (substring 0 (String.length s - String.length suffix) s).
    pose proof (substring_split s (String.length s - String.length suffix))
      as Hs.
    replace (String.length s - (String.length s - String.length suffix))%nat
      with (String.length suffix) in Hs by lia.
    rewrite Heq in Hs. apply Hs. lia.
  - intros [prefix ->]. rewrite length_append.
    replace (String.length prefix + String.length suffix
             - String.length suffix)%nat
      with (String.length prefix) by lia.
    rewrite substring_append, String.eqb_refl, andb_true_r.
    apply Nat.leb_le. lia.
Qed.

(** *** What a run may call *)

Section Traces.
Context {World : Type}.
Variable lib : Library World.
Variable P : event -> Prop.

Lemma Forall_trace_bind {A B : Type} (m : M A) (k : A -> M B) (w : World) :
  Forall P (trace (m w)) ->
  (forall a w', Forall P (trace (k a w'))) ->
  Forall P (trace (bind m k w)).
Proof.
  intros Hm Hk. unfold bind.
  destruct (m w) as [[a|e] w1 t]; cbn [trace] in *; [|exact Hm].
  specialize (Hk a w1). destruct (k a w1) as [v w2 t']. cbn [trace] in *.
  apply Forall_app. now split.
Qed.

Lemma Forall_trace_try {A : Type} (m : M A) (h : exn -> M A) (w : World) :
  Forall P (trace (m w)) ->
  (forall e w', Forall P (trace (h e w'))) ->
  Forall P (trace (try_except m h w)).
Proof.
  intros Hm Hh. unfold try_except.
  destruct (m w) as [[a|e] w1 t]; cbn [trace] in *; [exact Hm|].
  specialize (Hh e w1). destruct (h e w1) as [v w2 t']. cbn [trace] in *.
  apply Forall_app. now split.
Qed.

Lemma Forall_trace_print (line : list fragment) (w : World) :
  P (Printed line) -> Forall P (trace (print line w)).
Proof. intros H. repeat constructor. exact H. Qed.

Lemma Forall_trace_reading {A : Type} (c : call) (f : World -> outcome A)
  (w : World) :
  P (Called c) -> Forall P (trace (reading c f w)).
Proof. intros H. repeat constructor. exact H. Qed.

Lemma Forall_trace_acting {A : Type} (c : call)
  (f : World -> outcome A * World) (w : World) :
  P (Called c) -> Forall P (trace (acting c f w)).
Proof. intros H. repeat constructor. exact H. Qed.

Lemma Forall_trace_ret {A : Type} (a : A) (w : World) :
  Forall P (trace (ret a w)).
Proof. constructor. Qed.

Lemma Forall_trace_lift {A : Type} (o : outcome A) (w : World) :
  Forall P (trace (lift o w)).
Proof. constructor. Qed.

End Traces.

(** Split a run into its steps, leaving one goal for each printed line and
    each call. *)
Ltac steps :=
  repeat first
    [ apply Forall_trace_bind; [|intros ? ?]
    | apply Forall_trace_try; [|intros ? ?]
    | apply Forall_trace_print
    | apply Forall_trace_reading
    | apply Forall_trace_acting
    | apply Forall_trace_ret
    | apply Forall_trace_lift
    | match goal with
      | |- Forall _ (trace ((if ?c then _ else _) _)) => destruct c
      | |- Forall _ (trace (match ?x with Some _ => _ | None => _ end _)) =>
          destruct x
      | |- Forall _ (trace (match ?x with [] => _ | _ :: _ => _ end _)) =>
          destruct x
      end ].

Section Compiler.
Context {World : Type}.
Variable lib : Library World.

(** The command of line 279. *)
Definition compiler_command (args : Args) : list string :=
  ["xcrun"; "coremlcompiler"; "compile"; arg_output args;
   os_path_dirname lib (arg_output args)].

(** Every event but a wrong call of the device compiler. *)
Definition gated (args : Args) (ev : event) : Prop :=
  match ev with
  | Called (run_ command) =>
      arg_from_onnx args = false
      /\ arg_compile args = true
      /\ endswith (arg_output args) ".mlpackage" = true
      /\ command = compiler_command args
  | _ => True
  end.

Lemma main_gated (args : Args) (w : World) :
  Forall (gated args) (trace (main lib args w)).
Proof.
  unfold main.
  destruct (arg_from_onnx args) eqn:Honnx.
  - unfold convert_onnx_to_coreml_fp16. steps; exact I.
  - destruct (arg_compile args && endswith (arg_output args) ".mlpackage")%bool
      eqn:Hgate.
    + apply andb_prop in Hgate as [Hc He].
      unfold analyze_model, quantize_to_float16, quantize_to_int8,
        validate_quantized_model, predict_and_compare, compare_audio,
        compile_for_device, get_model_size_mb.
      steps; try exact I.
      cbn [gated]. rewrite Hc. auto.
    + unfold analyze_model, quantize_to_float16, quantize_to_int8,
        validate_quantized_model, predict_and_compare, compare_audio,
        get_model_size_mb.
      steps; exact I.
Qed.

(** X9.  Whatever the libraries do, [main] runs the device compiler only
    on a run without [--from-onnx], with [--compile], and with an output
    path that ends in ".mlpackage"; the command is then [xcrun
    coremlcompiler compile] on the output and its directory. *)
Theorem compiler_calls (args : Args) (w : World) (command : list string) :
  In (Called (run_ command)) (trace (main lib args w)) ->
  arg_from_onnx args = false
  /\ arg_compile args = true
  /\ (exists prefix, arg_output args = prefix ++ ".mlpackage")
  /\ command = compiler_command args.
Proof.
  intros Hin.
  pose proof (main_gated args w) as Hall.
  rewrite Forall_forall in Hall. specialize (Hall _ Hin).
  destruct Hall as (H1 & H2 & H3 & H4).
  repeat split; try assumption. now apply endswith_spec.
Qed.

End Compiler.

(** *** An input without files *)


Section EmptyInput.
Context {World : Type}.
Variable lib : Library World.


End EmptyInput.



(** *** The comparison *)

Lemma length_truncated (a b : array) :
  length (truncated a b) = Nat.min (length a) (length b).
Proof. unfold truncated. rewrite length_firstn. lia. Qed.

Lemma truncated_truncated (a b : array) :
  truncated (truncated a b) (truncated b a) = truncated a b.
Proof.
  unfold truncated at 1. rewrite !length_truncated.
  rewrite (Nat.min_comm (length b)), Nat.min_id.
  unfold truncated. rewrite firstn_firstn. f_equal. lia.
Qed.

Section Comparison.
Context {World : Type}.
Variable lib : Library World.

Lemma compare_audio_truncated (a b : array) :
  compare_audio lib a b
  = compare_audio lib (truncated a b) (truncated b a).
Proof.
  unfold compare_audio.
  fold (truncated a b).
  fold (truncated (truncated a b) (truncated b a)).
  rewrite (Nat.min_comm (length a) (length b)).
  fold (truncated b a).
  rewrite (Nat.min_comm (length (truncated a b)) (length (truncated b a))).
  fold (truncated (truncated b a) (truncated a b)).
  now rewrite !truncated_truncated.
Qed.

(** X11.  The comparison looks at the first samples of each array only, as
    many as the shorter array has: samples of the longer array beyond
    that length change neither the result nor what is printed. *)
Theorem extra_samples_ignored (a b extra : array) (w : World) :
  (length a <= length b)%nat ->
  compare_audio lib a (b ++ extra)%list w = compare_audio lib a b w
  /\ compare_audio lib (b ++ extra)%list a w = compare_audio lib b a w.
Proof.
  intros Hlen.
  assert (Ha : truncated a (b ++ extra)%list = truncated a b).
  { unfold truncated. rewrite length_app. f_equal. lia. }
  assert (Hb : truncated (b ++ extra)%list a = truncated b a).
  { unfold truncated. rewrite length_app.
    replace (Nat.min (length b + length extra) (length a))
      with (Nat.min (length b) (length a)) by lia.
    rewrite firstn_app.
    replace (Nat.min (length b) (length a) - length b)%nat with 0%nat by lia.
    apply app_nil_r. }
  split.
  - rewrite (compare_audio_truncated a (b ++ extra)%list),
      (compare_audio_truncated a b). now rewrite Ha, Hb.
  - rewrite (compare_audio_truncated (b ++ extra)%list a),
      (compare_audio_truncated b a). now rewrite Ha, Hb.
Qed.

End Comparison.

Definition compile_args : Args :=
  {| arg_input := "kokoro.mlpackage";
     arg_output := "kokoro_fp16.mlpackage";
     arg_precision := "float16";
     arg_from_onnx := false;
     arg_validate := false;
     arg_compile := true;
     arg_target := "ios16" |}.

(** A run with [--compile]: the one call of the compiler. *)
Lemma compiler_calls_witness :
  arg_compile compile_args = true
  /\ (exists prefix, arg_output compile_args = prefix ++ ".mlpackage")
  /\ ["xcrun"; "coremlcompiler"; "compile"; "kokoro_fp16.mlpackage"; "build"]
     = compiler_command (stub (52 * MB) no_outputs) compile_args.
Proof.
  assert (Hin : In (Called (run_ ["xcrun"; "coremlcompiler"; "compile";
                                  "kokoro_fp16.mlpackage"; "build"]))
                  (trace (main (stub (52 * MB) no_outputs) compile_args
                            (world_with program_model 100)))).
  { vm_compute. auto 40. }
  destruct (compiler_calls (stub (52 * MB) no_outputs) compile_args
              (world_with program_model 100) _ Hin) as (_ & H2 & H3 & H4).
  auto.
Defined.

(** One sample against two. *)
Lemma extra_samples_ignored_witness :
  compare_audio (stub 0 no_outputs) [of_int 1] ([of_int 2] ++ [of_int 3])%list
    (world_with_both 100)
  = compare_audio (stub 0 no_outputs) [of_int 1] [of_int 2]
      (world_with_both 100).
Proof.
  apply (proj1 (extra_samples_ignored (stub 0 no_outputs) [of_int 1]
                  [of_int 2] [of_int 3] (world_with_both 100)
                  (le_n 1))).
Defined.

(** *** NaN samples *)

Lemma fadd_nan_r (x : float) : fadd x S754_nan = S754_nan.
Proof. now destruct x. Qed.

Lemma maximum_nan_r (x : float) : maximum x S754_nan = S754_nan.
Proof. now destruct x. Qed.

Lemma fold_fadd_nan (l : array) (acc : float) :
  acc = S754_nan \/ In S754_nan l -> fold_left fadd l acc = S754_nan.
Proof.
  revert acc. induction l as [|x l IH]; intros acc [H|H]; cbn [fold_left].
  - exact H.
  - contradiction.
  - apply IH. left. now subst.
  - apply IH. destruct H as [->|H]; [left; apply fadd_nan_r | now right].
Qed.

Lemma fold_maximum_nan (l : array) (acc : float) :
  acc = S754_nan \/ In S754_nan l -> fold_left maximum l acc = S754_nan.
Proof.
  revert acc. induction l as [|x l IH]; intros acc [H|H]; cbn [fold_left].
  - exact H.
  - contradiction.
  - apply IH. left. now subst.
  - apply IH. destruct H as [->|H]; [left; apply maximum_nan_r | now right].
Qed.

Lemma np_mean_nan (a : array) : In S754_nan a -> np_mean a = S754_nan.
Proof.
  intros H. unfold np_mean, np_sum. destruct a as [|x a]; [contradiction|].
  rewrite fold_fadd_nan; [reflexivity|].
  destruct H as [->|H]; [now left | now right].
Qed.

Lemma np_max_nan (a : array) : In S754_nan a -> np_max a = Returned S754_nan.
Proof.
  intros H. unfold np_max. destruct a as [|x a]; [contradiction|].
  rewrite fold_maximum_nan; [reflexivity|].
  destruct H as [->|H]; [now left | now right].
Qed.

(** The maximum is one of the elements. *)
Lemma maximum_cases (x y : float) : maximum x y = x \/ maximum x y = y.
Proof.
  unfold maximum. destruct x, y; auto; destruct (SFltb _ _); auto.
Qed.

Lemma fold_maximum_In (l : array) (acc : float) :
  In (fold_left maximum l acc) (acc :: l).
Proof.
  revert acc. induction l as [|x l IH]; intros acc; cbn [fold_left].
  - now left.
  - destruct (IH (maximum acc x)) as [H|H].
    + rewrite <- H. destruct (maximum_cases acc x) as [->| ->];
        [now left | now right; left].
    + now right; right.
Qed.

Section Errors.
Context {World : Type}.
Variable lib : Library World.

(** Without a maximum there is no result. *)
Lemma compare_audio_raises (a b : array) (w : World) (e : exn) :
  np_max (np_abs (noise_of a b)) = Raised e ->
  value (compare_audio lib a b w) = Raised e.
Proof.
  intros Hmax. unfold compare_audio.
  fold (truncated a b).
  rewrite (Nat.min_comm (length a) (length b)).
  fold (truncated b a). fold (noise_of a b).
  run. rewrite Hmax. reflexivity.
Qed.

(** X12.  When the difference of the truncated arrays holds a NaN (a NaN
    sample, or two infinite samples of one sign), the noise power is a
    NaN, the test [noise_power > 0] fails, and the comparison reports the
    infinite SNR together with NaN maximal and mean errors. *)
Theorem nan_reported_as_infinite_snr (a b : array) (w : World) :
  In S754_nan (noise_of a b) ->
  value (compare_audio lib a b w)
  = Returned (Some {| snr_db := inf; max_error := S754_nan;
                      mean_error := S754_nan |}).
Proof.
  intros H.
  assert (Habs : In S754_nan (np_abs (noise_of a b))).
  { unfold np_abs. now apply (in_map fabs) in H. }
  assert (Hsq : In S754_nan (np_square (noise_of a b))).
  { unfold np_square.
    now apply (in_map (fun x => fmul x x)) in H. }
  rewrite (compare_audio_value lib a b w S754_nan) by now apply np_max_nan.
  unfold noise_power_of. rewrite (np_mean_nan _ Hsq), (np_mean_nan _ Habs).
  reflexivity.
Qed.

(** X13.  When the comparison returns metrics, the maximal error it
    reports is the absolute value of the difference at some sample. *)
Theorem max_error_is_a_sample (a b : array) (w : World) (quality : Quality) :
  value (compare_audio lib a b w) = Returned (Some quality) ->
  In (max_error quality) (np_abs (noise_of a b)).
Proof.
  destruct (np_max (np_abs (noise_of a b))) as [m|e] eqn:Hmax.
  - rewrite (compare_audio_value lib a b w m Hmax). intros [= <-].
    cbn [max_error]. revert Hmax. unfold np_max.
    destruct (np_abs (noise_of a b)) as [|x l]; [discriminate|].
    intros [= <-]. apply fold_maximum_In.
  - now rewrite (compare_audio_raises a b w e Hmax).
Qed.

End Errors.

Lemma nan_reported_as_infinite_snr_witness :
  value (compare_audio (stub 0 no_outputs) [of_int 1; inf] [of_int 1; inf]
           (world_with_both 100))
  = Returned (Some {| snr_db := inf; max_error := S754_nan;
                      mean_error := S754_nan |}).
Proof.
  apply (nan_reported_as_infinite_snr (stub 0 no_outputs)).
  vm_compute. auto.
Defined.

Lemma max_error_is_a_sample_witness :
  In (of_int 3)
    (np_abs (noise_of [of_int 1; of_int 5; of_int 2]
               [of_int 2; of_int 2; of_int 2])).
Proof.
  apply (max_error_is_a_sample (stub 0 no_outputs)
           [of_int 1; of_int 5; of_int 2] [of_int 2; of_int 2; of_int 2]
           (world_with_both 100)
           {| snr_db := snr_formula (stub 0 no_outputs)
                          (signal_power_of [of_int 1; of_int 5; of_int 2]
                             [of_int 2; of_int 2; of_int 2])
                          (noise_power_of [of_int 1; of_int 5; of_int 2]
                             [of_int 2; of_int 2; of_int 2]);
              max_error := of_int 3;
              mean_error := np_mean (np_abs (noise_of
                                               [of_int 1; of_int 5; of_int 2]
                                               [of_int 2; of_int 2; of_int 2]))
           |}).
  vm_compute. reflexivity.
Defined.

(** *** The last line of a run *)

(** Line 360. *)
Definition done_line : event := Printed [Text (nl ++ "🎉 Done!")].

Definition not_done (ev : event) : Prop := ev <> done_line.

Ltac other_event :=
  unfold not_done, done_line;
  let H := fresh in
  intro H; first [discriminate H | vm_compute in H; discriminate H].

Section Done.
Context {World : Type}.
Variable lib : Library World.

Lemma stage_done {A : Type} (m : M A) (k : A -> M unit) (w : World) :
  Forall not_done (trace (m w)) ->
  (forall a w', value (k a w') = Returned tt
                <-> In done_line (trace (k a w'))) ->
  (value (bind m k w) = Returned tt
   <-> In done_line (trace (bind m k w))).
Proof.
  intros Hm Hk. unfold bind.
  destruct (m w) as [[a|e] w1 t]; cbn [trace] in Hm.
  - specialize (Hk a w1). destruct (k a w1) as [v w2 t'].
    cbn [value trace] in *. rewrite in_app_iff, Hk.
    rewrite Forall_forall in Hm. split; [now right|].
    intros [H|H]; [now apply Hm in H | exact H].
  - cbn [value trace]. rewrite Forall_forall in Hm.
    split; [discriminate | intros H; now apply Hm in H].
Qed.

Lemma analyze_model_not_done (path : string) (w : World) :
  Forall not_done (trace (analyze_model lib path w)).
Proof.
  unfold analyze_model, get_model_size_mb. steps; other_event.
Qed.

Lemma quantize_not_done (precision input_path output_path : string)
  (w : World) :
  Forall not_done (trace (quantize lib precision input_path output_path w)).
Proof.
  unfold quantize, quantize_to_float16, quantize_to_int8, get_model_size_mb.
  steps; other_event.
Qed.

Lemma validate_not_done (original_path quantized_path : string) (w : World) :
  Forall not_done
    (trace (validate_quantized_model lib original_path quantized_path w)).
Proof.
  unfold validate_quantized_model, predict_and_compare, compare_audio.
  steps; other_event.
Qed.

Lemma compile_not_done (mlpackage_path output_dir : string) (w : World) :
  Forall not_done (trace (compile_for_device lib mlpackage_path output_dir w)).
Proof. unfold compile_for_device. steps; other_event. Qed.

(** X14.  Without [--from-onnx], "Done!" is printed exactly when the run
    ends without an exception: a failed validation or a compiler that
    returns an error code does not prevent it, and after an exception it
    is never printed. *)
Theorem done_iff_returned (args : Args) (w : World) :
  arg_from_onnx args = false ->
  (value (main lib args w) = Returned tt
   <-> In done_line (trace (main lib args w))).
Proof.
  intros Honnx. unfold main. rewrite Honnx.
  apply stage_done; [apply analyze_model_not_done|]. intros _ w1.
  apply stage_done; [apply quantize_not_done|]. intros _ w2.
  apply stage_done.
  { destruct (arg_validate args);
      [apply Forall_trace_bind;
       [apply validate_not_done | intros; apply Forall_trace_ret]
      | apply Forall_trace_ret]. }
  intros _ w3.
  apply stage_done.
  { destruct (arg_compile args && endswith (arg_output args) ".mlpackage")%bool;
      [apply Forall_trace_bind;
       [apply compile_not_done | intros; apply Forall_trace_ret]
      | apply Forall_trace_ret]. }
  intros _ w4. cbn. split; [now left | reflexivity].
Qed.

End Done.

(** A compiler that fails. *)
Definition failing_compiler_lib : Library StubWorld :=
  {| ct_MLModel := stub_load;
     os_walk := os_walk (stub (52 * MB) predict_fails);
     os_path_join := os_path_join (stub (52 * MB) predict_fails);
     os_path_isfile := os_path_isfile (stub (52 * MB) predict_fails);
     os_path_getsize := os_path_getsize (stub (52 * MB) predict_fails);
     os_path_dirname := os_path_dirname (stub (52 * MB) predict_fails);
     linear_quantize_weights :=
       linear_quantize_weights (stub (52 * MB) predict_fails);
     quantize_weights := quantize_weights (stub (52 * MB) predict_fails);
     palettize_weights := palettize_weights (stub (52 * MB) predict_fails);
     model_save := model_save (stub (52 * MB) predict_fails);
     ct_convert := ct_convert (stub (52 * MB) predict_fails);
     np_random_randn := np_random_randn (stub (52 * MB) predict_fails);
     model_predict := model_predict (stub (52 * MB) predict_fails);
     np_log10 := stub_log10;
     subprocess_run := fun _ w => (Returned (1, "error: no such model"), w) |}.

Definition validate_and_compile_args : Args :=
  {| arg_input := "kokoro.mlpackage";
     arg_output := "kokoro_fp16.mlpackage";
     arg_precision := "float16";
     arg_from_onnx := false;
     arg_validate := true;
     arg_compile := true;
     arg_target := "ios16" |}.

(** Predictions raise and the compiler fails: the run still ends with
    "Done!". *)
Lemma done_iff_returned_witness :
  In done_line
    (trace (main failing_compiler_lib validate_and_compile_args
              (world_with program_model 100)))
  /\ In (Printed [Text "  ❌ Compilation failed: ";
                  Text "error: no such model"])
       (trace (main failing_compiler_lib validate_and_compile_args
                 (world_with program_model 100))).
Proof.
  split.
  - apply (proj1 (done_iff_returned failing_compiler_lib
                    validate_and_compile_args (world_with program_model 100)
                    eq_refl)).
    vm_compute. reflexivity.
  - vm_compute. auto 60.
Defined.

(** *** analyze_model *)

(** The dictionary [layer_types] of lines 47-53. *)
Definition layer_counts (layers : list Layer) : list (option string * Z) :=
  fold_left (fun layer_types layer =>
               count_layer (layer_which layer) layer_types)
    layers [].

(** [d.get(k)] on a dictionary whose keys may be [None]. *)
Fixpoint find_count (k : option string) (d : list (option string * Z))
  : option Z :=
  match d with
  | [] => None
  | (k', n) :: d' => if key_eqb k k' then Some n else find_count k d'
  end.

Lemma key_eqb_refl (k : option string) : key_eqb k k = true.
Proof. destruct k; cbn; [apply String.eqb_refl | reflexivity]. Qed.

Lemma key_eqb_eq (a b : option string) : key_eqb a b = true -> a = b.
Proof.
  destruct a, b; cbn; try discriminate; [|reflexivity].
  intros H. apply String.eqb_eq in H. now subst.
Qed.

Lemma key_eqb_sym (a b : option string) : key_eqb a b = key_eqb b a.
Proof. destruct a, b; cbn; try reflexivity. apply String.eqb_sym. Qed.

Lemma find_count_layer (k k' : option string) (d : list (option string * Z)) :
  find_count k (count_layer k' d)
  = if key_eqb k k'
    then Some (match find_count k d with Some n => n | None => 0 end + 1)
    else find_count k d.
Proof.
  induction d as [|[k0 n] d IH]; cbn [count_layer find_count].
  - destruct (key_eqb k k'); reflexivity.
  - destruct (key_eqb k' k0) eqn:E0; cbn [find_count].
    + apply key_eqb_eq in E0. subst k0.
      destruct (key_eqb k k'); reflexivity.
    + rewrite IH. destruct (key_eqb k k') eqn:E1; [|reflexivity].
      apply key_eqb_eq in E1. subst k'.
      rewrite E0. reflexivity.
Qed.

Lemma find_count_fold (layers : list Layer) (d : list (option string * Z))
  (k : option string) :
  find_count k
    (fold_left (fun layer_types layer =>
                  count_layer (layer_which layer) layer_types) layers d)
  = match length (filter (fun layer => key_eqb k (layer_which layer)) layers)
    with
    | O => find_count k d
    | S n =>
        Some (match find_count k d with Some c => c | None => 0 end
              + Z.of_nat (S n))
    end.
Proof.
  revert d. induction layers as [|layer layers IH]; intros d; [reflexivity|].
  cbn [fold_left filter]. rewrite IH, find_count_layer.
  destruct (key_eqb k (layer_which layer)); cbn [length].
  - destruct (length (filter _ layers)); f_equal; lia.
  - reflexivity.
Qed.

Section AnalyzeModel.
Context {World : Type}.
Variable lib : Library World.

(** X15.  For a legacy network with at least one layer, [analyze_model]
    prints the layer breakdown, in which each layer kind, the missing
    kind [None] included, is counted as often as it occurs; a layer
    without a kind raises nothing here, and the function returns the
    loaded model. *)
Theorem layer_breakdown (model_path : string) (w : World) (model : MLModel) :
  ct_MLModel lib model_path w = Returned model ->
  type_is (which_type (get_spec model)) "neuralNetwork" = true ->
  neuralNetwork_layers (get_spec model) <> [] ->
  value (analyze_model lib model_path w) = Returned model
  /\ In (Printed [Text "  Layer breakdown: ";
                  Counts (layer_counts (neuralNetwork_layers (get_spec model)))])
       (trace (analyze_model lib model_path w))
  /\ forall k,
       find_count k (layer_counts (neuralNetwork_layers (get_spec model)))
       = match length (filter (fun layer => key_eqb k (layer_which layer))
                         (neuralNetwork_layers (get_spec model)))
         with
         | O => None
         | S n => Some (Z.of_nat (S n))
         end.
Proof.
  intros Hload Hty Hne.
  assert (Hcounts : layer_counts (neuralNetwork_layers (get_spec model)) <> []).
  { unfold layer_counts.
    destruct (neuralNetwork_layers (get_spec model)) as [|layer layers];
      [contradiction|].
    intros H. pose proof (find_count_fold (layer :: layers) []
                            (layer_which layer)) as Hf.
    rewrite H in Hf. cbn [filter] in Hf. rewrite key_eqb_refl in Hf.
    discriminate Hf. }
  split; [|split].
  - rewrite <- Hload. apply (analyze_model_run lib).
  - unfold analyze_model. run. rewrite Hload, Hty. run.
    fold (layer_counts (neuralNetwork_layers (get_spec model))).
    destruct (layer_counts (neuralNetwork_layers (get_spec model)));
      [contradiction|].
    run. cbn [app In]. auto 10.
  - intros k. unfold layer_counts. rewrite find_count_fold.
    destruct (length _); reflexivity.
Qed.

End AnalyzeModel.

(** A network with a layer of no kind between two convolutions. *)
Definition untyped_layer_network : MLModel :=
  {| get_spec :=
       {| which_type := Some "neuralNetwork";
          mlProgram_functions := [];
          neuralNetwork_layers :=
            [ {| layer_name := "c1"; layer_which := Some "convolution" |};
              {| layer_name := "x"; layer_which := None |};
              {| layer_name := "c2"; layer_which := Some "convolution" |} ] |};
     input_description := [];
     output_description := [] |}.

Lemma layer_breakdown_witness :
  value (analyze_model (stub 0 no_outputs) "kokoro.mlpackage"
           (world_with untyped_layer_network 100))
  = Returned untyped_layer_network
  /\ find_count None
       (layer_counts (neuralNetwork_layers (get_spec untyped_layer_network)))
     = Some 1
  /\ find_count (Some "convolution")
       (layer_counts (neuralNetwork_layers (get_spec untyped_layer_network)))
     = Some 2.
Proof.
  destruct (layer_breakdown (stub 0 no_outputs) "kokoro.mlpackage"
              (world_with untyped_layer_network 100) untyped_layer_network
              eq_refl eq_refl) as (Hv & _ & Hc).
  - discriminate.
  - split; [exact Hv|]. split; [exact (Hc None) | exact (Hc (Some "convolution"))].
Defined.

End QuantizeKokoroMore.

